(** * YoutubeTranslatorPro: batch orchestrator and cache layer

    A shallow embedding of [batch.py] (TaskProgress, BatchProcessor) and
    [cache.py] (CacheManager) together with the properties stated about
    them in the design specification.

    Conventions of the embedding.
    - A Python [str] is a Rocq [string] holding its UTF-8 bytes, so
      [encode('utf-8')] is the identity and byte order is code-point order.
    - A Python exception is [Raise msg], where [msg] is what [str(e)] gives.
    - Progress fractions are Python floats in the source.  They are read
      here as exact rationals ([Q]); the decimal literals of the weight
      table are the rationals they spell.  Module [Binary64] evaluates the
      same table in IEEE binary64 for comparison.
    - Library code the program calls (hashlib, urllib, diskcache, the
      media collaborators) is either written out (MD5), supplied as an
      interface with a reference instance (diskcache, urlparse) or supplied
      per job as an environment record (collaborators, clock, cancel
      requests of other threads).
    - The worker pool is modelled by the schedule in which submitted jobs
      run one after another in submission order; every write a pipeline
      run makes goes to its own task object, to the shared cache or to the
      event log. *)

From Stdlib Require Import ZArith QArith Lqa List Lia Bool Ascii String PrimFloat Permutation.
From stdpp Require Import gmap strings.
Import ListNotations.

Local Open Scope string_scope.
Local Open Scope list_scope.

(* ===================================================================== *)
(** * Python values and exceptions *)
(* ===================================================================== *)

(** Result of a call that may raise. *)
Inductive Outcome (A : Type) : Type :=
| Ok (a : A)
| Raise (msg : string).
Arguments Ok {A} a.
Arguments Raise {A} msg.

(** The Python values that travel through the cache and the pipeline. *)
#[warnings="-register-all"]
Inductive PyVal : Type :=
| PyNone
| PyBool (b : bool)
| PyInt (z : Z)
| PyStr (s : string)
| PyList (l : list PyVal)
| PyDict (d : list (string * PyVal)).

(** [bool(v)] *)
Definition truthy (v : PyVal) : bool :=
  match v with
  | PyNone => false
  | PyBool b => b
  | PyInt z => negb (Z.eqb z 0)
  | PyStr s => negb (String.eqb s "")
  | PyList l => match l with [] => false | _ => true end
  | PyDict d => match d with [] => false | _ => true end
  end.

(** Truth value of an [Optional[str]] argument. *)
Definition truthy_opt (o : option string) : bool :=
  match o with
  | None => false
  | Some s => negb (String.eqb s "")
  end.

(** Insertion-ordered dictionaries: assignment to an existing key keeps
    its position, a new key goes to the end. *)
Fixpoint dict_get {V : Type} (k : string) (d : list (string * V)) : option V :=
  match d with
  | [] => None
  | (k', v) :: r => if String.eqb k k' then Some v else dict_get k r
  end.

Fixpoint dict_set {V : Type} (k : string) (v : V) (d : list (string * V)) : list (string * V) :=
  match d with
  | [] => [(k, v)]
  | (k', v') :: r => if String.eqb k k' then (k, v) :: r else (k', v') :: dict_set k v r
  end.

Definition dict_keys {V : Type} (d : list (string * V)) : list string := map fst d.
Definition dict_values {V : Type} (d : list (string * V)) : list V := map snd d.

(** Scalar values as they occur in cache parameter dictionaries. *)
Inductive ParamVal : Type :=
| PNone
| PBool (b : bool)
| PInt (z : Z)
| PStr (s : string).

Definition digit_char (d : Z) : ascii := ascii_of_N (Z.to_N (48 + d)).

Fixpoint decimal_digits (fuel : nat) (n : Z) (acc : string) : string :=
  match fuel with
  | O => acc
  | S fuel' =>
      let acc' := String (digit_char (n mod 10)) acc in
      if Z.ltb n 10 then acc' else decimal_digits fuel' (n / 10) acc'
  end.

(** [str(z)] for an int. *)
Definition str_of_int (z : Z) : string :=
  let body := decimal_digits (S (Z.to_nat (Z.log2 (Z.abs z)))) (Z.abs z) "" in
  if Z.ltb z 0 then "-" +:+ body else body.

(** [str(v)], as used by the f-string [f"{k}={v}"]. *)
Definition py_str (v : ParamVal) : string :=
  match v with
  | PNone => "None"
  | PBool true => "True"
  | PBool false => "False"
  | PInt z => str_of_int z
  | PStr s => s
  end.

(** [sep.join(parts)] *)
Fixpoint join (sep : string) (parts : list string) : string :=
  match parts with
  | [] => ""
  | [p] => p
  | p :: r => p +:+ sep +:+ join sep r
  end.

(** [needle in hay] on strings. *)
Fixpoint contains (needle hay : string) : bool :=
  if String.prefix needle hay then true
  else match hay with
       | EmptyString => false
       | String _ hay' => contains needle hay'
       end.

(* ===================================================================== *)
(** * hashlib.md5 (RFC 1321) *)
(* ===================================================================== *)

Module MD5.

Definition mask32 (x : Z) : Z := Z.land x 0xffffffff.
Definition not32 (x : Z) : Z := Z.lxor x 0xffffffff.
Definition add32 (x y : Z) : Z := mask32 (x + y).
Definition rotl32 (x c : Z) : Z :=
  mask32 (Z.lor (Z.shiftl x c) (Z.shiftr x (32 - c))).

Definition K : list Z :=
  [ 0xd76aa478; 0xe8c7b756; 0x242070db; 0xc1bdceee;
    0xf57c0faf; 0x4787c62a; 0xa8304613; 0xfd469501;
    0x698098d8; 0x8b44f7af; 0xffff5bb1; 0x895cd7be;
    0x6b901122; 0xfd987193; 0xa679438e; 0x49b40821;
    0xf61e2562; 0xc040b340; 0x265e5a51; 0xe9b6c7aa;
    0xd62f105d; 0x02441453; 0xd8a1e681; 0xe7d3fbc8;
    0x21e1cde6; 0xc33707d6; 0xf4d50d87; 0x455a14ed;
    0xa9e3e905; 0xfcefa3f8; 0x676f02d9; 0x8d2a4c8a;
    0xfffa3942; 0x8771f681; 0x6d9d6122; 0xfde5380c;
    0xa4beea44; 0x4bdecfa9; 0xf6bb4b60; 0xbebfbc70;
    0x289b7ec6; 0xeaa127fa; 0xd4ef3085; 0x04881d05;
    0xd9d4d039; 0xe6db99e5; 0x1fa27cf8; 0xc4ac5665;
    0xf4292244; 0x432aff97; 0xab9423a7; 0xfc93a039;
    0x655b59c3; 0x8f0ccc92; 0xffeff47d; 0x85845dd1;
    0x6fa87e4f; 0xfe2ce6e0; 0xa3014314; 0x4e0811a1;
    0xf7537e82; 0xbd3af235; 0x2ad7d2bb; 0xeb86d391 ]%Z.

Definition shifts : list Z :=
  [ 7; 12; 17; 22; 7; 12; 17; 22; 7; 12; 17; 22; 7; 12; 17; 22;
    5; 9; 14; 20; 5; 9; 14; 20; 5; 9; 14; 20; 5; 9; 14; 20;
    4; 11; 16; 23; 4; 11; 16; 23; 4; 11; 16; 23; 4; 11; 16; 23;
    6; 10; 15; 21; 6; 10; 15; 21; 6; 10; 15; 21; 6; 10; 15; 21 ]%Z.

Definition bytes_of_string (s : string) : list Z :=
  map (fun c => Z.of_N (N_of_ascii c)) (list_ascii_of_string s).

(** The [n] low bytes of [x], least significant first. *)
Definition le_bytes (n : nat) (x : Z) : list Z :=
  map (fun i => Z.land (Z.shiftr x (8 * Z.of_nat i)) 0xff) (seq 0 n).

Definition pad (msg : list Z) : list Z :=
  let len := Z.of_nat (length msg) in
  msg ++ [0x80%Z] ++ repeat 0%Z (Z.to_nat ((55 - len) mod 64))
      ++ le_bytes 8 ((8 * len) mod 2 ^ 64).

Fixpoint words (bs : list Z) : list Z :=
  match bs with
  | b0 :: b1 :: b2 :: b3 :: r =>
      (b0 + Z.shiftl b1 8 + Z.shiftl b2 16 + Z.shiftl b3 24)%Z :: words r
  | _ => []
  end.

Fixpoint blocks (n : nat) (ws : list Z) : list (list Z) :=
  match n with
  | O => []
  | S n' => firstn 16 ws :: blocks n' (skipn 16 ws)
  end.

Definition State : Type := Z * Z * Z * Z.

Definition step (M : list Z) (st : State) (i : nat) : State :=
  let '(a, b, c, d) := st in
  let j := Z.of_nat i in
  let '(f, g) :=
    if Nat.ltb i 16 then (Z.lor (Z.land b c) (Z.land (not32 b) d), j)
    else if Nat.ltb i 32 then (Z.lor (Z.land d b) (Z.land (not32 d) c), (5 * j + 1) mod 16)%Z
    else if Nat.ltb i 48 then (Z.lxor (Z.lxor b c) d, (3 * j + 5) mod 16)%Z
    else (Z.lxor c (Z.lor b (not32 d)), (7 * j) mod 16)%Z in
  let f' := mask32 (f + a + nth i K 0 + nth (Z.to_nat g) M 0)%Z in
  (d, add32 b (rotl32 f' (nth i shifts 0%Z)), b, c).

Definition compress (st : State) (M : list Z) : State :=
  let '(a0, b0, c0, d0) := st in
  let '(a, b, c, d) := fold_left (step M) (seq 0 64) st in
  (add32 a0 a, add32 b0 b, add32 c0 c, add32 d0 d).

Definition init : State := (0x67452301, 0xefcdab89, 0x98badcfe, 0x10325476)%Z.

Definition digest (msg : list Z) : list Z :=
  let ws := words (pad msg) in
  let '(a, b, c, d) := fold_left compress (blocks (length ws / 16) ws) init in
  le_bytes 4 a ++ le_bytes 4 b ++ le_bytes 4 c ++ le_bytes 4 d.

Definition hex_char (n : Z) : ascii :=
  if Z.ltb n 10 then ascii_of_N (Z.to_N (48 + n)) else ascii_of_N (Z.to_N (87 + n)).

Definition hex_of_bytes (bs : list Z) : string :=
  fold_right (fun b acc => String (hex_char (Z.shiftr b 4)) (String (hex_char (Z.land b 0xf)) acc))
             "" bs.

(** [hashlib.md5(s.encode('utf-8')).hexdigest()] *)
Definition hexdigest (s : string) : string := hex_of_bytes (digest (bytes_of_string s)).

End MD5.

(* ===================================================================== *)
(** * Computations with state and exceptions *)
(* ===================================================================== *)

(** A method body: it reads and writes the state [St] and either returns
    a value or raises. *)
Definition M (St A : Type) : Type := St -> Outcome A * St.

Definition ret {St A : Type} (a : A) : M St A := fun s => (Ok a, s).

Definition bind {St A B : Type} (c : M St A) (k : A -> M St B) : M St B :=
  fun s =>
    match c s with
    | (Ok a, s') => k a s'
    | (Raise e, s') => (Raise e, s')
    end.

Definition raise {St A : Type} (msg : string) : M St A := fun s => (Raise msg, s).

Definition gets {St A : Type} (f : St -> A) : M St A := fun s => (Ok (f s), s).

Definition modify {St : Type} (f : St -> St) : M St unit := fun s => (Ok tt, f s).

(** [try: body except Exception as e: handler(str(e))] *)
Definition try_except {St A : Type} (body : M St A) (handler : string -> M St A) : M St A :=
  fun s =>
    match body s with
    | (Ok a, s') => (Ok a, s')
    | (Raise e, s') => handler e s'
    end.

(** [try: body finally: fin].  The outcome of [body] stands unless [fin]
    itself raises. *)
Definition try_finally {St A : Type} (body : M St A) (fin : M St unit) : M St A :=
  fun s =>
    match body s with
    | (r, s') =>
        match fin s' with
        | (Ok _, s'') => (r, s'')
        | (Raise e, s'') => (Raise e, s'')
        end
    end.

Declare Scope py_scope.
Delimit Scope py_scope with py.
Notation "'let*' x ':=' c 'in' k" := (bind c (fun x => k))
  (at level 10, x name, c at level 100, k at level 200) : py_scope.
Notation "c >> k" := (bind c (fun _ => k))
  (at level 100, k at level 200, right associativity) : py_scope.

Local Open Scope py_scope.

(** [for x in xs: body(x)] *)
Fixpoint for_each {St A : Type} (xs : list A) (body : A -> M St unit) : M St unit :=
  match xs with
  | [] => ret tt
  | x :: r => body x >> for_each r body
  end.

(* ===================================================================== *)
(** * cache.py *)
(* ===================================================================== *)

Module Cache.

Inductive CacheType : Type := TRANSCRIPTION | TRANSLATION | DOWNLOAD | METADATA.

#[global] Instance CacheType_eq_dec : EqDecision CacheType.
Proof. solve_decision. Defined.

(** Counters of one namespace.  Time stamps are kept as clock readings
    where the source formats them with [isoformat()]. *)
Record CacheStats : Type := {
  hits : nat;
  misses : nat;
  stores : nat;
  deletes : nat;
  errors : nat;
  last_access : option Z;
  last_store : option Z
}.

Definition CacheStats_init : CacheStats :=
  {| hits := 0; misses := 0; stores := 0; deletes := 0; errors := 0;
     last_access := None; last_store := None |}.

(** ** The storage engine (diskcache.FanoutCache)

    The operations the manager uses.  Each takes the clock reading [now]
    and may raise, for example on a corrupt database file. *)
Class Storage (S : Type) : Type := {
  (** [cache.get(key, default)] *)
  st_get : Z -> string -> PyVal -> S -> Outcome PyVal * S;
  (** [cache.set(key, value, expire=expire)] *)
  st_set : Z -> string -> PyVal -> option Z -> S -> Outcome bool * S
}.

(** Parameter dictionaries of [get] and [store]. *)
Definition Params : Type := list (string * ParamVal).

(** [sorted(params.items())]: keys of a dictionary are distinct, so the
    order of the items is the order of their keys. *)
Fixpoint insert_sorted (item : string * ParamVal) (l : Params) : Params :=
  match l with
  | [] => [item]
  | item' :: r =>
      if String.leb (fst item) (fst item') then item :: l
      else item' :: insert_sorted item r
  end.

Definition sorted (items : Params) : Params := fold_right insert_sorted [] items.

(** The string that [_get_cache_key] hashes. *)
Definition key_string (data_key : string) (params : option Params) : string :=
  let key_parts :=
    [data_key] ++
    match params with
    | Some ((_ :: _) as ps) => map (fun '(k, v) => k +:+ "=" +:+ py_str v) (sorted ps)
    | _ => []
    end in
  join "|" key_parts.

Definition _get_cache_key (data_key : string) (params : option Params) : string :=
  MD5.hexdigest (key_string data_key params).

Section Manager.
Context {S : Type} {storage : Storage S}.

Record CacheManager : Type := {
  default_ttl : Z;
  caches : CacheType -> S;
  stats : CacheType -> CacheStats
}.

Definition set_cache (ct : CacheType) (s : S) (self : CacheManager) : CacheManager :=
  {| default_ttl := default_ttl self;
     caches := fun ct' => if decide (ct' = ct) then s else caches self ct';
     stats := stats self |}.

Definition update_stats (ct : CacheType) (f : CacheStats -> CacheStats)
           (self : CacheManager) : CacheManager :=
  {| default_ttl := default_ttl self;
     caches := caches self;
     stats := fun ct' => if decide (ct' = ct) then f (stats self ct') else stats self ct' |}.

(** [self.caches[cache_type].get(key, default)] *)
Definition cache_get (now : Z) (ct : CacheType) (key : string) (default : PyVal)
  : M CacheManager PyVal :=
  fun self =>
    let '(r, s') := st_get now key default (caches self ct) in
    (r, set_cache ct s' self).

(** [self.caches[cache_type].set(key, value, expire=expire)] *)
Definition cache_set (now : Z) (ct : CacheType) (key : string) (value : PyVal)
           (expire : option Z) : M CacheManager bool :=
  fun self =>
    let '(r, s') := st_set now key value expire (caches self ct) in
    (r, set_cache ct s' self).

Definition _update_metadata (now : Z) (key : string) (value : PyVal) : M CacheManager unit :=
  cache_set now METADATA key value None >> ret tt.

Definition _get_metadata (now : Z) (key : string) (default : PyVal) : M CacheManager PyVal :=
  cache_get now METADATA key default.

(** [v + 1] *)
Definition py_succ (v : PyVal) : M CacheManager PyVal :=
  match v with
  | PyInt z => ret (PyInt (z + 1))
  | PyBool b => ret (PyInt (Z.b2z b + 1))
  | _ => raise "unsupported operand type(s) for +"
  end.

Definition is_none (v : PyVal) : bool :=
  match v with PyNone => true | _ => false end.

Definition is_metadata (ct : CacheType) : bool :=
  match ct with METADATA => true | _ => false end.

Definition count_hit (now : Z) (st : CacheStats) : CacheStats :=
  {| hits := Datatypes.S (hits st); misses := misses st; stores := stores st;
     deletes := deletes st; errors := errors st;
     last_access := Some now; last_store := last_store st |}.

Definition count_miss (st : CacheStats) : CacheStats :=
  {| hits := hits st; misses := Datatypes.S (misses st); stores := stores st;
     deletes := deletes st; errors := errors st;
     last_access := last_access st; last_store := last_store st |}.

Definition count_store (now : Z) (st : CacheStats) : CacheStats :=
  {| hits := hits st; misses := misses st; stores := Datatypes.S (stores st);
     deletes := deletes st; errors := errors st;
     last_access := last_access st; last_store := Some now |}.

Definition count_error (st : CacheStats) : CacheStats :=
  {| hits := hits st; misses := misses st; stores := stores st;
     deletes := deletes st; errors := Datatypes.S (errors st);
     last_access := last_access st; last_store := last_store st |}.

(** The [try] block of [get]. *)
Definition get_try (now : Z) (cache_type : CacheType) (cache_key : string)
  : M CacheManager PyVal :=
  let* result := cache_get now cache_type cache_key PyNone in
  if negb (is_none result) then
    (* Update stats and metadata *)
    modify (update_stats cache_type (count_hit now)) >>
    (if negb (is_metadata cache_type) then
       let* access_count := _get_metadata now "access_count" (PyInt 0) in
       let* incremented := py_succ access_count in
       _update_metadata now "access_count" incremented >>
       _update_metadata now "last_access" (PyInt now)
     else ret tt) >>
    ret result
  else
    (* Update miss stats *)
    modify (update_stats cache_type count_miss) >>
    ret PyNone.

(** [CacheManager.get] *)
Definition get (now : Z) (cache_type : CacheType) (key : string) (params : option Params)
  : M CacheManager PyVal :=
  let cache_key := _get_cache_key key params in
  try_except
    (get_try now cache_type cache_key)
    (fun e =>
       modify (update_stats cache_type count_error) >>
       ret PyNone).

(** The [try] block of [store]. *)
Definition store_try (now : Z) (cache_type : CacheType) (cache_key : string) (data : PyVal)
           (actual_ttl : Z) : M CacheManager bool :=
  let* success := cache_set now cache_type cache_key data (Some actual_ttl) in
  if success then
    (* Update stats *)
    modify (update_stats cache_type (count_store now)) >>
    (if negb (is_metadata cache_type) then
       _update_metadata now "last_store" (PyInt now)
     else ret tt) >>
    ret true
  else
    ret false.

Definition actual_ttl (ttl : option Z) (self : CacheManager) : Z :=
  match ttl with
  | Some t => t
  | None => default_ttl self
  end.

(** [CacheManager.store] *)
Definition store (now : Z) (cache_type : CacheType) (key : string) (data : PyVal)
           (params : option Params) (ttl : option Z) : M CacheManager bool :=
  let cache_key := _get_cache_key key params in
  let* expire := gets (actual_ttl ttl) in
  try_except
    (store_try now cache_type cache_key data expire)
    (fun e =>
       modify (update_stats cache_type count_error) >>
       ret false).

End Manager.

Arguments CacheManager S : clear implicits.

(** ** A reference storage engine

    Entries with an absolute expiry time, as diskcache keeps them: [set]
    writes [now + expire], [get] answers the default for a key that is
    absent or whose expiry time has passed, and leaves the store as it
    is.  The size limit and eviction are not part of it. *)
Record Entry : Type := { e_value : PyVal; e_expire_time : option Z }.

Definition live (now : Z) (e : Entry) : bool :=
  match e_expire_time e with
  | None => true
  | Some t => Z.ltb now t
  end.

Abbreviation DiskCache := (gmap string Entry).

#[global] Instance DiskCache_storage : Storage DiskCache := {
  st_get now key default m :=
    (Ok match m !! key with
        | Some e => if live now e then e_value e else default
        | None => default
        end, m);
  st_set now key value expire m :=
    (Ok true, <[key := {| e_value := value;
                          e_expire_time := option_map (Z.add now) expire |}]> m)
}.

(** A storage engine whose database file is unreadable: every operation
    raises. *)
Inductive Corrupt : Type := corrupt.


(** [CacheManager(ttl=ttl)] over empty stores. *)
Definition new (ttl : Z) : CacheManager DiskCache :=
  {| default_ttl := ttl; caches := fun _ => ∅; stats := fun _ => CacheStats_init |}.

Definition DEFAULT_TTL : Z := 60 * 60 * 24 * 30.

End Cache.

(* ===================================================================== *)
(** * batch.py: TaskProgress *)
(* ===================================================================== *)

Module Task.

Inductive TaskStatus : Type :=
| PENDING | DOWNLOADING | CONVERTING | TRANSCRIBING | TRANSLATING
| EXPORTING | COMPLETED | FAILED | CANCELLED | SKIPPED.

#[global] Instance TaskStatus_eq_dec : EqDecision TaskStatus.
Proof. solve_decision. Defined.

Record TaskProgress : Type := {
  url : string;
  status : TaskStatus;
  progress : Q;
  download_progress : Q;
  conversion_progress : Q;
  transcription_progress : Q;
  translation_progress : Q;
  export_progress : Q;
  result : option PyVal;
  error : option string;
  start_time : option Z;
  end_time : option Z;
  temp_files : list string
}.

(** [TaskProgress(url=url)] *)
Definition new (u : string) : TaskProgress :=
  {| url := u; status := PENDING; progress := 0.0%Q;
     download_progress := 0.0%Q; conversion_progress := 0.0%Q;
     transcription_progress := 0.0%Q; translation_progress := 0.0%Q;
     export_progress := 0.0%Q; result := None; error := None;
     start_time := None; end_time := None; temp_files := [] |}.

(** Attribute assignment [self.f = v], one function per attribute. *)
Definition set_status (v : TaskStatus) (self : TaskProgress) : TaskProgress :=
  match self with
  | Build_TaskProgress u st pr dp cp tp lp ep res err t0 t1 tf =>
      Build_TaskProgress u v pr dp cp tp lp ep res err t0 t1 tf
  end.

Definition set_progress (v : Q) (self : TaskProgress) : TaskProgress :=
  match self with
  | Build_TaskProgress u st pr dp cp tp lp ep res err t0 t1 tf =>
      Build_TaskProgress u st v dp cp tp lp ep res err t0 t1 tf
  end.

Definition set_download_progress (v : Q) (self : TaskProgress) : TaskProgress :=
  match self with
  | Build_TaskProgress u st pr dp cp tp lp ep res err t0 t1 tf =>
      Build_TaskProgress u st pr v cp tp lp ep res err t0 t1 tf
  end.

Definition set_conversion_progress (v : Q) (self : TaskProgress) : TaskProgress :=
  match self with
  | Build_TaskProgress u st pr dp cp tp lp ep res err t0 t1 tf =>
      Build_TaskProgress u st pr dp v tp lp ep res err t0 t1 tf
  end.

Definition set_transcription_progress (v : Q) (self : TaskProgress) : TaskProgress :=
  match self with
  | Build_TaskProgress u st pr dp cp tp lp ep res err t0 t1 tf =>
      Build_TaskProgress u st pr dp cp v lp ep res err t0 t1 tf
  end.

Definition set_translation_progress (v : Q) (self : TaskProgress) : TaskProgress :=
  match self with
  | Build_TaskProgress u st pr dp cp tp lp ep res err t0 t1 tf =>
      Build_TaskProgress u st pr dp cp tp v ep res err t0 t1 tf
  end.

Definition set_export_progress (v : Q) (self : TaskProgress) : TaskProgress :=
  match self with
  | Build_TaskProgress u st pr dp cp tp lp ep res err t0 t1 tf =>
      Build_TaskProgress u st pr dp cp tp lp v res err t0 t1 tf
  end.

Definition set_result (v : option PyVal) (self : TaskProgress) : TaskProgress :=
  match self with
  | Build_TaskProgress u st pr dp cp tp lp ep res err t0 t1 tf =>
      Build_TaskProgress u st pr dp cp tp lp ep v err t0 t1 tf
  end.

Definition set_error (v : option string) (self : TaskProgress) : TaskProgress :=
  match self with
  | Build_TaskProgress u st pr dp cp tp lp ep res err t0 t1 tf =>
      Build_TaskProgress u st pr dp cp tp lp ep res v t0 t1 tf
  end.

Definition set_start_time (v : option Z) (self : TaskProgress) : TaskProgress :=
  match self with
  | Build_TaskProgress u st pr dp cp tp lp ep res err t0 t1 tf =>
      Build_TaskProgress u st pr dp cp tp lp ep res err v t1 tf
  end.

Definition set_end_time (v : option Z) (self : TaskProgress) : TaskProgress :=
  match self with
  | Build_TaskProgress u st pr dp cp tp lp ep res err t0 t1 tf =>
      Build_TaskProgress u st pr dp cp tp lp ep res err t0 v tf
  end.

Definition set_temp_files (v : list string) (self : TaskProgress) : TaskProgress :=
  match self with
  | Build_TaskProgress u st pr dp cp tp lp ep res err t0 t1 tf =>
      Build_TaskProgress u st pr dp cp tp lp ep res err t0 t1 v
  end.

(** [TaskProgress.update_progress] *)
Definition update_progress (self : TaskProgress) : TaskProgress :=
  match status self with
  | DOWNLOADING => set_progress (download_progress self * 0.2)%Q self
  | CONVERTING => set_progress (0.2 + conversion_progress self * 0.1)%Q self
  | TRANSCRIBING => set_progress (0.3 + transcription_progress self * 0.4)%Q self
  | TRANSLATING => set_progress (0.7 + translation_progress self * 0.2)%Q self
  | EXPORTING => set_progress (0.9 + export_progress self * 0.1)%Q self
  | COMPLETED => set_progress 1.0%Q self
  | FAILED | CANCELLED => self
  | PENDING | SKIPPED => self
  end.

(** The states in which a job stays for good. *)
Definition terminal (s : TaskStatus) : bool :=
  match s with
  | COMPLETED | FAILED | CANCELLED => true
  | _ => false
  end.

End Task.

(* ===================================================================== *)
(** * urllib.parse.urlparse *)
(* ===================================================================== *)

(** The two components of a parse result that [validate_url] reads. *)
Record ParseResult : Type := { scheme : string; netloc : string }.

Module Urllib.

Definition is_alpha (c : ascii) : bool :=
  let n := nat_of_ascii c in
  ((65 <=? n) && (n <=? 90) || (97 <=? n) && (n <=? 122))%nat.

Definition is_scheme_char (c : ascii) : bool :=
  let n := nat_of_ascii c in
  is_alpha c || ((48 <=? n) && (n <=? 57))%nat
  || Ascii.eqb c "+" || Ascii.eqb c "-" || Ascii.eqb c ".".

Definition lower_char (c : ascii) : ascii :=
  let n := nat_of_ascii c in
  if ((65 <=? n) && (n <=? 90))%nat then ascii_of_nat (n + 32) else c.

Fixpoint lower (s : string) : string :=
  match s with
  | EmptyString => EmptyString
  | String c r => String (lower_char c) (lower r)
  end.

(** [s.find(c)]: the text before the first [c] and the text after it. *)
Fixpoint split_at (c : ascii) (s : string) : option (string * string) :=
  match s with
  | EmptyString => None
  | String d r =>
      if Ascii.eqb c d then Some (EmptyString, r)
      else match split_at c r with
           | Some (a, b) => Some (String d a, b)
           | None => None
           end
  end.

Fixpoint all_chars (p : ascii -> bool) (s : string) : bool :=
  match s with
  | EmptyString => true
  | String c r => p c && all_chars p r
  end.

(** [_splitnetloc]: the text up to the first of [/], [?], [#]. *)
Fixpoint take_netloc (s : string) : string :=
  match s with
  | EmptyString => EmptyString
  | String c r =>
      if Ascii.eqb c "/" || Ascii.eqb c "?" || Ascii.eqb c "#" then EmptyString
      else String c (take_netloc r)
  end.

(** [urlsplit] on a URL without leading blanks, tabs or line breaks and
    with an ASCII authority: scheme and netloc of the result, or the
    [ValueError] for unbalanced brackets. *)
Definition urlparse (url : string) : Outcome ParseResult :=
  let '(sch, rest) :=
    match split_at ":" url with
    | Some ((String c0 r0) as pre, post) =>
        if is_alpha c0 && all_chars is_scheme_char pre then (lower pre, post)
        else (EmptyString, url)
    | _ => (EmptyString, url)
    end in
  match rest with
  | String "/" (String "/" after) =>
      let loc := take_netloc after in
      if xorb (contains "[" loc) (contains "]" loc) then Raise "Invalid IPv6 URL"
      else Ok {| scheme := sch; netloc := loc |}
  | _ => Ok {| scheme := sch; netloc := EmptyString |}
  end.

End Urllib.

(* ===================================================================== *)
(** * batch.py: BatchProcessor *)
(* ===================================================================== *)

Module Batch.
Import Task.
Export Cache.

Inductive BatchStatus : Type :=
| IDLE | RUNNING | PAUSED | BATCH_COMPLETED | BATCH_CANCELLED | BATCH_FAILED.

#[global] Instance BatchStatus_eq_dec : EqDecision BatchStatus.
Proof. solve_decision. Defined.

(** The external calls of the five pipeline stages. *)
Inductive Collaborator : Type := Download | Convert | Transcribe | Translate | Export.

#[global] Instance Collaborator_eq_dec : EqDecision Collaborator.
Proof. solve_decision. Defined.

(** Places where [_process_url] reads [cancel_event.is_set()]. *)
Inductive Checkpoint : Type :=
| AtStart
| Entering (c : Collaborator)
| InHandler.

(** Stretches of a pipeline run during which another thread may call
    [cancel()]. *)
Inductive Phase : Type :=
| DuringCacheGet
| During (c : Collaborator)
| DuringCacheStore.

(** Readings of the wall clock in one pipeline run. *)
Inductive Moment : Type := MStart | MCacheGet | MCacheStore | MEnd.

(** What the world outside does during the pipeline run of one job. *)
Record Env : Type := {
  time_time : Moment -> Z;
  cancel_requested : Phase -> bool;
  (** progress fractions passed to the callback, then the outcome *)
  download_audio : string -> list Q * Outcome string;
  convert_to_wav : string -> list Q * Outcome string;
  transcribe : string -> string -> Outcome (list (string * PyVal));
  translate : PyVal -> string -> Outcome string;
  _export_results : string -> PyVal -> string -> list string -> Outcome (list (string * string));
  (** [os.path.exists] and [os.remove] *)
  path_exists : string -> bool;
  os_remove : string -> Outcome unit
}.

(** What an observer of one pipeline run can see, in order. *)
Inductive Event : Type :=
| EvReport (snapshot : TaskProgress)
| EvCheck (cp : Checkpoint) (is_set : bool)
| EvCall (c : Collaborator)
| EvRaised (c : Collaborator) (msg : string)
| EvCacheHit
| EvTempFile (path : string)
| EvCleanup (paths : list string)
| EvRemove (path : string).

(** The dictionary [_process_url] returns. *)
Record UrlResult : Type := {
  r_status : string;
  r_url : string;
  r_result : option PyVal;
  r_error : option string;
  r_cached : bool
}.

(** Arguments of one submitted pipeline run. *)
Record JobArgs : Type := {
  a_model : string;
  a_target_lang : option string;
  a_output_dir : option string;
  a_formats : option (list string)
}.

(** The argument of the completion callback. *)
Record Completion : Type := {
  c_status : BatchStatus;
  c_tasks : list (string * TaskProgress);
  c_completed : nat;
  c_failed : nat;
  c_total : nat
}.

(** The dictionary [process_batch] returns. *)
Inductive BatchResult : Type :=
| Error (message : string)
| Started (task_urls : list string) (total : nat).

Definition truthy_list {A : Type} (o : option (list A)) : bool :=
  match o with
  | Some (_ :: _) => true
  | _ => false
  end.

Definition is_status (s : TaskStatus) (t : TaskProgress) : bool :=
  bool_decide (status t = s).

(** [sum(1 for t in tasks.values() if t.status == s)] *)
Definition count_status (s : TaskStatus) (tasks : list (string * TaskProgress)) : nat :=
  length (filter (fun t => is_status s t = true) (dict_values tasks)).

Section Processor.
Context {S : Type} {storage : Storage S}.
Variable urlparse : string -> Outcome ParseResult.

(** ** One pipeline run

    The part of the processor a pipeline run works on: its task
    object, the cancel event, the cache manager, and the record of
    what it did. *)
Record World : Type := {
  w_task : TaskProgress;
  w_cancel_event : bool;
  w_cache_manager : option (CacheManager S);
  w_log : list Event
}.

Definition with_task (f : TaskProgress -> TaskProgress) : M World unit :=
  modify (fun '(Build_World task cancelled cm log) => Build_World (f task) cancelled cm log).

Definition log_event (e : Event) : M World unit :=
  modify (fun '(Build_World task cancelled cm log) => Build_World task cancelled cm (log ++ [e])).

(** Another thread may set the cancel event while the run is busy. *)
Definition elapse (env : Env) (ph : Phase) : M World unit :=
  modify (fun '(Build_World task cancelled cm log) =>
            Build_World task (cancelled || cancel_requested env ph) cm log).

(** [self._report_progress(url)]: the callback receives a snapshot of
    the task. *)
Definition _report_progress : M World unit :=
  let* t := gets w_task in log_event (EvReport t).

(** [self.cancel_event.is_set()] *)
Definition cancel_is_set (cp : Checkpoint) : M World bool :=
  let* b := gets w_cancel_event in
  log_event (EvCheck cp b) >> ret b.

(** A call of the cache manager, which runs on the manager's state. *)
Definition on_cache {A : Type} (env : Env) (ph : Phase) (c : M (CacheManager S) A)
           (cm : CacheManager S) : M World A :=
  fun '(Build_World task cancelled _ log) =>
    let '(r, cm') := c cm in
    (r, Build_World task (cancelled || cancel_requested env ph) (Some cm') log).

(** The call of a collaborator begins; when it is over it has
    returned or raised. *)
Definition begin_call (env : Env) (c : Collaborator) : M World unit :=
  log_event (EvCall c) >> elapse env (During c).

Definition end_call {A : Type} (c : Collaborator) (o : Outcome A) : M World A :=
  match o with
  | Ok a => ret a
  | Raise msg => log_event (EvRaised c msg) >> raise msg
  end.

(** [audio_utils.cleanup_temp_files], applied to the paths *)
Definition cleanup_temp_files (env : Env) (file_paths : list string) : M World unit :=
  log_event (EvCleanup file_paths) >>
  for_each file_paths (fun path =>
    if negb (String.eqb path "") && path_exists env path then
      try_except
        (log_event (EvRemove path) >>
         match os_remove env path with
         | Ok _ => ret tt
         | Raise msg => raise msg
         end)
        (fun e => ret tt)
    else ret tt).

(** [TaskProgress.cleanup] *)
Definition cleanup (env : Env) : M World unit :=
  let* files := gets (fun w => temp_files (w_task w)) in
  match files with
  | [] => ret tt
  | _ =>
      cleanup_temp_files env files >>
      with_task (set_temp_files [])
  end.

Definition download_progress_callback (progress : Q) : M World unit :=
  with_task (fun task => update_progress (set_download_progress progress task)) >>
  _report_progress.

Definition conversion_progress_callback (progress : Q) : M World unit :=
  with_task (fun task => update_progress (set_conversion_progress progress task)) >>
  _report_progress.

(** [task.temp_files.append(path)] *)
Definition append_temp_file (path : string) : M World unit :=
  with_task (fun task => set_temp_files (temp_files task ++ [path]) task) >>
  log_event (EvTempFile path).

(** [result.get('text', '')] *)
Definition result_text (result : list (string * PyVal)) : PyVal :=
  match dict_get "text" result with
  | Some v => v
  | None => PyStr ""
  end.

Definition completed_task (now : Z) (res : PyVal) (task : TaskProgress) : TaskProgress :=
  set_end_time (Some now) (set_result (Some res) (set_progress 1.0%Q (set_status COMPLETED task))).

(** The [try] block of [_process_url]. *)
Definition pipeline (env : Env) (url model : string) (target_lang output_dir : option string)
           (formats : option (list string)) : M World UrlResult :=
  (* DOWNLOADING *)
  with_task (set_status DOWNLOADING) >>
  _report_progress >>
  let* cancelled := cancel_is_set (Entering Download) in
  (if cancelled then raise "Task cancelled" else ret tt) >>
  begin_call env Download >>
  for_each (fst (download_audio env url)) download_progress_callback >>
  let* audio_path := end_call Download (snd (download_audio env url)) in
  append_temp_file audio_path >>
  (* CONVERTING *)
  with_task (set_status CONVERTING) >>
  _report_progress >>
  let* cancelled := cancel_is_set (Entering Convert) in
  (if cancelled then raise "Task cancelled" else ret tt) >>
  begin_call env Convert >>
  for_each (fst (convert_to_wav env audio_path)) conversion_progress_callback >>
  let* wav_path := end_call Convert (snd (convert_to_wav env audio_path)) in
  append_temp_file wav_path >>
  (* TRANSCRIBING *)
  with_task (fun task =>
    update_progress (set_transcription_progress 0.0%Q (set_status TRANSCRIBING task))) >>
  _report_progress >>
  let* cancelled := cancel_is_set (Entering Transcribe) in
  (if cancelled then raise "Task cancelled" else ret tt) >>
  begin_call env Transcribe >>
  let* result := end_call Transcribe (transcribe env wav_path model) in
  (* TRANSLATING (if needed) *)
  let* result :=
    match target_lang with
    | Some lang =>
        if truthy_opt target_lang then
          with_task (fun task =>
            update_progress (set_translation_progress 0.0%Q (set_status TRANSLATING task))) >>
          _report_progress >>
          let* cancelled := cancel_is_set (Entering Translate) in
          (if cancelled then raise "Task cancelled" else ret tt) >>
          begin_call env Translate >>
          let* translated_text := end_call Translate (translate env (result_text result) lang) in
          let result := dict_set "translated_text" (PyStr translated_text) result in
          with_task (fun task => update_progress (set_translation_progress 1.0%Q task)) >>
          _report_progress >>
          ret result
        else ret result
    | None => ret result
    end in
  (* EXPORTING *)
  (match output_dir, formats with
   | Some dir, Some fmts =>
       if truthy_list formats && truthy_opt output_dir then
         with_task (fun task =>
           update_progress (set_export_progress 0.0%Q (set_status EXPORTING task))) >>
         _report_progress >>
         let* cancelled := cancel_is_set (Entering Export) in
         (if cancelled then raise "Task cancelled" else ret tt) >>
         begin_call env Export >>
         let* export_paths := end_call Export (_export_results env url (PyDict result) dir fmts) in
         with_task (fun task => update_progress (set_export_progress 1.0%Q task)) >>
         _report_progress
       else ret tt
   | _, _ => ret tt
   end) >>
  (* Store in cache if available *)
  let* cm := gets w_cache_manager in
  (match cm with
   | Some cm =>
       if truthy (PyDict result) then
         let* stored := on_cache env DuringCacheStore
           (store (time_time env MCacheStore) TRANSCRIPTION url (PyDict result)
                  (Some [("model", PStr model);
                         ("target_lang", match target_lang with
                                         | Some lang => PStr lang
                                         | None => PNone
                                         end)])
                  None) cm in
         ret tt
       else ret tt
   | None => ret tt
   end) >>
  (* COMPLETED *)
  with_task (completed_task (time_time env MEnd) (PyDict result)) >>
  _report_progress >>
  ret {| r_status := "completed"; r_url := url; r_result := Some (PyDict result);
         r_error := None; r_cached := false |}.

(** The [except Exception as e] block of [_process_url]. *)
Definition handler (env : Env) (url : string) (e : string) : M World UrlResult :=
  let* cancelled := cancel_is_set InHandler in
  let st := if cancelled then CANCELLED else FAILED in
  with_task (fun task =>
    set_end_time (Some (time_time env MEnd)) (set_error (Some e) (set_status st task))) >>
  _report_progress >>
  ret {| r_status := if cancelled then "cancelled" else "failed";
         r_url := url; r_result := None; r_error := Some e; r_cached := false |}.

(** [BatchProcessor._process_url], on the task object [self.tasks[url]]. *)
Definition _process_url (env : Env) (url model : string)
           (target_lang output_dir : option string) (formats : option (list string))
  : M World UrlResult :=
  with_task (set_start_time (Some (time_time env MStart))) >>
  (* Check if cancelled before starting *)
  let* cancelled := cancel_is_set AtStart in
  if cancelled then
    with_task (fun task => update_progress (set_status CANCELLED task)) >>
    _report_progress >>
    ret {| r_status := "cancelled"; r_url := url; r_result := None;
           r_error := None; r_cached := false |}
  else
    (* Check cache first if available *)
    let* cm := gets w_cache_manager in
    let* hit :=
      match cm with
      | Some cm =>
          let cache_params :=
            [("model", PStr model)] ++
            match target_lang with
            | Some lang => if truthy_opt target_lang then [("target_lang", PStr lang)] else []
            | None => []
            end in
          let* cached_result := on_cache env DuringCacheGet
            (get (time_time env MCacheGet) TRANSCRIPTION url (Some cache_params)) cm in
          if truthy cached_result then
            with_task (completed_task (time_time env MEnd) cached_result) >>
            _report_progress >>
            log_event EvCacheHit >>
            (* Still do export if needed *)
            (match output_dir, formats with
             | Some dir, Some fmts =>
                 if truthy_list formats && truthy_opt output_dir then
                   begin_call env Export >>
                   let* export_paths :=
                     end_call Export (_export_results env url cached_result dir fmts) in
                   ret tt
                 else ret tt
             | _, _ => ret tt
             end) >>
            ret (Some {| r_status := "completed"; r_url := url;
                         r_result := Some cached_result; r_error := None;
                         r_cached := true |})
          else ret None
      | None => ret None
      end in
    match hit with
    | Some r => ret r
    | None =>
        try_finally
          (try_except (pipeline env url model target_lang output_dir formats)
                      (handler env url))
          (* Cleanup temporary files *)
          (cleanup env)
    end.


(** ** The processor

    [batch_status] is the attribute [self.status].  A future is kept
    as the arguments of the submitted call.  [on_completion_callback]
    tells whether a callback is registered; [completions] collects the
    arguments it was called with and [job_log] the event record of
    every pipeline run. *)
Record BatchProcessor : Type := {
  cache_manager : option (CacheManager S);
  concurrency : Z;
  tasks : list (string * TaskProgress);
  futures : list (string * JobArgs);
  batch_status : BatchStatus;
  cancel_event : bool;
  _executor : option Z;
  on_completion_callback : bool;
  completions : list Completion;
  job_log : list (string * list Event)
}.

(** [BatchProcessor(cache_manager, concurrency)] *)
Definition new (cm : option (CacheManager S)) (conc : Z) : BatchProcessor :=
  {| cache_manager := cm; concurrency := Z.max 1 (Z.min 10 conc);
     tasks := []; futures := []; batch_status := IDLE; cancel_event := false;
     _executor := None; on_completion_callback := false;
     completions := []; job_log := [] |}.

Definition set_cache_manager (v : option (CacheManager S)) (self : BatchProcessor) : BatchProcessor :=
  {| cache_manager := v; concurrency := concurrency self; tasks := tasks self;
     futures := futures self; batch_status := batch_status self;
     cancel_event := cancel_event self; _executor := _executor self;
     on_completion_callback := on_completion_callback self;
     completions := completions self; job_log := job_log self |}.

Definition set_tasks (v : list (string * TaskProgress)) (self : BatchProcessor) : BatchProcessor :=
  {| cache_manager := cache_manager self; concurrency := concurrency self;
     tasks := v; futures := futures self; batch_status := batch_status self;
     cancel_event := cancel_event self; _executor := _executor self;
     on_completion_callback := on_completion_callback self;
     completions := completions self; job_log := job_log self |}.

Definition set_futures (v : list (string * JobArgs)) (self : BatchProcessor) : BatchProcessor :=
  {| cache_manager := cache_manager self; concurrency := concurrency self;
     tasks := tasks self; futures := v; batch_status := batch_status self;
     cancel_event := cancel_event self; _executor := _executor self;
     on_completion_callback := on_completion_callback self;
     completions := completions self; job_log := job_log self |}.

Definition set_batch_status (v : BatchStatus) (self : BatchProcessor) : BatchProcessor :=
  {| cache_manager := cache_manager self; concurrency := concurrency self;
     tasks := tasks self; futures := futures self; batch_status := v;
     cancel_event := cancel_event self; _executor := _executor self;
     on_completion_callback := on_completion_callback self;
     completions := completions self; job_log := job_log self |}.

Definition set_cancel_event (v : bool) (self : BatchProcessor) : BatchProcessor :=
  {| cache_manager := cache_manager self; concurrency := concurrency self;
     tasks := tasks self; futures := futures self; batch_status := batch_status self;
     cancel_event := v; _executor := _executor self;
     on_completion_callback := on_completion_callback self;
     completions := completions self; job_log := job_log self |}.

Definition set_executor (v : option Z) (self : BatchProcessor) : BatchProcessor :=
  {| cache_manager := cache_manager self; concurrency := concurrency self;
     tasks := tasks self; futures := futures self; batch_status := batch_status self;
     cancel_event := cancel_event self; _executor := v;
     on_completion_callback := on_completion_callback self;
     completions := completions self; job_log := job_log self |}.

Definition set_on_completion_callback (v : bool) (self : BatchProcessor) : BatchProcessor :=
  {| cache_manager := cache_manager self; concurrency := concurrency self;
     tasks := tasks self; futures := futures self; batch_status := batch_status self;
     cancel_event := cancel_event self; _executor := _executor self;
     on_completion_callback := v; completions := completions self;
     job_log := job_log self |}.

Definition set_completions (v : list Completion) (self : BatchProcessor) : BatchProcessor :=
  {| cache_manager := cache_manager self; concurrency := concurrency self;
     tasks := tasks self; futures := futures self; batch_status := batch_status self;
     cancel_event := cancel_event self; _executor := _executor self;
     on_completion_callback := on_completion_callback self; completions := v;
     job_log := job_log self |}.

Definition set_job_log (v : list (string * list Event)) (self : BatchProcessor) : BatchProcessor :=
  {| cache_manager := cache_manager self; concurrency := concurrency self;
     tasks := tasks self; futures := futures self; batch_status := batch_status self;
     cancel_event := cancel_event self; _executor := _executor self;
     on_completion_callback := on_completion_callback self;
     completions := completions self; job_log := v |}.

(** [BatchProcessor.validate_url] *)
Definition validate_url (url : string) : bool :=
  if String.eqb url "" then false
  else
    match urlparse url with
    | Ok parsed =>
        (String.eqb (scheme parsed) "http" || String.eqb (scheme parsed) "https")
        && (contains "youtube.com" (netloc parsed) || contains "youtu.be" (netloc parsed))
    | Raise _ => false
    end.

(** [BatchProcessor.process_batch], up to the start of the monitor
    thread. *)
Definition process_batch (urls : list string) (model : string)
           (target_lang output_dir : option string) (formats : option (list string))
  : M BatchProcessor BatchResult :=
  match urls with
  | [] => ret (Error "No URLs provided")
  | _ =>
      let formats := if truthy_list formats then formats else Some ["srt"] in
      (* Reset state for new batch *)
      modify (fun self =>
        set_batch_status RUNNING (set_futures [] (set_tasks [] (set_cancel_event false self)))) >>
      (* Initialize tasks *)
      for_each urls (fun url =>
        if validate_url url then
          modify (fun self => set_tasks (dict_set url (Task.new url) (tasks self)) self)
        else ret tt) >>
      let* ts := gets tasks in
      match ts with
      | [] => ret (Error "No valid YouTube URLs provided")
      | _ =>
          modify (fun self => set_executor (Some (concurrency self)) self) >>
          (* Submit tasks to executor *)
          for_each (dict_keys ts) (fun url =>
            modify (fun self =>
              set_futures (dict_set url {| a_model := model; a_target_lang := target_lang;
                                           a_output_dir := output_dir; a_formats := formats |}
                                    (futures self)) self)) >>
          let* ts := gets tasks in
          ret (Started (dict_keys ts) (length ts))
      end
  end.

(** A worker runs one submitted call.  What the call returns or
    raises is kept in the future and does not leave it. *)
Definition run_future (env : Env) (url : string) (args : JobArgs)
  : M BatchProcessor (Outcome UrlResult) :=
  fun self =>
    match dict_get url (tasks self) with
    | None => (Ok (Raise "KeyError"), self)
    | Some task =>
        let '(r, w) :=
          _process_url env url (a_model args) (a_target_lang args) (a_output_dir args)
                       (a_formats args)
                       {| w_task := task; w_cancel_event := cancel_event self;
                          w_cache_manager := cache_manager self; w_log := [] |} in
        (Ok r,
         set_job_log (job_log self ++ [(url, w_log w)])
           (set_cache_manager (w_cache_manager w)
              (set_cancel_event (w_cancel_event w)
                 (set_tasks (dict_set url (w_task w) (tasks self)) self))))
    end.

(** What happens around the jobs of one batch: the environment of
    every job, and whether [cancel()] arrives after the last job has
    finished and before the monitor reads the cancel event. *)
Record BatchEnv : Type := {
  job_env : string -> Env;
  cancel_before_monitor : bool
}.

Definition final_status (cancelled : bool) (ts : list (string * TaskProgress)) : BatchStatus :=
  if cancelled then BATCH_CANCELLED
  else if existsb (is_status FAILED) (dict_values ts) then BATCH_FAILED
  else BATCH_COMPLETED.

(** [monitor_progress], with the pool running the submitted calls one
    after another in the order of submission. *)
Definition monitor_progress (benv : BatchEnv) : M BatchProcessor unit :=
  (* Wait for all tasks to complete *)
  let* fs := gets futures in
  for_each fs (fun '(url, args) =>
    let* settled := run_future (job_env benv url) url args in
    ret tt) >>
  modify (fun self =>
    set_cancel_event (cancel_event self || cancel_before_monitor benv) self) >>
  (* Determine final batch status *)
  modify (fun self =>
    set_batch_status (final_status (cancel_event self) (tasks self)) self) >>
  (* Call completion callback if set *)
  let* registered := gets on_completion_callback in
  if registered then
    modify (fun self =>
      set_completions
        (completions self ++
         [{| c_status := batch_status self;
             c_tasks := tasks self;
             c_completed := count_status COMPLETED (tasks self);
             c_failed := count_status FAILED (tasks self);
             c_total := length (tasks self) |}]) self)
  else ret tt.

(** [BatchProcessor.cancel] *)
Definition cancel : M BatchProcessor bool :=
  let* st := gets batch_status in
  if negb (bool_decide (st = RUNNING)) then ret false
  else
    (* Set the cancel event to signal tasks *)
    modify (fun self => set_batch_status BATCH_CANCELLED (set_cancel_event true self)) >>
    ret true.

(** A whole batch: the call of [process_batch] and, when it started
    one, the monitor thread. *)
Definition run_batch (benv : BatchEnv) (urls : list string) (model : string)
           (target_lang output_dir : option string) (formats : option (list string))
  : M BatchProcessor BatchResult :=
  let* started := process_batch urls model target_lang output_dir formats in
  match started with
  | Started _ _ => monitor_progress benv >> ret started
  | Error _ => ret started
  end.

End Processor.

Arguments World S : clear implicits.
Arguments BatchProcessor S : clear implicits.

End Batch.

(* ===================================================================== *)
(** * The weight table in binary64 *)
(* ===================================================================== *)

(** The arithmetic of [update_progress] on IEEE binary64 numbers, the
    number type of the source, for the stages that have a band. *)
Module Binary64.
Import Task.

#[warnings="-inexact-float"]
Definition stage_value (s : TaskStatus) (fraction : PrimFloat.float) : PrimFloat.float :=
  match s with
  | DOWNLOADING => (fraction * 0.2)%float
  | CONVERTING => (0.2 + fraction * 0.1)%float
  | TRANSCRIBING => (0.3 + fraction * 0.4)%float
  | TRANSLATING => (0.7 + fraction * 0.2)%float
  | EXPORTING => (0.9 + fraction * 0.1)%float
  | _ => 1%float
  end.

End Binary64.

(* ===================================================================== *)
(** * Notions used in the statements *)
(* ===================================================================== *)

Module Notions.
Import Task Batch.

(** The task dictionary after the loop of [process_batch] that creates
    the tasks has seen one more URL. *)
Definition add_task (validate : string -> bool) (ts : list (string * TaskProgress))
           (url : string) : list (string * TaskProgress) :=
  if validate url then dict_set url (Task.new url) ts else ts.

(** The futures dictionary after one more submission. *)
Definition add_future (args : JobArgs) (fs : list (string * JobArgs)) (url : string)
  : list (string * JobArgs) :=
  dict_set url args fs.

(** The task after a progress callback has stored the fraction [p] with
    [setter] and recomputed the overall progress. *)
Definition snap (setter : Q -> TaskProgress -> TaskProgress) (t : TaskProgress) (p : Q)
  : TaskProgress :=
  update_progress (setter p t).

(** The task after a collaborator has reported the fractions [fracs]. *)
Definition after_fractions (setter : Q -> TaskProgress -> TaskProgress) (fracs : list Q)
           (t : TaskProgress) : TaskProgress :=
  fold_left (snap setter) fracs t.

(** The removals [cleanup_temp_files] attempts. *)
Definition removal_events (env : Env) (paths : list string) : list Event :=
  flat_map (fun path =>
    if negb (String.eqb path "") && path_exists env path then [EvRemove path] else []) paths.

(** The world after [TaskProgress.cleanup]. *)
Definition cleaned {S : Type} (env : Env) (w : World S) : World S :=
  match temp_files (w_task w) with
  | [] => w
  | files =>
      {| w_task := set_temp_files [] (w_task w);
         w_cancel_event := w_cancel_event w;
         w_cache_manager := w_cache_manager w;
         w_log := w_log w ++ EvCleanup files :: removal_events env files |}
  end.

(** The world in which the pipeline run of a job starts: the task is as
    [process_batch] created it and nothing has been recorded yet. *)
Definition start_world {S : Type} (url : string) (cancelled : bool)
           (cm : option (CacheManager S)) : World S :=
  {| w_task := Task.new url; w_cancel_event := cancelled; w_cache_manager := cm; w_log := [] |}.

(** The overall progress values an observer of the run is shown, in
    order. *)
Fixpoint progress_values (log : list Event) : list Q :=
  match log with
  | [] => []
  | EvReport t :: r => progress t :: progress_values r
  | _ :: r => progress_values r
  end.

(** [lo <= x1 <= x2 <= ... <= xn <= hi] *)
Fixpoint chain (lo : Q) (l : list Q) (hi : Q) : Prop :=
  match l with
  | [] => (lo <= hi)%Q
  | x :: r => (lo <= x)%Q /\ chain x r hi
  end.

(** The collaborators report fractions between 0 and 1 that do not go
    down. *)
Definition fractions_ok (env : Env) (url : string) : Prop :=
  chain 0 (fst (download_audio env url)) 1
  /\ forall path, chain 0 (fst (convert_to_wav env path)) 1.

(** The weight table: the stages in their order, and the share of each. *)
Definition stages : list Collaborator := [Download; Convert; Transcribe; Translate; Export].

Definition weight (c : Collaborator) : Q :=
  match c with
  | Download => 0.2
  | Convert => 0.1
  | Transcribe => 0.4
  | Translate => 0.2
  | Export => 0.1
  end.

(** The sum of the weights of the stages that come before [c]. *)
Fixpoint weights_before (c : Collaborator) (l : list Collaborator) : Q :=
  match l with
  | [] => 0
  | c' :: r => if decide (c' = c) then 0 else (weight c' + weights_before c r)%Q
  end.

Definition band_start (c : Collaborator) : Q := weights_before c stages.

(** The stage a status belongs to, and the fraction of that stage. *)
Definition stage_of (s : TaskStatus) : option Collaborator :=
  match s with
  | DOWNLOADING => Some Download
  | CONVERTING => Some Convert
  | TRANSCRIBING => Some Transcribe
  | TRANSLATING => Some Translate
  | EXPORTING => Some Export
  | _ => None
  end.

Definition stage_fraction (c : Collaborator) (t : TaskProgress) : Q :=
  match c with
  | Download => download_progress t
  | Convert => conversion_progress t
  | Transcribe => transcription_progress t
  | Translate => translation_progress t
  | Export => export_progress t
  end.

(** What a progress report shows when it is on the weight table: the
    start of the band of its stage plus the share of the band that the
    fraction of the stage has reached.  The report on entry of the
    conversion is sent before the overall progress is computed again, so
    it still shows the value the download left. *)
Definition on_table (t : TaskProgress) : Prop :=
  match stage_of (status t) with
  | Some c =>
      (progress t == band_start c + stage_fraction c t * weight c)%Q
      \/ (c = Convert
          /\ (progress t == band_start Download + stage_fraction Download t * weight Download)%Q
          /\ (conversion_progress t == 0)%Q)
  | None => True
  end.

(** The collaborator calls of a run, in order, and whether the run
    took the result from the cache. *)
Definition calls (log : list Event) : list Collaborator :=
  flat_map (fun e => match e with EvCall c => [c] | _ => [] end) log.

Definition cache_hit (log : list Event) : bool :=
  existsb (fun e => match e with EvCacheHit => true | _ => false end) log.

Definition is_handler (cp : Checkpoint) : bool :=
  match cp with InHandler => true | _ => false end.

(** Whether the cancel event was seen set at the start or at the entry
    of a stage. *)
Fixpoint observed_set (log : list Event) : bool :=
  match log with
  | [] => false
  | EvCheck cp true :: r => negb (is_handler cp) || observed_set r
  | _ :: r => observed_set r
  end.

(** Whether a collaborator call begins after the cancel event was seen
    set at the start or at the entry of a stage. *)
Fixpoint calls_after_observed (observed : bool) (log : list Event) : bool :=
  match log with
  | [] => false
  | EvCheck cp true :: r => calls_after_observed (observed || negb (is_handler cp)) r
  | EvCall _ :: r => observed || calls_after_observed observed r
  | _ :: r => calls_after_observed observed r
  end.

(** The task [t] and the record [log] are what the pipeline run of the
    job leaves when it starts on the fresh task of the job, with some
    state of the cancel event and of the cache. *)
Definition job_run {S : Type} {storage : Storage S} (env : Env) (url : string)
           (args : JobArgs) (t : TaskProgress) (log : list Event) : Prop :=
  exists cancelled (cm : option (CacheManager S)),
    let w' := snd (_process_url env url (a_model args) (a_target_lang args)
                                (a_output_dir args) (a_formats args)
                                (start_world url cancelled cm)) in
    t = w_task w' /\ log = w_log w'.


(** What a batch leaves of the job [url]: its task is terminal and is
    what the job's own pipeline run made of it; an exception of a
    collaborator inside the [try] block became the error text of the
    task, in the state Failed unless the cancel event was set; and without
    an exception and without a cancel request the job is Completed. *)
Definition contained {S : Type} {storage : Storage S} (benv : BatchEnv) (url : string)
           (args : JobArgs) (self' : BatchProcessor S) : Prop :=
  exists t log,
    dict_get url (tasks self') = Some t
    /\ In (url, log) (job_log self')
    /\ job_run (job_env benv url) url args t log
    /\ terminal (status t) = true
    /\ (forall coll text, In (EvRaised coll text) log -> ~ In EvCacheHit log ->
          error t = Some text
          /\ (status t = FAILED \/ status t = CANCELLED)
          /\ (cancel_event self' = false -> status t = FAILED))
    /\ ((forall coll text, ~ In (EvRaised coll text) log) ->
        cancel_event self' = false -> status t = COMPLETED).

(** The argument the completion callback receives for the state [self]. *)
Definition completion_of {S : Type} (self : BatchProcessor S) : Completion :=
  {| c_status := batch_status self;
     c_tasks := tasks self;
     c_completed := count_status COMPLETED (tasks self);
     c_failed := count_status FAILED (tasks self);
     c_total := length (tasks self) |}.

(** A mark around the property of a run, so that the symbolic run
    stops in front of it. *)
Definition holds (P : Prop) : Prop := P.






End Notions.

(* ===================================================================== *)
(** * Scenarios *)
(* ===================================================================== *)

Module Scenario.
Import Task Batch.


(** A run in which every collaborator succeeds. *)
Definition smooth : Env :=
  {| time_time := fun m =>
       match m with MStart => 100 | MCacheGet => 101 | MCacheStore => 198 | MEnd => 200 end%Z;
     cancel_requested := fun _ => false;
     download_audio := fun _ => ([0.5; 1.0]%Q, Ok "/tmp/ytpro_1/a.m4a");
     convert_to_wav := fun _ => ([1.0]%Q, Ok "/tmp/tmp1.wav");
     transcribe := fun _ _ => Ok [("text", PyStr "hello")];
     translate := fun _ _ => Ok "bonjour";
     _export_results := fun _ _ _ _ => Ok [("srt", "/out/yt_x.srt")];
     path_exists := fun _ => true;
     os_remove := fun _ => Ok tt |}.

(** The same with another answer of one collaborator or other cancel
    requests. *)
Definition with_download (d : list Q * Outcome string) (env : Env) : Env :=
  {| time_time := time_time env; cancel_requested := cancel_requested env;
     download_audio := fun _ => d; convert_to_wav := convert_to_wav env;
     transcribe := transcribe env; translate := translate env;
     _export_results := _export_results env; path_exists := path_exists env;
     os_remove := os_remove env |}.

Definition with_transcribe (o : Outcome (list (string * PyVal))) (env : Env) : Env :=
  {| time_time := time_time env; cancel_requested := cancel_requested env;
     download_audio := download_audio env; convert_to_wav := convert_to_wav env;
     transcribe := fun _ _ => o; translate := translate env;
     _export_results := _export_results env; path_exists := path_exists env;
     os_remove := os_remove env |}.

Definition with_remove (o : Outcome unit) (env : Env) : Env :=
  {| time_time := time_time env; cancel_requested := cancel_requested env;
     download_audio := download_audio env; convert_to_wav := convert_to_wav env;
     transcribe := transcribe env; translate := translate env;
     _export_results := _export_results env; path_exists := path_exists env;
     os_remove := fun _ => o |}.

Definition with_cancel (requested : Phase -> bool) (env : Env) : Env :=
  {| time_time := time_time env; cancel_requested := requested;
     download_audio := download_audio env; convert_to_wav := convert_to_wav env;
     transcribe := transcribe env; translate := translate env;
     _export_results := _export_results env; path_exists := path_exists env;
     os_remove := os_remove env |}.

Definition with_clock (clock : Moment -> Z) (env : Env) : Env :=
  {| time_time := clock; cancel_requested := cancel_requested env;
     download_audio := download_audio env; convert_to_wav := convert_to_wav env;
     transcribe := transcribe env; translate := translate env;
     _export_results := _export_results env; path_exists := path_exists env;
     os_remove := os_remove env |}.

(** [cancel()] arrives while the download is running. *)
Definition cancel_during_download (ph : Phase) : bool :=
  match ph with During Download => true | _ => false end.

Definition video : string := "https://youtu.be/x".

(** The run of a job during whose download [cancel()] arrives. *)
Definition cancelled_env : Env := with_cancel cancel_during_download smooth.

Definition cancelled_run : Outcome UrlResult * World DiskCache :=
  _process_url cancelled_env video "small" None None None (Notions.start_world video false None).

(** The run of a job whose transcription raises and whose temporary
    files cannot be removed. *)
Definition failing_env : Env :=
  with_remove (Raise "Permission denied") (with_transcribe (Raise "CUDA out of memory") smooth).

Definition failing_run : Outcome UrlResult * World DiskCache :=
  _process_url failing_env video "small" None None None (Notions.start_world video false None).

(** A run without translation whose result is exported. *)
Definition untranslated_run : Outcome UrlResult * World DiskCache :=
  _process_url smooth video "small" None (Some "/out") (Some ["srt"])
               (Notions.start_world video false None).

(** The batch of the specification's scenario: three identifiers, the
    second of which is not a YouTube URL. *)
Definition three_urls : list string :=
  ["https://youtu.be/a"; "https://example.org/b"; "https://www.youtube.com/watch?v=c"].

(** A batch that names the same video twice. *)
Definition repeated_urls : list string :=
  ["https://youtu.be/a"; "https://www.youtube.com/watch?v=c"; "https://youtu.be/a"].

(** A processor without cache, as [batch_process] creates it. *)
Definition fresh_processor : BatchProcessor DiskCache := Batch.new None 2.


(** [CacheManager(ttl=DEFAULT_TTL)] right after [_init_metadata]. *)
Definition fresh_manager : CacheManager DiskCache :=
  {| default_ttl := DEFAULT_TTL;
     caches := fun ct =>
       match ct with
       | METADATA =>
           {[ "created_at" := {| e_value := PyInt 0; e_expire_time := None |};
              "access_count" := {| e_value := PyInt 0; e_expire_time := None |};
              "last_cleanup" := {| e_value := PyNone; e_expire_time := None |} ]}
       | _ => ∅
       end;
     stats := fun _ => CacheStats_init |}.

(** A processor with a completion callback. *)
Definition listening_processor : BatchProcessor DiskCache :=
  set_on_completion_callback true fresh_processor.

(** A batch in which the download of the first video raises. *)
Definition forbidden : Env := with_download ([], Raise "HTTP Error 403: Forbidden") smooth.

Definition one_download_fails : BatchEnv :=
  {| job_env := fun url => if String.eqb url "https://youtu.be/a" then forbidden else smooth;
     cancel_before_monitor := false |}.


(** The same video processed twice with the same model and target
    language, the second time a day later, on the cache the first run
    left.  Both runs are asked to export. *)
Definition next_day : Env := with_clock (fun m => (86400 + time_time smooth m)%Z) smooth.

Definition first_run (target_lang : option string) : Outcome UrlResult * World DiskCache :=
  _process_url smooth video "small" target_lang (Some "/out") (Some ["srt"])
               (Notions.start_world video false (Some fresh_manager)).

Definition second_run (target_lang : option string) : Outcome UrlResult * World DiskCache :=
  _process_url next_day video "small" target_lang (Some "/out") (Some ["srt"])
               (Notions.start_world video false (w_cache_manager (snd (first_run target_lang)))).

End Scenario.

(* ===================================================================== *)
(** * Further notions *)
(* ===================================================================== *)

Module Observations.
Import Task Batch.

(** What [_process_url] writes under ["status"] for a terminal state. *)
Definition status_text (s : TaskStatus) : string :=
  match s with
  | COMPLETED => "completed"
  | FAILED => "failed"
  | _ => "cancelled"
  end.

(** The value a call hands back when it returns. *)
Definition answer {St A : Type} (default : A) (c : Outcome A * St) : A :=
  match fst c with
  | Ok a => a
  | Raise _ => default
  end.



(** The characters of a hexadecimal digest. *)
Definition hex_digit (c : ascii) : bool :=
  let n := nat_of_ascii c in
  ((48 <=? n) && (n <=? 57) || (97 <=? n) && (n <=? 102))%nat.

End Observations.

(* ===================================================================== *)
(** * cache.py: the other operations of CacheManager *)
(* ===================================================================== *)

Module CacheOps.
Import Cache.

(** The further operations of diskcache.FanoutCache the manager uses. *)
Class StorageOps (S : Type) : Type := {
  (** [cache.delete(key)] *)
  st_delete : Z -> string -> S -> Outcome bool * S;
  (** [cache.clear()], which answers the number of items removed *)
  st_clear : Z -> S -> Outcome nat * S;
  (** [cache.expire()], which answers the number of items removed *)
  st_expire : Z -> S -> Outcome nat * S;
  (** [len(cache)] *)
  st_len : S -> Outcome nat * S;
  (** [key in cache] *)
  st_contains : Z -> string -> S -> Outcome bool * S
}.

Section Operations.
Context {S : Type} {storage : Storage S} {ops : StorageOps S}.

Definition cache_delete (now : Z) (ct : CacheType) (key : string) : M (CacheManager S) bool :=
  fun self =>
    let '(r, s') := st_delete now key (caches self ct) in
    (r, set_cache ct s' self).

Definition cache_clear (now : Z) (ct : CacheType) : M (CacheManager S) nat :=
  fun self =>
    let '(r, s') := st_clear now (caches self ct) in
    (r, set_cache ct s' self).

Definition cache_expire (now : Z) (ct : CacheType) : M (CacheManager S) nat :=
  fun self =>
    let '(r, s') := st_expire now (caches self ct) in
    (r, set_cache ct s' self).

Definition cache_len (ct : CacheType) : M (CacheManager S) nat :=
  fun self =>
    let '(r, s') := st_len (caches self ct) in
    (r, set_cache ct s' self).

Definition cache_contains (now : Z) (ct : CacheType) (key : string) : M (CacheManager S) bool :=
  fun self =>
    let '(r, s') := st_contains now key (caches self ct) in
    (r, set_cache ct s' self).

Definition count_delete (st : CacheStats) : CacheStats :=
  {| hits := hits st; misses := misses st; stores := stores st;
     deletes := Datatypes.S (deletes st); errors := errors st;
     last_access := last_access st; last_store := last_store st |}.

(** [for cache_type in CacheType] *)
Definition all_types : list CacheType := [TRANSCRIPTION; TRANSLATION; DOWNLOAD; METADATA].

(** [CacheManager.delete] *)
Definition delete (now : Z) (cache_type : CacheType) (key : string) (params : option Params)
  : M (CacheManager S) bool :=
  let cache_key := _get_cache_key key params in
  try_except
    (let* deleted := cache_delete now cache_type cache_key in
     (if deleted then modify (update_stats cache_type count_delete) else ret tt) >>
     ret deleted)
    (fun e =>
       modify (update_stats cache_type count_error) >>
       ret false).

(** [CacheManager.clear] *)
Definition clear (now : Z) (cache_type : option CacheType) : M (CacheManager S) bool :=
  try_except
    (match cache_type with
     | None =>
         (* Clear all caches except metadata *)
         for_each all_types (fun ct =>
           if negb (bool_decide (ct = METADATA)) then
             (let* removed := cache_clear now ct in
              modify (update_stats ct count_delete))
           else ret tt) >>
         ret true
     | Some ct =>
         (* Clear only the specified cache *)
         (let* removed := cache_clear now ct in
          modify (update_stats ct count_delete)) >>
         ret true
     end)
    (fun e => ret false).

(** One round of the loop of [cleanup].  The local variables
    [items_before] and [items_removed] keep what was added to them before
    an exception. *)
Definition cleanup_one (now : Z) (cache_type : CacheType) (items : nat * nat)
  : M (CacheManager S) (nat * nat) :=
  let '(items_before, items_removed) := items in
  if bool_decide (cache_type = METADATA) then ret items
  else
    try_except
      (let* type_before := cache_len cache_type in
       let items_before := (items_before + type_before)%nat in
       try_except
         ((* Use the diskcache's built-in expire mechanism *)
          let* expired := cache_expire now cache_type in
          ret (items_before, (items_removed + expired)%nat))
         (fun e =>
            modify (update_stats cache_type count_error) >>
            ret (items_before, items_removed)))
      (fun e =>
         modify (update_stats cache_type count_error) >>
         ret (items_before, items_removed)).

Fixpoint cleanup_loop (now : Z) (types : list CacheType) (items : nat * nat)
  : M (CacheManager S) (nat * nat) :=
  match types with
  | [] => ret items
  | cache_type :: rest =>
      let* items := cleanup_one now cache_type items in
      cleanup_loop now rest items
  end.

(** [CacheManager.cleanup] *)
Definition cleanup (now : Z) (max_age : option Z) : M (CacheManager S) (nat * nat) :=
  let* max_age_seconds :=
    gets (fun self => match max_age with Some a => a | None => default_ttl self end) in
  let* items := cleanup_loop now all_types (0, 0)%nat in
  (* Update metadata *)
  _update_metadata now "last_cleanup" (PyInt now) >>
  ret items.

(** The loop of [get_count(None)]. *)
Fixpoint count_loop (types : list CacheType) (total_count : nat) : M (CacheManager S) nat :=
  match types with
  | [] => ret total_count
  | ct :: rest =>
      let* n := cache_len ct in
      count_loop rest (total_count + n)%nat
  end.

(** [CacheManager.get_count] *)
Definition get_count (cache_type : option CacheType) : M (CacheManager S) nat :=
  try_except
    (match cache_type with
     | None => count_loop all_types 0%nat
     | Some ct => cache_len ct
     end)
    (fun e => ret 0%nat).

(** [CacheManager._init_metadata] *)
Definition _init_metadata (now : Z) : M (CacheManager S) unit :=
  (* Set initial metadata if it doesn't exist *)
  let* present := cache_contains now METADATA "created_at" in
  if negb present then
    _update_metadata now "created_at" (PyInt now) >>
    _update_metadata now "access_count" (PyInt 0) >>
    _update_metadata now "last_cleanup" PyNone
  else ret tt.

(** [CacheManager(ttl=ttl)], on the stores found in the cache directory. *)
Definition __init__ (now : Z) (ttl : Z) (found : CacheType -> S)
  : Outcome unit * CacheManager S :=
  _init_metadata now {| default_ttl := ttl; caches := found;
                        stats := fun _ => CacheStats_init |}.

End Operations.

(** [CacheStats.hit_ratio], the quotient read as an exact rational. *)
Definition hit_ratio (st : CacheStats) : Q :=
  let total := (hits st + misses st)%nat in
  if Nat.eqb total 0 then 0.0%Q
  else (inject_Z (Z.of_nat (hits st)) / inject_Z (Z.of_nat total))%Q.

(** ** The reference storage engine

    [delete] and [in] see an entry only while it is live, as [get] does;
    [len] counts every entry that is stored; [expire] removes the entries
    whose expiry time lies before [now]. *)
Definition expired (now : Z) (e : Entry) : bool :=
  match e_expire_time e with
  | None => false
  | Some t => Z.ltb t now
  end.

#[global] Instance DiskCache_ops : StorageOps DiskCache := {
  st_delete now key m :=
    match m !! key with
    | Some e => if live now e then (Ok true, base.delete key m) else (Ok false, m)
    | None => (Ok false, m)
    end;
  st_clear now m := (Ok (size m), ∅);
  st_expire now m :=
    (Ok (size (filter (fun kv => expired now (snd kv) = true) m)),
     filter (fun kv => expired now (snd kv) = false) m);
  st_len m := (Ok (size m), m);
  st_contains now key m :=
    (Ok match m !! key with
        | Some e => live now e
        | None => false
        end, m)
}.

#[global] Instance Corrupt_ops : StorageOps Corrupt := {
  st_delete _ _ s := (Raise "database disk image is malformed", s);
  st_clear _ s := (Raise "database disk image is malformed", s);
  st_expire _ s := (Raise "database disk image is malformed", s);
  st_len s := (Raise "database disk image is malformed", s);
  st_contains _ _ s := (Raise "database disk image is malformed", s)
}.

End CacheOps.

Module CacheNotions.
Import Cache CacheOps.

Section Answers.
Context {S : Type} {storage : Storage S} {ops : StorageOps S}.

(** What [len] answers for the store of a namespace, 0 when it raises. *)
Definition counted_before (ct : CacheType) (cm : CacheManager S) : nat :=
  match fst (st_len (caches cm ct)) with
  | Ok n => n
  | Raise _ => 0%nat
  end.

(** What [expire] answers for the store of a namespace after [len] has
    answered, 0 when one of them raises. *)
Definition counted_removed (now : Z) (ct : CacheType) (cm : CacheManager S) : nat :=
  match st_len (caches cm ct) with
  | (Ok _, s) =>
      match fst (st_expire now s) with
      | Ok n => n
      | Raise _ => 0%nat
      end
  | (Raise _, _) => 0%nat
  end.

(** Whether [len] or, after it, [expire] raises on the store of a
    namespace, and the store they leave. *)
Definition sweep_fails (now : Z) (ct : CacheType) (cm : CacheManager S) : bool :=
  match st_len (caches cm ct) with
  | (Ok _, s) =>
      match fst (st_expire now s) with
      | Ok _ => false
      | Raise _ => true
      end
  | (Raise _, _) => true
  end.

Definition swept (now : Z) (ct : CacheType) (cm : CacheManager S) : S :=
  match st_len (caches cm ct) with
  | (Ok _, s) => snd (st_expire now s)
  | (Raise _, s) => s
  end.

End Answers.

(** The metadata entry [created_at], when there is one, does not
    expire. *)
Definition created_for_good (cm : CacheManager DiskCache) : Prop :=
  forall e, caches cm METADATA !! "created_at" = Some e -> e_expire_time e = None.

End CacheNotions.

(* ===================================================================== *)
(** * batch.py: status, pause and resume *)
(* ===================================================================== *)

Module BatchOps.
Import Task Batch.

(** [TaskProgress.get_elapsed_time], with [now] for [time.time()]. *)
Definition get_elapsed_time (now : Z) (self : TaskProgress) : option Z :=
  match start_time self with
  | None => None
  | Some start =>
      let end_ := match end_time self with
                  | Some e => e
                  | None => now
                  end in
      Some (end_ - start)%Z
  end.

(** [sum(task.progress for task in self.tasks.values())] *)
Definition total_progress (ts : list (string * TaskProgress)) : Q :=
  fold_left (fun acc task => (acc + progress task)%Q) (dict_values ts) 0%Q.

(** [BatchProcessor._calculate_overall_progress] *)
Definition _calculate_overall_progress (ts : list (string * TaskProgress)) : Q :=
  match ts with
  | [] => 0.0%Q
  | _ => (total_progress ts / inject_Z (Z.of_nat (length ts)))%Q
  end.

(** The dictionary [get_status] returns. *)
Record Status : Type := {
  s_batch_status : BatchStatus;
  s_batch_progress : Q;
  s_tasks : list (string * TaskProgress);
  s_completed : nat;
  s_failed : nat;
  s_total : nat
}.

Section Control.
Context {S : Type}.

(** [BatchProcessor.get_status] *)
Definition get_status : M (BatchProcessor S) Status :=
  gets (fun self =>
    {| s_batch_status := batch_status self;
       s_batch_progress := _calculate_overall_progress (tasks self);
       s_tasks := tasks self;
       s_completed := count_status COMPLETED (tasks self);
       s_failed := count_status FAILED (tasks self);
       s_total := length (tasks self) |}).

(** [BatchProcessor.pause] *)
Definition pause : M (BatchProcessor S) bool :=
  let* st := gets batch_status in
  if negb (bool_decide (st = RUNNING)) then ret false
  else
    modify (set_batch_status PAUSED) >>
    ret true.

(** [BatchProcessor.resume] *)
Definition resume : M (BatchProcessor S) bool :=
  let* st := gets batch_status in
  if negb (bool_decide (st = PAUSED)) then ret false
  else
    modify (set_batch_status RUNNING) >>
    ret true.

End Control.

End BatchOps.

(* ===================================================================== *)
(** * audio_utils.py: the sources of the progress fractions *)
(* ===================================================================== *)

Module AudioUtils.

(** What a dictionary holds under a key: nothing, [None], or a value. *)
Inductive Item (A : Type) : Type :=
| Absent
| IsNone
| Is (a : A).
Arguments Absent {A}.
Arguments IsNone {A}.
Arguments Is {A} a.

(** [d.get(key, default)] *)
Definition item_get {A : Type} (default : option A) (i : Item A) : option A :=
  match i with
  | Absent => default
  | IsNone => None
  | Is a => Some a
  end.

(** Truth value of a number or [None]. *)
Definition truthy_number (v : option Q) : bool :=
  match v with
  | Some q => negb (Qeq_bool q 0)
  | None => false
  end.

(** The dictionary yt-dlp hands to a progress hook, as far as the hook
    reads it. *)
Record ProgressDict : Type := {
  d_status : Item string;
  d_downloaded_bytes : Item Q;
  d_total_bytes : Item Q;
  d_total_bytes_estimate : Item Q;
  d_filename : Item string
}.

(** [class DownloadProgressHook].  [callback] tells whether a callback
    was given; [reported] collects the arguments it was called with. *)
Record DownloadProgressHook : Type := {
  callback : bool;
  downloaded_bytes : option Q;
  total_bytes : option Q;
  filename : option string;
  reported : list (Q * option string)
}.

(** [DownloadProgressHook(callback)] *)
Definition new (cb : bool) : DownloadProgressHook :=
  {| callback := cb; downloaded_bytes := Some 0%Q; total_bytes := Some 0%Q;
     filename := Some ""; reported := [] |}.

Definition set_downloaded_bytes (v : option Q) (self : DownloadProgressHook)
  : DownloadProgressHook :=
  {| callback := callback self; downloaded_bytes := v; total_bytes := total_bytes self;
     filename := filename self; reported := reported self |}.

Definition set_total_bytes (v : option Q) (self : DownloadProgressHook)
  : DownloadProgressHook :=
  {| callback := callback self; downloaded_bytes := downloaded_bytes self; total_bytes := v;
     filename := filename self; reported := reported self |}.

Definition set_filename (v : option string) (self : DownloadProgressHook)
  : DownloadProgressHook :=
  {| callback := callback self; downloaded_bytes := downloaded_bytes self;
     total_bytes := total_bytes self; filename := v; reported := reported self |}.

(** [self.callback(progress, self.filename)] *)
Definition call_back (progress : Q) : M DownloadProgressHook unit :=
  modify (fun self =>
    {| callback := callback self; downloaded_bytes := downloaded_bytes self;
       total_bytes := total_bytes self; filename := filename self;
       reported := reported self ++ [(progress, filename self)] |}).

(** [d.get('total_bytes') or d.get('total_bytes_estimate', 0)] *)
Definition total_of (d : ProgressDict) : option Q :=
  let total := item_get None (d_total_bytes d) in
  if truthy_number total then total
  else item_get (Some 0%Q) (d_total_bytes_estimate d).

(** [DownloadProgressHook.__call__] *)
Definition __call__ (d : ProgressDict) : M DownloadProgressHook unit :=
  match d_status d with
  | Absent => raise "KeyError: 'status'"
  | IsNone => ret tt
  | Is status =>
      if String.eqb status "downloading" then
        modify (set_downloaded_bytes (item_get (Some 0%Q) (d_downloaded_bytes d))) >>
        modify (set_total_bytes (total_of d)) >>
        modify (set_filename (item_get (Some "") (d_filename d))) >>
        let* self := gets (fun self => self) in
        if callback self && truthy_number (total_bytes self) then
          match downloaded_bytes self, total_bytes self with
          | Some downloaded, Some total => call_back (downloaded / total)%Q
          | _, _ => raise "TypeError: unsupported operand type(s) for /"
          end
        else ret tt
      else if String.eqb status "finished" then
        let* self := gets (fun self => self) in
        if callback self then call_back 1.0%Q else ret tt
      else ret tt
  end.

(** ** The progress loop of [convert_to_wav]

    A line of FFmpeg's statistics, as the loop reads it: a line without
    ["time="], a line whose time stamp cannot be read (the exception is
    logged and the line is passed over), or a line with its time stamp
    in seconds. *)
Inductive StatLine : Type :=
| Other
| Unreadable
| TimeStamp (current_time : Q).

Record Conversion : Type := {
  last_progress : Q;
  fractions : list Q
}.

(** [min(a, b)] *)
Definition py_min (a b : Q) : Q := if Qle_bool a b then a else b.

(** [progress_callback(progress, out_path)], when a callback is given. *)
Definition report (cb : bool) (progress : Q) : M Conversion unit :=
  if cb then
    modify (fun c => {| last_progress := last_progress c;
                        fractions := fractions c ++ [progress] |})
  else ret tt.

(** The body of [for line in process.stderr]. *)
Definition read_line (cb : bool) (duration : option Q) (line : StatLine)
  : M Conversion unit :=
  match line with
  | TimeStamp current_time =>
      if truthy_number duration then
        match duration with
        | Some duration =>
            let progress := py_min (current_time / duration)%Q 1.0%Q in
            let* last := gets last_progress in
            (* Only report progress when it changes significantly *)
            if Qle_bool 0.05 (progress - last) || Qle_bool 0.99 progress then
              report cb progress >>
              modify (fun c => {| last_progress := progress; fractions := fractions c |})
            else ret tt
        | None => ret tt
        end
      else ret tt
  | Unreadable => ret tt
  | Other => ret tt
  end.


Definition start : Conversion := {| last_progress := 0%Q; fractions := [] |}.

End AudioUtils.

Module AudioNotions.
Import AudioUtils.

(** A report of yt-dlp on a running download of which [done] of [total]
    bytes are there. *)
Definition downloading_of (total done : Q) (d : ProgressDict) : Prop :=
  d_status d = Is "downloading"
  /\ d_downloaded_bytes d = Is done
  /\ total_of d = Some total.

(** A report on a running download whose size is not known. *)
Definition downloading_blind (d : ProgressDict) : Prop :=
  d_status d = Is "downloading" /\ truthy_number (total_of d) = false.


End AudioNotions.

(* ===================================================================== *)
(** * batch.py: the export of the results *)
(* ===================================================================== *)

Module ExportResults.

(** [s.split(sep)] for a separator that is not empty: the pieces between
    the occurrences of [sep], found from left to right.  [skip] counts
    the characters of a found separator that are still to be passed
    over. *)
Fixpoint split_from (sep : string) (skip : nat) (piece s : string) : list string :=
  match s with
  | EmptyString => [piece]
  | String c r =>
      match skip with
      | Datatypes.S k => split_from sep k piece r
      | O =>
          if String.prefix sep s then
            piece :: split_from sep (String.length sep - 1) "" r
          else split_from sep 0 (piece +:+ String c "") r
      end
  end.

Definition split (sep s : string) : list string := split_from sep 0 "" s.

(** [c.lower()] for a character of ASCII.  The bytes of the other
    characters stay as they are: the formats are only compared with
    names in lower-case letters of ASCII, and no character outside ASCII
    has one of the letters of these names as its lower-case form. *)
Definition lower_ascii (c : ascii) : ascii :=
  let n := nat_of_ascii c in
  if (65 <=? n)%nat && (n <=? 90)%nat then ascii_of_nat (n + 32) else c.

Fixpoint lower (s : string) : string :=
  match s with
  | EmptyString => EmptyString
  | String c r => String (lower_ascii c) (lower r)
  end.

(** [url.split("v=")[-1].split("&")[0] if "v=" in url else url.split("/")[-1]] *)
Definition video_id (url : string) : string :=
  if contains "v=" url then
    List.hd "" (split "&" (List.last (split "v=" url) ""))
  else List.last (split "/" url) "".

(** What the export asks of the file system. *)
Inductive FileOp : Type :=
| MakeDirs (path : string)
| WriteSrt (segments : PyVal) (path : string)
| WriteTxt (text : PyVal) (path : string)
| WriteJson (result : PyVal) (path : string)
| WriteVtt (segments : PyVal) (path : string).

(** The file system and the writers: [os.path.exists], [os.path.join],
    and whether an operation raises.  The state of the export is the
    list of the operations that were done. *)
Record Files : Type := {
  f_exists : string -> bool;
  f_join : string -> string -> string;
  f_do : FileOp -> Outcome unit
}.

Definition file_op (fs : Files) (op : FileOp) : M (list FileOp) unit :=
  fun done =>
    match f_do fs op with
    | Ok _ => (Ok tt, done ++ [op])
    | Raise e => (Raise e, done)
    end.

(** [result.get(key, default)] *)
Definition result_get (key : string) (default : PyVal) (result : PyVal) : M (list FileOp) PyVal :=
  match result with
  | PyDict d =>
      match dict_get key d with
      | Some v => ret v
      | None => ret default
      end
  | _ => raise "AttributeError: object has no attribute 'get'"
  end.

(** The body of [for fmt in formats]. *)
Definition export_format (fs : Files) (result : PyVal) (base_filename : string) (fmt : string)
           (export_paths : list (string * string)) : M (list FileOp) (list (string * string)) :=
  let fmt := lower fmt in
  if String.eqb fmt "srt" then
    let output_path := base_filename +:+ ".srt" in
    let* segments := result_get "segments" (PyList []) result in
    file_op fs (WriteSrt segments output_path) >>
    ret (dict_set "srt" output_path export_paths)
  else if String.eqb fmt "txt" then
    let output_path := base_filename +:+ ".txt" in
    let* text := result_get "text" (PyStr "") result in
    file_op fs (WriteTxt text output_path) >>
    ret (dict_set "txt" output_path export_paths)
  else if String.eqb fmt "json" then
    let output_path := base_filename +:+ ".json" in
    file_op fs (WriteJson result output_path) >>
    ret (dict_set "json" output_path export_paths)
  else if String.eqb fmt "vtt" then
    let output_path := base_filename +:+ ".vtt" in
    let* segments := result_get "segments" (PyList []) result in
    file_op fs (WriteVtt segments output_path) >>
    ret (dict_set "vtt" output_path export_paths)
  else ret export_paths.

Fixpoint export_loop (fs : Files) (result : PyVal) (base_filename : string)
         (formats : list string) (export_paths : list (string * string))
  : M (list FileOp) (list (string * string)) :=
  match formats with
  | [] => ret export_paths
  | fmt :: rest =>
      let* export_paths := export_format fs result base_filename fmt export_paths in
      export_loop fs result base_filename rest export_paths
  end.

(** [BatchProcessor._export_results] *)
Definition _export_results (fs : Files) (url : string) (result : PyVal) (output_dir : string)
           (formats : list string) : M (list FileOp) (list (string * string)) :=
  (if negb (f_exists fs output_dir) then file_op fs (MakeDirs output_dir) else ret tt) >>
  (* Generate a safe filename from the URL *)
  let base_filename := f_join fs output_dir ("yt_" +:+ video_id url) in
  (* Handle each format *)
  export_loop fs result base_filename formats [].

(** The names of the formats the export knows. *)
Definition known_formats : list string := ["srt"; "txt"; "json"; "vtt"].

Definition known (fmt : string) : bool :=
  existsb (String.eqb (lower fmt)) known_formats.

(** The operation the export does for a format, on a result that is a
    dictionary with the items [d]: none for a format it does not know. *)
Definition write_of (d : list (string * PyVal)) (base_filename : string) (fmt : string)
  : list FileOp :=
  let segments := match dict_get "segments" d with Some v => v | None => PyList [] end in
  let text := match dict_get "text" d with Some v => v | None => PyStr "" end in
  let fmt := lower fmt in
  if String.eqb fmt "srt" then [WriteSrt segments (base_filename +:+ ".srt")]
  else if String.eqb fmt "txt" then [WriteTxt text (base_filename +:+ ".txt")]
  else if String.eqb fmt "json" then [WriteJson (PyDict d) (base_filename +:+ ".json")]
  else if String.eqb fmt "vtt" then [WriteVtt segments (base_filename +:+ ".vtt")]
  else [].

(** The pipeline's export collaborator over a file system. *)
Definition exporter (fs : Files) (url : string) (result : PyVal) (output_dir : string)
           (formats : list string) : Outcome (list (string * string)) :=
  fst (_export_results fs url result output_dir formats []).

End ExportResults.

(* ===================================================================== *)
(** * Further scenarios *)
(* ===================================================================== *)

Module Setup.
Import Task Batch.

(** A cache directory that can be read but not written: lookups answer
    as on the reference engine, every write raises. *)
Inductive ReadOnly : Type := read_only (m : Cache.DiskCache).

#[global] Instance ReadOnly_storage : Cache.Storage ReadOnly := {
  st_get now key default s :=
    let '(read_only m) := s in
    let '(r, m') := Cache.st_get now key default m in
    (r, read_only m');
  st_set _ _ _ _ s := (Raise "attempt to write a readonly database", s)
}.

(** A manager over a read-only directory that holds one transcription
    under the key of [video] and the model ["small"]. *)
Definition read_only_manager : Cache.CacheManager ReadOnly :=
  {| Cache.default_ttl := Cache.DEFAULT_TTL;
     Cache.caches := fun ct =>
       read_only (Cache.caches
                    (snd (Cache.store 0 Cache.TRANSCRIPTION Scenario.video
                                      (PyDict [("text", PyStr "hello")])
                                      (Some [("model", PStr "small")]) None
                                      Scenario.fresh_manager)) ct);
     Cache.stats := fun _ => Cache.CacheStats_init |}.

(** A manager that holds one transcription, stored at time 0 under the
    key of [video] and the model ["small"]. *)
Definition small_model : option Cache.Params := Some [("model", PStr "small")].

Definition hello : PyVal := PyDict [("text", PyStr "hello")].

Definition stocked_manager : Cache.CacheManager Cache.DiskCache :=
  snd (Cache.store 0 Cache.TRANSCRIPTION Scenario.video hello small_model None
                   Scenario.fresh_manager).

(** The batch of [Scenario.three_urls] right after [process_batch]. *)
Definition started_processor : BatchProcessor Cache.DiskCache :=
  snd (process_batch Urllib.urlparse Scenario.three_urls "small" None None None
                     Scenario.listening_processor).

(** A list without a YouTube URL. *)
Definition no_video : list string := ["https://example.org/b"; "notes.txt"].

(** A batch in which every collaborator succeeds. *)
Definition all_smooth : BatchEnv :=
  {| job_env := fun _ => Scenario.smooth; cancel_before_monitor := false |}.

(** Reports of yt-dlp on a download: of known size, of unknown size,
    and at its end. *)
Definition downloading (done total : Q) : AudioUtils.ProgressDict :=
  {| AudioUtils.d_status := AudioUtils.Is "downloading";
     AudioUtils.d_downloaded_bytes := AudioUtils.Is done;
     AudioUtils.d_total_bytes := AudioUtils.Is total;
     AudioUtils.d_total_bytes_estimate := AudioUtils.Absent;
     AudioUtils.d_filename := AudioUtils.Is "/tmp/ytpro_1/a.webm" |}.

Definition downloading_live (done : Q) : AudioUtils.ProgressDict :=
  {| AudioUtils.d_status := AudioUtils.Is "downloading";
     AudioUtils.d_downloaded_bytes := AudioUtils.Is done;
     AudioUtils.d_total_bytes := AudioUtils.IsNone;
     AudioUtils.d_total_bytes_estimate := AudioUtils.Absent;
     AudioUtils.d_filename := AudioUtils.Is "/tmp/ytpro_1/a.webm" |}.

Definition finished : AudioUtils.ProgressDict :=
  {| AudioUtils.d_status := AudioUtils.Is "finished";
     AudioUtils.d_downloaded_bytes := AudioUtils.Is 100%Q;
     AudioUtils.d_total_bytes := AudioUtils.Is 100%Q;
     AudioUtils.d_total_bytes_estimate := AudioUtils.Absent;
     AudioUtils.d_filename := AudioUtils.Is "/tmp/ytpro_1/a.webm" |}.


(** A file system on which every operation succeeds, and one on which
    text files cannot be written. *)
Definition plain_files : ExportResults.Files :=
  {| ExportResults.f_exists := fun _ => true;
     ExportResults.f_join := fun a b => a +:+ "/" +:+ b;
     ExportResults.f_do := fun _ => Ok tt |}.

Definition no_text_files : ExportResults.Files :=
  {| ExportResults.f_exists := fun _ => true;
     ExportResults.f_join := fun a b => a +:+ "/" +:+ b;
     ExportResults.f_do := fun op =>
       match op with
       | ExportResults.WriteTxt _ _ => Raise "No space left on device"
       | _ => Ok tt
       end |}.

End Setup.

(* ===================================================================== *)
(** * Dictionaries *)
(* ===================================================================== *)

Section DictFacts.
Context {V : Type}.
Implicit Types (d : list (string * V)) (k : string) (v : V).

Lemma dict_get_set_same k v d : dict_get k (dict_set k v d) = Some v.
Proof.
  induction d as [|[k' v'] d IH]; cbn.
  - rewrite String.eqb_refl. reflexivity.
  - destruct (String.eqb_spec k k') as [->|Hne]; cbn.
    + rewrite String.eqb_refl. reflexivity.
    + destruct (String.eqb_spec k k'); [contradiction | exact IH].
Qed.

Lemma dict_get_set_other k k' v d : k' <> k -> dict_get k' (dict_set k v d) = dict_get k' d.
Proof.
  intros Hne. induction d as [|[k0 v0] d IH]; cbn.
  - destruct (String.eqb_spec k' k); [contradiction | reflexivity].
  - destruct (String.eqb_spec k k0) as [->|Hk]; cbn.
    + destruct (String.eqb_spec k' k0); [contradiction | reflexivity].
    + destruct (String.eqb_spec k' k0); [reflexivity | exact IH].
Qed.

Lemma dict_keys_set_old k v d : In k (dict_keys d) -> dict_keys (dict_set k v d) = dict_keys d.
Proof.
  induction d as [|[k' v'] d IH]; cbn; [contradiction|].
  intros [->|Hin].
  - rewrite String.eqb_refl. reflexivity.
  - destruct (String.eqb_spec k k') as [->|Hne]; cbn; [reflexivity|].
    f_equal. apply IH, Hin.
Qed.

Lemma dict_keys_set_new k v d : ~ In k (dict_keys d) -> dict_keys (dict_set k v d) = dict_keys d ++ [k].
Proof.
  induction d as [|[k' v'] d IH]; cbn; [reflexivity|].
  intros Hnin.
  destruct (String.eqb_spec k k') as [->|Hne]; [tauto|].
  cbn. f_equal. apply IH. tauto.
Qed.

Lemma dict_keys_set_in k k' v d : In k' (dict_keys (dict_set k v d)) <-> k' = k \/ In k' (dict_keys d).
Proof.
  destruct (in_dec string_dec k (dict_keys d)) as [Hin|Hnin].
  - rewrite dict_keys_set_old by exact Hin. split; [tauto|]. intros [->|H]; assumption.
  - rewrite dict_keys_set_new by exact Hnin. rewrite in_app_iff. cbn. intuition auto.
Qed.

Lemma dict_keys_set_NoDup k v d : List.NoDup (dict_keys d) -> List.NoDup (dict_keys (dict_set k v d)).
Proof.
  intros Hnd.
  destruct (in_dec string_dec k (dict_keys d)) as [Hin|Hnin].
  - rewrite dict_keys_set_old by exact Hin. exact Hnd.
  - rewrite dict_keys_set_new by exact Hnin.
    clear v. induction Hnd as [|x l Hx Hl IH]; cbn.
    + constructor; [intros [] | constructor].
    + cbn in Hnin. constructor.
      * rewrite in_app_iff. cbn. intuition auto.
      * apply IH. tauto.
Qed.

Lemma dict_get_In k v d : dict_get k d = Some v -> In k (dict_keys d).
Proof.
  induction d as [|[k' v'] d IH]; cbn; [discriminate|].
  destruct (String.eqb_spec k k') as [->|Hne]; [left; reflexivity|].
  intros H. right. apply IH, H.
Qed.

Lemma dict_get_None k d : ~ In k (dict_keys d) -> dict_get k d = None.
Proof.
  induction d as [|[k' v'] d IH]; cbn; [reflexivity|].
  intros Hnin. destruct (String.eqb_spec k k') as [->|Hne]; [tauto|]. apply IH. tauto.
Qed.

End DictFacts.

(* ===================================================================== *)
(** * Properties of the cache manager *)
(* ===================================================================== *)

Section CacheFacts.
Import Cache.
Context {S : Type} {storage : Storage S}.

Lemma errors_set_cache ct ct' s (cm : CacheManager S) :
  errors (stats (set_cache ct s cm) ct') = errors (stats cm ct').
Proof. reflexivity. Qed.

Lemma cache_get_errors now ct key default (cm : CacheManager S) ct' :
  errors (stats (snd (cache_get now ct key default cm)) ct') = errors (stats cm ct').
Proof. unfold cache_get. destruct (st_get _ _ _ _) as [r s']. reflexivity. Qed.

Lemma cache_set_errors now ct key value expire (cm : CacheManager S) ct' :
  errors (stats (snd (cache_set now ct key value expire cm)) ct') = errors (stats cm ct').
Proof. unfold cache_set. destruct (st_set _ _ _ _ _) as [r s']. reflexivity. Qed.

Lemma update_stats_errors ct f (cm : CacheManager S) ct' :
  (forall st, errors (f st) = errors st) ->
  errors (stats (update_stats ct f cm) ct') = errors (stats cm ct').
Proof. intros Hf. cbn. destruct (decide (ct' = ct)); [apply Hf | reflexivity]. Qed.

Lemma update_metadata_errors now key value (cm : CacheManager S) ct' :
  errors (stats (snd (_update_metadata now key value cm)) ct') = errors (stats cm ct').
Proof.
  unfold _update_metadata, bind, ret.
  pose proof (cache_set_errors now METADATA key value None cm ct') as H.
  destruct (cache_set now METADATA key value None cm) as [[b|e] cm']; exact H.
Qed.

(** The [try] block of [get] never touches the error counter. *)
Lemma get_try_errors now ct cache_key (cm : CacheManager S) ct' :
  errors (stats (snd (get_try now ct cache_key cm)) ct') = errors (stats cm ct').
Proof.
  unfold get_try, bind, modify, ret.
  pose proof (cache_get_errors now ct cache_key PyNone cm ct') as H1.
  destruct (cache_get now ct cache_key PyNone cm) as [[result|e] cm1];
    cbn [fst snd] in *; [|exact H1].
  destruct (is_none result); cbn [negb fst snd].
  { rewrite update_stats_errors by reflexivity. exact H1. }
  set (cm2 := update_stats ct (count_hit now) cm1).
  assert (H2 : errors (stats cm2 ct') = errors (stats cm ct')).
  { unfold cm2. rewrite update_stats_errors by reflexivity. exact H1. }
  clearbody cm2.
  destruct (is_metadata ct); cbn [negb fst snd]; [exact H2|].
  unfold _get_metadata.
  pose proof (cache_get_errors now METADATA "access_count" (PyInt 0) cm2 ct') as H3.
  destruct (cache_get now METADATA "access_count" (PyInt 0) cm2) as [[ac|e] cm3];
    cbn [fst snd] in *; [|congruence].
  assert (H4 : errors (stats (snd (py_succ ac cm3)) ct') = errors (stats cm ct')).
  { destruct ac; cbn; congruence. }
  destruct (py_succ ac cm3) as [[inc|e] cm4]; cbn [fst snd] in *; [|exact H4].
  pose proof (update_metadata_errors now "access_count" inc cm4 ct') as H5.
  destruct (_update_metadata now "access_count" inc cm4) as [[[]|e] cm5];
    cbn [fst snd] in *; [|congruence].
  pose proof (update_metadata_errors now "last_access" (PyInt now) cm5 ct') as H6.
  destruct (_update_metadata now "last_access" (PyInt now) cm5) as [[[]|e] cm6];
    cbn [fst snd] in *; congruence.
Qed.

(** Neither does the [try] block of [store]. *)
Lemma store_try_errors now ct cache_key data ttl (cm : CacheManager S) ct' :
  errors (stats (snd (store_try now ct cache_key data ttl cm)) ct') = errors (stats cm ct').
Proof.
  unfold store_try, bind, modify, ret.
  pose proof (cache_set_errors now ct cache_key data (Some ttl) cm ct') as H1.
  destruct (cache_set now ct cache_key data (Some ttl) cm) as [[[]|e] cm1];
    cbn [fst snd] in *; [|exact H1|exact H1].
  set (cm2 := update_stats ct (count_store now) cm1).
  assert (H2 : errors (stats cm2 ct') = errors (stats cm ct')).
  { unfold cm2. rewrite update_stats_errors by reflexivity. exact H1. }
  clearbody cm2.
  destruct (is_metadata ct); cbn [negb fst snd]; [exact H2|].
  pose proof (update_metadata_errors now "last_store" (PyInt now) cm2 ct') as H3.
  destruct (_update_metadata now "last_store" (PyInt now) cm2) as [[[]|e] cm3];
    cbn [fst snd] in *; congruence.
Qed.

Lemma count_error_here ct (cm : CacheManager S) :
  errors (stats (update_stats ct count_error cm) ct) = Datatypes.S (errors (stats cm ct)).
Proof. cbn. destruct (decide (ct = ct)); [reflexivity | congruence]. Qed.

(** [get] returns; what it returns after an exception in its [try] block. *)
Lemma get_returns now ct key params (cm : CacheManager S) :
  exists v cm',
    get now ct key params cm = (Ok v, cm') /\
    forall e cm1,
      get_try now ct (_get_cache_key key params) cm = (Raise e, cm1) ->
      v = PyNone /\ errors (stats cm' ct) = Datatypes.S (errors (stats cm ct)).
Proof.
  unfold get, try_except.
  pose proof (get_try_errors now ct (_get_cache_key key params) cm ct) as He.
  destruct (get_try now ct (_get_cache_key key params) cm) as [[v|e] cm1]; cbn in *.
  - exists v, cm1. split; [reflexivity | intros; discriminate].
  - eexists _, _. split; [reflexivity|]. intros e' cm1' _. split; [reflexivity|].
    rewrite count_error_here. congruence.
Qed.

Lemma store_returns now ct key data params ttl (cm : CacheManager S) :
  exists b cm',
    store now ct key data params ttl cm = (Ok b, cm') /\
    forall e cm1,
      store_try now ct (_get_cache_key key params) data (actual_ttl ttl cm) cm = (Raise e, cm1) ->
      b = false /\ errors (stats cm' ct) = Datatypes.S (errors (stats cm ct)).
Proof.
  unfold store, try_except, bind, gets.
  pose proof (store_try_errors now ct (_get_cache_key key params) data (actual_ttl ttl cm) cm ct) as He.
  destruct (store_try now ct (_get_cache_key key params) data (actual_ttl ttl cm) cm)
    as [[b|e] cm1]; cbn in *.
  - exists b, cm1. split; [reflexivity | intros; discriminate].
  - eexists _, _. split; [reflexivity|]. intros e' cm1' _. split; [reflexivity|].
    rewrite count_error_here. congruence.
Qed.


End CacheFacts.


(* ===================================================================== *)
(** * Properties of [process_batch] *)
(* ===================================================================== *)

Section InputFacts.
Import Task Batch Notions.
Context {S : Type} {storage : Storage S}.
Variable urlparse : string -> Outcome ParseResult.

Abbreviation validate := (validate_url urlparse).

Lemma set_tasks_same (self : BatchProcessor S) : set_tasks (tasks self) self = self.
Proof. destruct self; reflexivity. Qed.

Lemma set_futures_same (self : BatchProcessor S) : set_futures (futures self) self = self.
Proof. destruct self; reflexivity. Qed.

(** The loop that creates the tasks. *)
Lemma create_tasks_loop urls : forall self : BatchProcessor S,
  for_each urls (fun url =>
    if validate url then
      modify (fun self => set_tasks (dict_set url (Task.new url) (tasks self)) self)
    else ret tt) self
  = (Ok tt, set_tasks (fold_left (add_task validate) urls (tasks self)) self).
Proof.
  induction urls as [|u urls IH]; intros self; cbn.
  - unfold ret. rewrite set_tasks_same. reflexivity.
  - unfold bind at 1. unfold add_task at 2.
    destruct (validate u); cbn; rewrite IH; reflexivity.
Qed.

(** The loop that submits the pipeline runs. *)
Lemma submit_loop args urls : forall self : BatchProcessor S,
  for_each urls (fun url =>
    modify (fun self => set_futures (dict_set url args (futures self)) self)) self
  = (Ok tt, set_futures (fold_left (add_future args) urls (futures self)) self).
Proof.
  induction urls as [|u urls IH]; intros self; cbn.
  - unfold ret. rewrite set_futures_same. reflexivity.
  - unfold bind, modify. cbn. rewrite IH. reflexivity.
Qed.

Lemma add_task_keys urls : forall ts u,
  In u (dict_keys (fold_left (add_task validate) urls ts))
  <-> In u (dict_keys ts) \/ In u (List.filter validate urls).
Proof.
  induction urls as [|x urls IH]; intros ts u; cbn [fold_left List.filter]; [cbn; tauto|].
  rewrite IH. unfold add_task. destruct (validate x) eqn:Hx; cbn [In]; [|tauto].
  rewrite dict_keys_set_in. intuition auto.
Qed.

Lemma add_task_NoDup urls : forall ts,
  List.NoDup (dict_keys ts) -> List.NoDup (dict_keys (fold_left (add_task validate) urls ts)).
Proof.
  induction urls as [|x urls IH]; intros ts Hnd; cbn [fold_left]; [exact Hnd|].
  apply IH. unfold add_task. destruct (validate x); [|exact Hnd].
  apply dict_keys_set_NoDup, Hnd.
Qed.

Lemma add_task_fresh urls : forall ts,
  (forall u t, dict_get u ts = Some t -> t = Task.new u) ->
  forall u t, dict_get u (fold_left (add_task validate) urls ts) = Some t -> t = Task.new u.
Proof.
  induction urls as [|x urls IH]; intros ts Hts; cbn [fold_left]; [exact Hts|].
  apply IH. unfold add_task. destruct (validate x); [|exact Hts].
  intros u t. destruct (string_dec u x) as [->|Hne].
  - rewrite dict_get_set_same. congruence.
  - rewrite dict_get_set_other by exact Hne. apply Hts.
Qed.

Lemma add_task_empty urls :
  List.filter validate urls = [] -> fold_left (add_task validate) urls [] = [].
Proof.
  induction urls as [|x urls IH]; cbn [fold_left List.filter]; [reflexivity|].
  unfold add_task at 2. destruct (validate x); [discriminate | exact IH].
Qed.

Lemma add_future_keys args urls : forall fs,
  List.NoDup (dict_keys fs ++ urls) ->
  dict_keys (fold_left (add_future args) urls fs) = dict_keys fs ++ urls.
Proof.
  induction urls as [|x urls IH]; intros fs Hnd; cbn [fold_left].
  - rewrite app_nil_r. reflexivity.
  - assert (Hx : ~ In x (dict_keys fs)).
    { intros Hin. apply NoDup_remove_2 in Hnd. apply Hnd. rewrite in_app_iff. tauto. }
    rewrite IH; unfold add_future; rewrite dict_keys_set_new by exact Hx.
    + rewrite <- app_assoc. reflexivity.
    + rewrite <- app_assoc. exact Hnd.
Qed.

(** Two duplicate-free lists with the same elements have the same length. *)
Lemma same_elements_same_length (l1 l2 : list string) :
  List.NoDup l1 -> List.NoDup l2 -> (forall x, In x l1 <-> In x l2) -> length l1 = length l2.
Proof.
  intros H1 H2 H. apply Nat.le_antisymm; apply NoDup_incl_length; try assumption;
    intros x Hx; apply H, Hx.
Qed.

(** What [process_batch] leaves behind and answers, in terms of the task
    dictionary built from the valid URLs. *)
Lemma process_batch_unfold urls model tl od fmts (self : BatchProcessor S) :
  urls <> [] ->
  let ts := fold_left (add_task validate) urls [] in
  let reset := set_batch_status RUNNING (set_futures [] (set_tasks [] (set_cancel_event false self))) in
  process_batch urlparse urls model tl od fmts self =
  match ts with
  | [] => (Ok (Error "No valid YouTube URLs provided"), set_tasks ts reset)
  | _ :: _ =>
      let args := {| a_model := model; a_target_lang := tl; a_output_dir := od;
                     a_formats := if truthy_list fmts then fmts else Some ["srt"] |} in
      (Ok (Started (dict_keys ts) (length ts)),
       set_futures (fold_left (add_future args) (dict_keys ts) [])
         (set_executor (Some (concurrency self)) (set_tasks ts reset)))
  end.
Proof.
  intros Hne. destruct urls as [|u0 urls0]; [contradiction|].
  cbv zeta. unfold process_batch. cbv beta iota.
  unfold bind at 1. cbn [modify].
  unfold bind at 1. rewrite create_tasks_loop. cbn [tasks set_batch_status set_futures set_tasks].
  unfold bind at 1. cbn [gets tasks set_tasks].
  destruct (fold_left (add_task validate) (u0 :: urls0) []) as [|p ts] eqn:Hts; [reflexivity|].
  unfold bind at 1. cbn [modify].
  unfold bind at 1. rewrite submit_loop. reflexivity.
Qed.

(** The state and the answer of [process_batch] when some URL is valid. *)
Lemma process_batch_started urls model tl od fmts (self : BatchProcessor S) :
  let valid := List.filter validate urls in
  let r := fst (process_batch urlparse urls model tl od fmts self) in
  let self' := snd (process_batch urlparse urls model tl od fmts self) in
  valid <> [] ->
  r = Ok (Started (dict_keys (tasks self')) (length (tasks self')))
  /\ List.NoDup (dict_keys (tasks self'))
  /\ (forall u, In u (dict_keys (tasks self')) <-> In u valid)
  /\ (forall u t, dict_get u (tasks self') = Some t -> t = Task.new u)
  /\ dict_keys (futures self') = dict_keys (tasks self')
  /\ batch_status self' = RUNNING.
Proof.
  cbv zeta. intros Hvalid. destruct urls as [|u0 urls0]; [contradiction Hvalid; reflexivity|].
  pose proof (process_batch_unfold (u0 :: urls0) model tl od fmts self ltac:(discriminate)) as Hpb.
  cbv zeta in Hpb. set (urls := u0 :: urls0) in *.
  assert (Hkeys : forall u, In u (dict_keys (fold_left (add_task validate) urls [])) <->
                            In u (List.filter validate urls)).
  { intros u. rewrite add_task_keys. cbn. tauto. }
  assert (Hnd : List.NoDup (dict_keys (fold_left (add_task validate) urls []))).
  { apply add_task_NoDup. constructor. }
  destruct (fold_left (add_task validate) urls []) as [|p ts] eqn:Hts.
  { exfalso. destruct (List.filter validate urls) as [|v vs]; [contradiction Hvalid; reflexivity|].
    apply (proj2 (Hkeys v)). left. reflexivity. }
  rewrite Hpb. cbn [fst snd tasks futures set_futures set_executor set_tasks batch_status
                    set_batch_status].
  repeat split.
  - exact Hnd.
  - apply Hkeys.
  - apply Hkeys.
  - rewrite <- Hts. apply add_task_fresh. discriminate.
  - apply (add_future_keys _ _ []). exact Hnd.
Qed.

Lemma dict_set_new {V : Type} k (v : V) d : ~ In k (dict_keys d) -> dict_set k v d = d ++ [(k, v)].
Proof.
  induction d as [|[k' v'] d IH]; cbn; [reflexivity|].
  intros Hnin. destruct (String.eqb_spec k k') as [->|Hne]; [tauto|].
  f_equal. apply IH. tauto.
Qed.

Lemma add_future_list args urls : forall fs,
  List.NoDup (dict_keys fs ++ urls) ->
  fold_left (add_future args) urls fs = fs ++ map (fun u => (u, args)) urls.
Proof.
  induction urls as [|x urls IH]; intros fs Hnd; cbn [fold_left map].
  - rewrite app_nil_r. reflexivity.
  - assert (Hx : ~ In x (dict_keys fs)).
    { intros Hin. apply NoDup_remove_2 in Hnd. apply Hnd. rewrite in_app_iff. tauto. }
    unfold add_future at 2. rewrite dict_set_new by exact Hx.
    rewrite IH.
    + rewrite <- app_assoc. reflexivity.
    + unfold dict_keys. rewrite map_app. cbn. rewrite <- app_assoc. exact Hnd.
Qed.

(** What [process_batch] submits, and what it leaves alone. *)
Lemma process_batch_submits urls model tl od fmts (self : BatchProcessor S) :
  let self' := snd (process_batch urlparse urls model tl od fmts self) in
  let args := {| a_model := model; a_target_lang := tl; a_output_dir := od;
                 a_formats := if truthy_list fmts then fmts else Some ["srt"] |} in
  List.filter validate urls <> [] ->
  futures self' = map (fun u => (u, args)) (dict_keys (tasks self'))
  /\ cancel_event self' = false
  /\ on_completion_callback self' = on_completion_callback self
  /\ completions self' = completions self.
Proof.
  cbv zeta. intros Hvalid. destruct urls as [|u0 urls0]; [contradiction Hvalid; reflexivity|].
  pose proof (process_batch_unfold (u0 :: urls0) model tl od fmts self ltac:(discriminate)) as Hpb.
  cbv zeta in Hpb. set (urls := u0 :: urls0) in *.
  assert (Hnd : List.NoDup (dict_keys (fold_left (add_task validate) urls []))).
  { apply add_task_NoDup. constructor. }
  destruct (fold_left (add_task validate) urls []) as [|p ts] eqn:Hts.
  { exfalso. destruct (List.filter validate urls) as [|v vs] eqn:Hf; [contradiction Hvalid; reflexivity|].
    assert (Hin : In v (dict_keys (fold_left (add_task validate) urls []))).
    { apply add_task_keys. right. rewrite Hf. left. reflexivity. }
    rewrite Hts in Hin. destruct Hin. }
  rewrite Hpb. cbn [fst snd tasks futures set_futures set_executor set_tasks batch_status
                    set_batch_status cancel_event set_cancel_event on_completion_callback
                    completions].
  split; [|repeat split].
  apply (add_future_list _ _ []). exact Hnd.
Qed.

(** C7.  [process_batch] keeps the URLs that [validate_url] accepts (the
    URL is not empty, [urlparse] returns, the scheme is http or https and
    the network location contains [youtube.com] or [youtu.be]) and drops
    the others without a word.  With no URL left, or none given, it
    answers an error, submits nothing and creates no pool, and no monitor
    runs.  Otherwise the task dictionary holds exactly one fresh task for
    every valid URL, one pipeline run is submitted for each, and the
    answer is [started] with the number of tasks as [total]; for a list
    without repetitions that is the number of valid list entries. *)
Theorem process_batch_validates urls model tl od fmts (self : BatchProcessor S) :
  let valid := List.filter validate urls in
  let r := fst (process_batch urlparse urls model tl od fmts self) in
  let self' := snd (process_batch urlparse urls model tl od fmts self) in
  (forall u, validate u = true <->
     u <> "" /\ exists parsed, urlparse u = Ok parsed
       /\ (scheme parsed = "http" \/ scheme parsed = "https")
       /\ (contains "youtube.com" (netloc parsed) = true
           \/ contains "youtu.be" (netloc parsed) = true))
  /\ (valid = [] ->
      (exists message, r = Ok (Error message))
      /\ (self' = self \/ (tasks self' = [] /\ futures self' = []))
      /\ _executor self' = _executor self
      /\ forall benv, run_batch urlparse benv urls model tl od fmts self = (r, self'))
  /\ (valid <> [] ->
      r = Ok (Started (dict_keys (tasks self')) (length (tasks self')))
      /\ List.NoDup (dict_keys (tasks self'))
      /\ (forall u, In u (dict_keys (tasks self')) <-> In u valid)
      /\ (forall u t, dict_get u (tasks self') = Some t -> t = Task.new u)
      /\ dict_keys (futures self') = dict_keys (tasks self')
      /\ batch_status self' = RUNNING
      /\ (List.NoDup urls -> length (tasks self') = length valid)).
Proof.
  cbv zeta. split; [|split].
  - intros u. unfold validate_url.
    destruct (String.eqb_spec u "") as [->|Hu]; [intuition congruence|].
    destruct (urlparse u) as [parsed|e].
    + rewrite andb_true_iff, !orb_true_iff, !String.eqb_eq.
      split.
      * intros [Hs Hn]. split; [exact Hu|]. exists parsed. auto.
      * intros [_ (p & Hp & Hs & Hn)]. injection Hp as <-. auto.
    + split; [discriminate|]. intros [_ (p & Hp & _)]. discriminate.
  - intros Hvalid. destruct urls as [|u0 urls0].
    + cbn. repeat split; eauto.
    + pose proof (process_batch_unfold (u0 :: urls0) model tl od fmts self ltac:(discriminate)) as Hpb.
      cbv zeta in Hpb. rewrite (add_task_empty _ Hvalid) in Hpb.
      unfold run_batch, bind. rewrite Hpb. cbn. repeat split; eauto.
  - intros Hvalid.
    destruct (process_batch_started urls model tl od fmts self Hvalid)
      as (Hr & Hnd & Hkeys & Hfresh & Hfut & Hst).
    repeat split; try assumption; try apply Hkeys.
    intros Hurls. rewrite <- (length_map fst).
    apply same_elements_same_length; [exact Hnd | | exact Hkeys].
    apply List.NoDup_filter, Hurls.
Qed.

(** C10.  A valid URL that occurs several times in the list gets one
    task: the tasks are the entries of a dictionary keyed by the URL.
    [total] is the number of different valid URLs in the list. *)
Theorem process_batch_collapses_duplicates urls model tl od fmts (self : BatchProcessor S) :
  let valid := List.filter validate urls in
  let r := fst (process_batch urlparse urls model tl od fmts self) in
  let self' := snd (process_batch urlparse urls model tl od fmts self) in
  valid <> [] ->
  (forall u, In u valid -> count_occ string_dec (dict_keys (tasks self')) u = 1%nat)
  /\ exists task_urls,
       r = Ok (Started task_urls (size (list_to_set valid : gset string)))
       /\ length (tasks self') = size (list_to_set valid : gset string).
Proof.
  cbv zeta. intros Hvalid.
  destruct (process_batch_started urls model tl od fmts self Hvalid) as (Hr & Hnd & Hkeys & _).
  assert (Hsize : length (tasks (snd (process_batch urlparse urls model tl od fmts self)))
                  = size (list_to_set (List.filter validate urls) : gset string)).
  { rewrite <- (length_map fst). fold (dict_keys (tasks (snd (process_batch urlparse urls model tl od fmts self)))).
    rewrite <- (size_list_to_set (C := gset string)) by (apply NoDup_ListNoDup, Hnd).
    f_equal. apply set_eq. intros u. rewrite !elem_of_list_to_set, !list_elem_of_In. apply Hkeys. }
  split.
  - intros u Hu. apply Hkeys in Hu.
    pose proof (proj1 (List.NoDup_count_occ string_dec _) Hnd u) as Hle.
    pose proof (proj1 (count_occ_In string_dec _ u) Hu) as Hge. lia.
  - eexists. split; [rewrite Hr, Hsize; reflexivity | exact Hsize].
Qed.

End InputFacts.

(** C7 on the scenario of the specification: of three identifiers the one
    that is no YouTube URL is dropped, two tasks are created and [total]
    is 2; a list with no valid URL is answered with an error. *)
Lemma process_batch_validates_witness :
  (List.filter (Batch.validate_url Urllib.urlparse) Scenario.three_urls <> []
   /\ fst (Batch.process_batch Urllib.urlparse Scenario.three_urls "small" None None None
                               Scenario.fresh_processor)
      = Ok (Batch.Started ["https://youtu.be/a"; "https://www.youtube.com/watch?v=c"] 2))
  /\ (List.filter (Batch.validate_url Urllib.urlparse) ["ftp://youtube.com/a"; "youtu.be/b"] = []
      /\ exists message,
           fst (Batch.process_batch Urllib.urlparse ["ftp://youtube.com/a"; "youtu.be/b"] "small"
                                    None None None Scenario.fresh_processor)
           = Ok (Batch.Error message)).
Proof.
  split.
  - assert (Hv : List.filter (Batch.validate_url Urllib.urlparse) Scenario.three_urls <> [])
      by (vm_compute; discriminate).
    split; [exact Hv|].
    destruct (process_batch_validates Urllib.urlparse Scenario.three_urls "small" None None None
                Scenario.fresh_processor) as (_ & _ & H).
    destruct (H Hv) as (Hr & _). rewrite Hr. vm_compute. reflexivity.
  - assert (Hv : List.filter (Batch.validate_url Urllib.urlparse)
                             ["ftp://youtube.com/a"; "youtu.be/b"] = [])
      by (vm_compute; reflexivity).
    split; [exact Hv|].
    destruct (process_batch_validates Urllib.urlparse ["ftp://youtube.com/a"; "youtu.be/b"]
                "small" None None None Scenario.fresh_processor) as (_ & H & _).
    destruct (H Hv) as (Hr & _). exact Hr.
Defined.

(** C10 on a list that names one video twice: three entries, two tasks. *)
Lemma process_batch_collapses_duplicates_witness :
  List.filter (Batch.validate_url Urllib.urlparse) Scenario.repeated_urls <> []
  /\ length Scenario.repeated_urls = 3%nat
  /\ count_occ string_dec
       (dict_keys (Batch.tasks (snd (Batch.process_batch Urllib.urlparse Scenario.repeated_urls
                                       "small" None None None Scenario.fresh_processor))))
       "https://youtu.be/a" = 1%nat
  /\ length (Batch.tasks (snd (Batch.process_batch Urllib.urlparse Scenario.repeated_urls
                                 "small" None None None Scenario.fresh_processor))) = 2%nat.
Proof.
  assert (Hv : List.filter (Batch.validate_url Urllib.urlparse) Scenario.repeated_urls <> [])
    by (vm_compute; discriminate).
  split; [exact Hv|]. split; [reflexivity|].
  destruct (process_batch_collapses_duplicates Urllib.urlparse Scenario.repeated_urls
              "small" None None None Scenario.fresh_processor Hv) as (Hcount & urls & _ & Hlen).
  split.
  - apply Hcount. vm_compute. left. reflexivity.
  - rewrite Hlen. vm_compute. reflexivity.
Defined.

(* ===================================================================== *)
(** * Properties of the composite key *)
(* ===================================================================== *)

Section StringFacts.
Import Notions.

Lemma length_append (a b : string) : String.length (a +:+ b) = (String.length a + String.length b)%nat.
Proof. induction a as [|c a IH]; simpl; [reflexivity | f_equal; exact IH]. Qed.






End StringFacts.

Section KeyFacts.
Import Cache Notions.










End KeyFacts.

(* ===================================================================== *)
(** * The cache manager on the reference storage engine *)
(* ===================================================================== *)

Section DiskFacts.
Import Cache Notions.
Implicit Types (cm : CacheManager DiskCache).




End DiskFacts.



(* ===================================================================== *)
(** * Running the pipeline symbolically *)
(* ===================================================================== *)

Section RunFacts.
Import Task Batch Notions.
Context {S : Type} {storage : Storage S}.
Implicit Types (w : World S) (t : TaskProgress).

Lemma snap_download_again t p q :
  snap set_download_progress (snap set_download_progress t p) q = snap set_download_progress t q.
Proof. unfold snap, update_progress. destruct t as [? st ? ? ? ? ? ? ? ? ? ? ?]; destruct st; reflexivity. Qed.

Lemma snap_conversion_again t p q :
  snap set_conversion_progress (snap set_conversion_progress t p) q = snap set_conversion_progress t q.
Proof. unfold snap, update_progress. destruct t as [? st ? ? ? ? ? ? ? ? ? ? ?]; destruct st; reflexivity. Qed.

(** The download callbacks, one after another. *)
Lemma download_callbacks fracs : forall w,
  for_each fracs download_progress_callback w =
  (Ok tt, {| w_task := after_fractions set_download_progress fracs (w_task w);
             w_cancel_event := w_cancel_event w; w_cache_manager := w_cache_manager w;
             w_log := w_log w ++
                      map (fun p => EvReport (snap set_download_progress (w_task w) p)) fracs |}).
Proof.
  induction fracs as [|p fr IH]; intros [t c m l]; cbn.
  - unfold ret. rewrite app_nil_r. reflexivity.
  - unfold bind, download_progress_callback, with_task, _report_progress, log_event, modify,
      gets, bind. cbn.
    rewrite IH. cbn. f_equal. f_equal.
    rewrite <- app_assoc. cbn. f_equal. f_equal. apply map_ext. intros q. f_equal.
    apply snap_download_again.
Qed.

Lemma conversion_callbacks fracs : forall w,
  for_each fracs conversion_progress_callback w =
  (Ok tt, {| w_task := after_fractions set_conversion_progress fracs (w_task w);
             w_cancel_event := w_cancel_event w; w_cache_manager := w_cache_manager w;
             w_log := w_log w ++
                      map (fun p => EvReport (snap set_conversion_progress (w_task w) p)) fracs |}).
Proof.
  induction fracs as [|p fr IH]; intros [t c m l]; cbn.
  - unfold ret. rewrite app_nil_r. reflexivity.
  - unfold bind, conversion_progress_callback, with_task, _report_progress, log_event, modify,
      gets, bind. cbn.
    rewrite IH. cbn. f_equal. f_equal.
    rewrite <- app_assoc. cbn. f_equal. f_equal. apply map_ext. intros q. f_equal.
    apply snap_conversion_again.
Qed.

Lemma last_cons_default (p d : Q) fr : List.last (p :: fr) d = List.last fr p.
Proof.
  revert p d. induction fr as [|q fr IH]; intros p d; [reflexivity|].
  change (List.last (p :: q :: fr) d) with (List.last (q :: fr) d).
  rewrite (IH q d), (IH q p). reflexivity.
Qed.

(** Fractions change the fraction of their stage and the overall
    progress, and nothing else. *)
Lemma after_download_fractions fracs : forall t,
  after_fractions set_download_progress fracs t =
  set_progress (progress (after_fractions set_download_progress fracs t))
    (set_download_progress (List.last fracs (download_progress t)) t).
Proof.
  induction fracs as [|p fr IH]; intros t.
  - destruct t; reflexivity.
  - change (after_fractions set_download_progress (p :: fr) t)
      with (after_fractions set_download_progress fr (snap set_download_progress t p)).
    rewrite IH at 1. rewrite last_cons_default.
    destruct t as [? st ? ? ? ? ? ? ? ? ? ? ?]; destruct st; reflexivity.
Qed.

Lemma after_conversion_fractions fracs : forall t,
  after_fractions set_conversion_progress fracs t =
  set_progress (progress (after_fractions set_conversion_progress fracs t))
    (set_conversion_progress (List.last fracs (conversion_progress t)) t).
Proof.
  induction fracs as [|p fr IH]; intros t.
  - destruct t; reflexivity.
  - change (after_fractions set_conversion_progress (p :: fr) t)
      with (after_fractions set_conversion_progress fr (snap set_conversion_progress t p)).
    rewrite IH at 1. rewrite last_cons_default.
    destruct t as [? st ? ? ? ? ? ? ? ? ? ? ?]; destruct st; reflexivity.
Qed.

Lemma bind_download_callbacks {A} fracs (k : unit -> M (World S) A) w :
  bind (for_each fracs download_progress_callback) k w =
  k tt {| w_task :=
            set_progress (progress (after_fractions set_download_progress fracs (w_task w)))
              (set_download_progress (List.last fracs (download_progress (w_task w))) (w_task w));
          w_cancel_event := w_cancel_event w; w_cache_manager := w_cache_manager w;
          w_log := w_log w ++
                   map (fun p => EvReport (snap set_download_progress (w_task w) p)) fracs |}.
Proof. unfold bind. rewrite download_callbacks, <- after_download_fractions. reflexivity. Qed.

Lemma bind_conversion_callbacks {A} fracs (k : unit -> M (World S) A) w :
  bind (for_each fracs conversion_progress_callback) k w =
  k tt {| w_task :=
            set_progress (progress (after_fractions set_conversion_progress fracs (w_task w)))
              (set_conversion_progress (List.last fracs (conversion_progress (w_task w))) (w_task w));
          w_cancel_event := w_cancel_event w; w_cache_manager := w_cache_manager w;
          w_log := w_log w ++
                   map (fun p => EvReport (snap set_conversion_progress (w_task w) p)) fracs |}.
Proof. unfold bind. rewrite conversion_callbacks, <- after_conversion_fractions. reflexivity. Qed.

(** [cleanup_temp_files] returns, whatever [os.remove] does. *)
Lemma cleanup_temp_files_returns env paths : forall w,
  for_each paths (fun path =>
    if negb (String.eqb path "") && path_exists env path then
      try_except
        (log_event (EvRemove path) >>
         match os_remove env path with
         | Ok _ => ret tt
         | Raise msg => raise msg
         end)
        (fun e => ret tt)
    else ret tt) w
  = (Ok tt, {| w_task := w_task w; w_cancel_event := w_cancel_event w;
               w_cache_manager := w_cache_manager w;
               w_log := w_log w ++ removal_events env paths |}).
Proof.
  induction paths as [|p ps IH]; intros [t c m l]; cbn.
  - unfold ret. rewrite app_nil_r. reflexivity.
  - unfold bind at 1.
    destruct (negb (String.eqb p "") && path_exists env p); cbn.
    + unfold try_except, bind, log_event, modify. cbn.
      destruct (os_remove env p) as [[]|e]; cbn; rewrite IH; cbn; rewrite <- app_assoc; reflexivity.
    + rewrite IH. reflexivity.
Qed.

(** [TaskProgress.cleanup] returns and leaves the cleaned world. *)
Lemma cleanup_returns env w : cleanup env w = (Ok tt, cleaned env w).
Proof.
  destruct w as [t c m l]. unfold cleanup, cleaned, bind, gets. cbn [w_task].
  destruct (temp_files t) as [|f fs] eqn:Hf; [reflexivity|].
  unfold cleanup_temp_files, bind, log_event, modify, with_task.
  rewrite cleanup_temp_files_returns.
  cbn [w_task w_cancel_event w_cache_manager w_log]. rewrite <- app_assoc. reflexivity.
Qed.

Lemma try_finally_cleanup {A} (body : M (World S) A) env w :
  try_finally body (cleanup env) w = (fst (body w), cleaned env (snd (body w))).
Proof.
  unfold try_finally. destruct (body w) as [r w']. rewrite cleanup_returns. reflexivity.
Qed.

(** A cache lookup of the pipeline hands back a value. *)
Lemma on_cache_get env ph now ct key params (cm : CacheManager S) w :
  exists v cm',
    on_cache env ph (get now ct key params) cm w =
    (Ok v, {| w_task := w_task w;
              w_cancel_event := w_cancel_event w || cancel_requested env ph;
              w_cache_manager := Some cm'; w_log := w_log w |}).
Proof.
  destruct w as [task cancelled other log]. unfold on_cache.
  destruct (get_returns now ct key params cm) as (v & cm' & -> & _). eauto.
Qed.

Lemma on_cache_store env ph now ct key data params ttl (cm : CacheManager S) w :
  exists b cm',
    on_cache env ph (store now ct key data params ttl) cm w =
    (Ok b, {| w_task := w_task w;
              w_cancel_event := w_cancel_event w || cancel_requested env ph;
              w_cache_manager := Some cm'; w_log := w_log w |}).
Proof.
  destruct w as [task cancelled other log]. unfold on_cache.
  destruct (store_returns now ct key data params ttl cm) as (b & cm' & -> & _). eauto.
Qed.

End RunFacts.

(** The closed forms as they are used in a run. *)
Lemma run_download_callbacks {S : Type} fracs (w : Batch.World S) :
  for_each fracs Batch.download_progress_callback w =
  (Ok tt,
   {| Batch.w_task :=
        Task.set_progress
          (Task.progress (Notions.after_fractions Task.set_download_progress fracs (Batch.w_task w)))
          (Task.set_download_progress
             (List.last fracs (Task.download_progress (Batch.w_task w))) (Batch.w_task w));
      Batch.w_cancel_event := Batch.w_cancel_event w;
      Batch.w_cache_manager := Batch.w_cache_manager w;
      Batch.w_log := Batch.w_log w ++
        map (fun p => Batch.EvReport (Notions.snap Task.set_download_progress (Batch.w_task w) p))
            fracs |}).
Proof. rewrite download_callbacks, <- after_download_fractions. reflexivity. Qed.

Lemma run_conversion_callbacks {S : Type} fracs (w : Batch.World S) :
  for_each fracs Batch.conversion_progress_callback w =
  (Ok tt,
   {| Batch.w_task :=
        Task.set_progress
          (Task.progress (Notions.after_fractions Task.set_conversion_progress fracs (Batch.w_task w)))
          (Task.set_conversion_progress
             (List.last fracs (Task.conversion_progress (Batch.w_task w))) (Batch.w_task w));
      Batch.w_cancel_event := Batch.w_cancel_event w;
      Batch.w_cache_manager := Batch.w_cache_manager w;
      Batch.w_log := Batch.w_log w ++
        map (fun p => Batch.EvReport (Notions.snap Task.set_conversion_progress (Batch.w_task w) p))
            fracs |}).
Proof. rewrite conversion_callbacks, <- after_conversion_fractions. reflexivity. Qed.

(** The symbolic run of a pipeline.  The goal has the form
    [let '(r, w') := run in holds _]; the term on which the run waits is
    found, and it is replaced by a closed form (a loop, the cleanup, a
    cache call) or split into its cases (an answer of the environment, an
    argument). *)
Ltac waiting_on t :=
  lazymatch t with
  | match ?x with _ => _ end => waiting_on x
  | (match ?x with _ => _ end) _ => waiting_on x
  | _ => t
  end.

Ltac run_simpl := cbn -[Batch.cleanup Batch.on_cache Cache.get Cache.store Notions.holds Notions.snap].

Ltac run_step :=
  lazymatch goal with
  | |- ?run =>
      let s := waiting_on run in
      lazymatch s with
      | Notions.holds _ => fail
      | for_each _ Batch.download_progress_callback _ => rewrite run_download_callbacks
      | for_each _ Batch.conversion_progress_callback _ => rewrite run_conversion_callbacks
      | Batch.cleanup _ _ => rewrite cleanup_returns
      | Batch.on_cache ?e ?ph (Cache.get ?n ?ct ?k ?p) ?cm ?w =>
          let H := fresh "Hget" in
          destruct (on_cache_get e ph n ct k p cm w) as (? & ? & H); rewrite H; clear H
      | Batch.on_cache ?e ?ph (Cache.store ?n ?ct ?k ?d ?p ?ttl) ?cm ?w =>
          let H := fresh "Hstore" in
          destruct (on_cache_store e ph n ct k d p ttl cm w) as (? & ? & H); rewrite H; clear H
      | _ => destruct s
      end
  end.

Ltac run_pipeline :=
  unfold Batch._process_url, try_finally, try_except, Batch.pipeline, Batch.handler,
    Notions.start_world, Batch.begin_call, Batch.end_call, Batch.append_temp_file,
    Batch.cancel_is_set, Batch._report_progress, Batch.with_task, Batch.log_event,
    Batch.elapse, bind, ret, raise, gets, modify;
  run_simpl; repeat (run_step; run_simpl); unfold Notions.holds.

(** From the property of the run in its marked form to the run itself. *)
Lemma run_property {S : Type} (P : Outcome Batch.UrlResult -> Batch.World S -> Prop) run :
  (let '(r, w') := run in Notions.holds (P r w')) ->
  forall r w', run = (r, w') -> P r w'.
Proof. intros H r w' ->. exact H. Qed.

(* ===================================================================== *)
(** * Properties of one pipeline run *)
(* ===================================================================== *)

(** Case analysis on a hypothesis that an event occurs in a record that
    is written out. *)
Ltac in_log :=
  repeat match goal with
  | H : In _ (_ ++ _) |- _ => apply in_app_or in H; destruct H as [H|H]
  | H : In _ (_ :: _) |- _ => destruct H as [H|H]
  | H : In _ [] |- _ => destruct H
  | H : In _ (map _ _) |- _ => apply in_map_iff in H; destruct H as (? & H & _)
  | H : In _ (if ?b then _ else _) |- _ => destruct b
  | H : _ \/ _ |- _ => destruct H as [H|H]
  | H : False |- _ => destruct H
  | H : @eq Batch.Event _ _ |- _ => first [discriminate H | injection H as H; subst]
  end.

(** An event that stands in a record that is written out. *)
Ltac log_search :=
  lazymatch goal with
  | |- _ = _ => reflexivity
  | |- _ \/ _ => first [left; log_search | right; log_search]
  | |- In _ (_ :: _) => first [left; reflexivity | right; log_search]
  | |- In _ (_ ++ _) => apply in_or_app; first [left; log_search | right; log_search]
  end.
Ltac log_has := cbn [Batch.w_log]; log_search.

(** Both outcomes of a test that is part of a value. *)
Ltac both_outcomes :=
  repeat match goal with
  | |- context [if ?b then _ else _] => destruct b
  end.

Section ScanFacts.
Import Task Batch Notions.

Lemma calls_after_observed_reports b (f : Q -> TaskProgress) l rest :
  calls_after_observed b (map (fun p => EvReport (f p)) l ++ rest) = calls_after_observed b rest.
Proof. induction l as [|p l IH]; [reflexivity | exact IH]. Qed.

Lemma observed_set_reports (f : Q -> TaskProgress) l rest :
  observed_set (map (fun p => EvReport (f p)) l ++ rest) = observed_set rest.
Proof. induction l as [|p l IH]; [reflexivity | exact IH]. Qed.

Lemma calls_after_observed_removals b env paths rest :
  calls_after_observed b (removal_events env paths ++ rest) = calls_after_observed b rest.
Proof.
  induction paths as [|p l IH]; [reflexivity|].
  unfold removal_events. cbn [flat_map]. rewrite <- app_assoc.
  destruct (negb (String.eqb p "") && path_exists env p); exact IH.
Qed.

Lemma calls_after_observed_true l : calls_after_observed true l = false -> forall c, ~ In (EvCall c) l.
Proof.
  induction l as [|e l IH]; intros H c Hin; [destruct Hin|].
  destruct Hin as [->|Hin]; [discriminate H|].
  destruct e as [ | cp [] | | | | | | ]; cbn in H; try (exact (IH H c Hin)).
  discriminate H.
Qed.

Lemma calls_after_observed_cut_any pre cp post : forall b,
  calls_after_observed b (pre ++ EvCheck cp true :: post) = false ->
  cp <> InHandler ->
  calls_after_observed true post = false.
Proof.
  induction pre as [|e pre IH]; intros b H Hcp.
  - cbn in H. destruct cp; [| |contradiction]; cbn in H; rewrite orb_true_r in H; exact H.
  - cbn [app] in H. destruct e as [ | cp' [] | | | | | | ]; cbn in H; try exact (IH _ H Hcp).
    apply orb_false_iff in H as [_ H]. exact (IH _ H Hcp).
Qed.

(** What the scan says about a cut of the record at a checkpoint where
    the event was seen set. *)
Lemma calls_after_observed_cut pre cp post :
  calls_after_observed false (pre ++ EvCheck cp true :: post) = false ->
  cp <> InHandler ->
  forall c, ~ In (EvCall c) post.
Proof.
  intros H Hcp. apply calls_after_observed_true.
  exact (calls_after_observed_cut_any pre cp post false H Hcp).
Qed.

Lemma observed_set_cut pre cp post :
  cp <> InHandler -> observed_set (pre ++ EvCheck cp true :: post) = true.
Proof.
  intros Hcp. induction pre as [|e pre IH].
  - cbn. destruct cp; [reflexivity | reflexivity | contradiction].
  - cbn [app]. destruct e as [ | cp' [] | | | | | | ]; cbn; rewrite ?IH, ?orb_true_r; reflexivity.
Qed.

End ScanFacts.

(** The scans over a record that is written out. *)
Ltac scan_log :=
  cbn [Batch.w_log Batch.w_task]; rewrite <- ?app_assoc;
  repeat (cbn [app Notions.calls_after_observed Notions.observed_set Notions.is_handler negb orb];
          rewrite ?calls_after_observed_reports, ?observed_set_reports).

Section RunTheorems.
Import Task Batch Notions.
Context {S : Type} {storage : Storage S}.

(** When a collaborator raised inside the [try] block, the handler turns
    the exception into the state of the job. *)
Lemma failure_becomes_state env url model tl od fmts flag (cm : option (CacheManager S)) :
  let '(r, w') := _process_url env url model tl od fmts (start_world url flag cm) in
  holds (forall coll text, In (EvRaised coll text) (w_log w') -> ~ In EvCacheHit (w_log w') ->
         (exists res, r = Ok res)
         /\ error (w_task w') = Some text
         /\ status (w_task w') = (if w_cancel_event w' then CANCELLED else FAILED)).
Proof.
  run_pipeline.
  all: intros coll text Hin Hhit.
  all: in_log.
  all: try (exfalso; apply Hhit; log_has).
  all: repeat split; eauto.
Qed.

(** Every run ends in a terminal state with an empty list of temporary
    files; the files it registered were handed to the cleanup; an
    exception that leaves the run is the export error of the cache-hit
    path. *)
Lemma run_ends_clean env url model tl od fmts flag (cm : option (CacheManager S)) :
  let '(r, w') := _process_url env url model tl od fmts (start_world url flag cm) in
  holds (terminal (status (w_task w')) = true
         /\ temp_files (w_task w') = []
         /\ (forall path, In (EvTempFile path) (w_log w') ->
             exists paths, In (EvCleanup paths) (w_log w') /\ In path paths)
         /\ (forall e, r = Raise e -> In (EvRaised Export e) (w_log w') /\ In EvCacheHit (w_log w'))).
Proof.
  run_pipeline.
  all: cbn [w_log w_task]; split; [both_outcomes; reflexivity|]; split; [reflexivity|]; split.
  all: try (intros e He; first [discriminate He | injection He as <-; split; log_has]).
  all: intros path Hin; in_log.
  all: eexists; split; [log_has | cbn; tauto].
Qed.

(** After the cancel event has been seen set at the start or at the entry
    of a stage, no collaborator is called and the job ends Cancelled. *)
Lemma observed_cancel_stops env url model tl od fmts flag (cm : option (CacheManager S)) :
  let '(r, w') := _process_url env url model tl od fmts (start_world url flag cm) in
  holds (calls_after_observed false (w_log w') = false
         /\ (observed_set (w_log w') = true -> status (w_task w') = CANCELLED)).
Proof.
  run_pipeline.
  all: scan_log.
  all: both_outcomes; cbn.
  all: try (split; [reflexivity | intros Hobs; first [reflexivity | discriminate Hobs]]).
Qed.

Lemma cleanup_empties env (w : World S) : temp_files (w_task (cleaned env w)) = [].
Proof.
  unfold cleaned. destruct (temp_files (w_task w)) as [|f fs] eqn:Hf; [exact Hf|].
  cbn. destruct (w_task w); reflexivity.
Qed.

(** C3.  If in the pipeline run of a job the cancel event is seen set at
    the check before the start or at the check on entry of a stage, then
    no collaborator call begins after that check (collaborator calls that
    began before it have returned or raised), and the job ends in the
    state Cancelled, not Failed. *)
Theorem no_stage_after_observed_cancel env url model tl od fmts flag
        (cm : option (CacheManager S)) r w' :
  _process_url env url model tl od fmts (start_world url flag cm) = (r, w') ->
  forall pre cp post,
    w_log w' = pre ++ EvCheck cp true :: post ->
    cp <> InHandler ->
    (forall c, ~ In (EvCall c) post)
    /\ status (w_task w') = CANCELLED
    /\ status (w_task w') <> FAILED.
Proof.
  intros Hrun pre cp post Hlog Hcp.
  pose proof (run_property _ _ (observed_cancel_stops env url model tl od fmts flag cm) r w' Hrun)
    as [Hcalls Hstatus].
  rewrite Hlog in Hcalls, Hstatus.
  assert (Hc : status (w_task w') = CANCELLED) by (apply Hstatus, observed_set_cut, Hcp).
  split; [exact (calls_after_observed_cut pre cp post Hcalls Hcp)|].
  split; [exact Hc | rewrite Hc; discriminate].
Qed.

(** C9.  Whatever path the pipeline run of a job takes, when it is over
    the job is in a terminal state and its list of temporary files is
    empty; every file the run put on the list was handed to
    [cleanup_temp_files]; the cleanup returns even when [os.remove]
    raises, so no exception of the cleanup reaches the caller: the only
    exception that leaves a run is one raised by the export. *)
Theorem temp_files_are_released env url model tl od fmts flag
        (cm : option (CacheManager S)) r w' :
  _process_url env url model tl od fmts (start_world url flag cm) = (r, w') ->
  terminal (status (w_task w')) = true
  /\ temp_files (w_task w') = []
  /\ (forall path, In (EvTempFile path) (w_log w') ->
      exists paths, In (EvCleanup paths) (w_log w') /\ In path paths)
  /\ (forall w : World S, exists w1, cleanup env w = (Ok tt, w1) /\ temp_files (w_task w1) = [])
  /\ (forall e, r = Raise e -> In (EvRaised Export e) (w_log w')).
Proof.
  intros Hrun.
  pose proof (run_property _ _ (run_ends_clean env url model tl od fmts flag cm) r w' Hrun)
    as (Hterm & Hfiles & Hcleanup & Hraise).
  repeat split; try assumption.
  - intros w. exists (cleaned env w). split; [apply cleanup_returns | apply cleanup_empties].
  - intros e He. apply (Hraise e He).
Qed.

End RunTheorems.

(** C3 on a run during whose download [cancel()] arrives: the download
    finishes, the check on entry of the conversion sees the event, no
    collaborator is called any more and the job is Cancelled. *)
Lemma no_stage_after_observed_cancel_witness :
  let log := Batch.w_log (snd Scenario.cancelled_run) in
  (log = firstn 8 log ++ Batch.EvCheck (Batch.Entering Batch.Convert) true :: skipn 9 log
   /\ Batch.Entering Batch.Convert <> Batch.InHandler)
  /\ In (Batch.EvCall Batch.Download) (firstn 8 log)
  /\ (forall c, ~ In (Batch.EvCall c) (skipn 9 log))
  /\ Task.status (Batch.w_task (snd Scenario.cancelled_run)) = Task.CANCELLED.
Proof.
  cbv zeta.
  assert (Hlog : Batch.w_log (snd Scenario.cancelled_run)
                 = firstn 8 (Batch.w_log (snd Scenario.cancelled_run))
                   ++ Batch.EvCheck (Batch.Entering Batch.Convert) true
                   :: skipn 9 (Batch.w_log (snd Scenario.cancelled_run)))
    by (vm_compute; reflexivity).
  assert (Hcp : Batch.Entering Batch.Convert <> Batch.InHandler) by discriminate.
  destruct (no_stage_after_observed_cancel
              Scenario.cancelled_env Scenario.video "small" None None None false None
              (fst Scenario.cancelled_run) (snd Scenario.cancelled_run)
              (surjective_pairing Scenario.cancelled_run)
              (firstn 8 (Batch.w_log (snd Scenario.cancelled_run)))
              (Batch.Entering Batch.Convert)
              (skipn 9 (Batch.w_log (snd Scenario.cancelled_run)))
              Hlog Hcp) as (Hcalls & Hstatus & _).
  split; [split; assumption|]. split; [|split; assumption].
  vm_compute. tauto.
Defined.

(** C9 on a run whose transcription raises and whose temporary files
    cannot be removed: the job is Failed, both files were handed to the
    cleanup, the list is empty and the run returns. *)
Lemma temp_files_are_released_witness :
  Scenario.failing_run = (fst Scenario.failing_run, snd Scenario.failing_run)
  /\ Task.status (Batch.w_task (snd Scenario.failing_run)) = Task.FAILED
  /\ Task.temp_files (Batch.w_task (snd Scenario.failing_run)) = []
  /\ In (Batch.EvTempFile "/tmp/tmp1.wav") (Batch.w_log (snd Scenario.failing_run))
  /\ (exists paths, In (Batch.EvCleanup paths) (Batch.w_log (snd Scenario.failing_run))
                    /\ In "/tmp/tmp1.wav" paths)
  /\ exists res, fst Scenario.failing_run = Ok res.
Proof.
  assert (Hrun : Scenario.failing_run = (fst Scenario.failing_run, snd Scenario.failing_run))
    by apply surjective_pairing.
  destruct (temp_files_are_released
              Scenario.failing_env Scenario.video "small" None None None false None
              (fst Scenario.failing_run) (snd Scenario.failing_run) Hrun)
    as (_ & Hfiles & Hcleanup & _ & _).
  assert (Hin : In (Batch.EvTempFile "/tmp/tmp1.wav") (Batch.w_log (snd Scenario.failing_run)))
    by (vm_compute; tauto).
  split; [exact Hrun|]. split; [vm_compute; reflexivity|]. split; [exact Hfiles|].
  split; [exact Hin|]. split; [exact (Hcleanup _ Hin)|].
  eexists. vm_compute. reflexivity.
Defined.
(* ===================================================================== *)
(** * The overall progress *)
(* ===================================================================== *)

Section WeightTable.
Import Task Batch Notions.

Lemma band_start_table :
  (band_start Download == 0 /\ band_start Convert == 0.2 /\ band_start Transcribe == 0.3
   /\ band_start Translate == 0.7 /\ band_start Export == 0.9)%Q.
Proof. vm_compute. intuition discriminate. Qed.

(** The weights add up to the whole. *)
Lemma weights_sum : (fold_right Qplus 0 (map weight stages) == 1)%Q.
Proof. reflexivity. Qed.

(** [update_progress] in a stage: the start of the band plus the share
    of the band. *)
Lemma update_progress_band t c :
  stage_of (status t) = Some c ->
  (progress (update_progress t) == band_start c + stage_fraction c t * weight c)%Q.
Proof.
  destruct band_start_table as (H1 & H2 & H3 & H4 & H5).
  destruct t as [? st ? ? ? ? ? ? ? ? ? ? ?].
  destruct st; cbn -[band_start]; intros H; try discriminate H.
  all: injection H as <-; cbn -[band_start].
  - rewrite H1. lra.
  - rewrite H2. lra.
  - rewrite H3. lra.
  - rewrite H4. lra.
  - rewrite H5. lra.
Qed.

(** The value the download callbacks leave is on the table. *)
Lemma download_value_on_table fracs : forall t,
  status t = DOWNLOADING ->
  (progress t == download_progress t * 0.2)%Q ->
  (progress (after_fractions set_download_progress fracs t)
   == band_start Download + List.last fracs (download_progress t) * 0.2)%Q.
Proof.
  induction fracs as [|p fr IH]; intros t Hst Hpr.
  - cbn -[band_start]. rewrite Hpr. destruct band_start_table as (-> & _). lra.
  - change (after_fractions set_download_progress (p :: fr) t)
      with (after_fractions set_download_progress fr (snap set_download_progress t p)).
    rewrite last_cons_default.
    destruct t as [? st ? ? ? ? ? ? ? ? ? ? ?]. cbn in Hst. subst st.
    rewrite IH; [reflexivity | reflexivity |]. cbn. reflexivity.
Qed.

End WeightTable.

(** A report that is written out is on the table. *)
Ltac table_leaf :=
  first
    [ left; rewrite ?(proj1 band_start_table),
                    ?(proj1 (proj2 band_start_table)),
                    ?(proj1 (proj2 (proj2 band_start_table))),
                    ?(proj1 (proj2 (proj2 (proj2 band_start_table)))),
                    ?(proj2 (proj2 (proj2 (proj2 band_start_table)))); lra
    | right; split; [reflexivity|];
      split; [apply download_value_on_table; reflexivity | reflexivity] ].

Section ProgressTheorems.
Import Task Batch Notions.
Context {S : Type} {storage : Storage S}.

(** Every report of a run is on the table, whichever optional stages
    were requested; a stage that was not requested sends no report. *)
Lemma reports_on_table env url model tl od fmts flag (cm : option (CacheManager S)) :
  let '(r, w') := _process_url env url model tl od fmts (start_world url flag cm) in
  holds (forall t, In (EvReport t) (w_log w') ->
         on_table t
         /\ (status t = TRANSLATING -> truthy_opt tl = true)
         /\ (status t = EXPORTING -> truthy_list fmts && truthy_opt od = true)
         /\ (status t = COMPLETED -> progress t == 1)%Q).
Proof.
  run_pipeline.
  all: intros t Hin; in_log.
  all: unfold on_table; cbn -[band_start after_fractions].
  all: both_outcomes; cbn -[band_start after_fractions].
  all: repeat split; try discriminate; try reflexivity; try tauto.
  all: table_leaf.
Qed.

(** C8.  [update_progress] computes the overall progress of a job in a
    stage as the sum of the weights of the stages before it (download
    0.2, conversion 0.1, transcription 0.4, translation 0.2, export 0.1)
    plus the fraction of the stage times its weight.  In a pipeline run
    the bands stay where the table puts them whichever optional stages
    are requested: a report in the state Exporting shows 0.9 plus a tenth
    of the export fraction and a report in the state Completed shows 1,
    with or without translation; a stage that is not requested sends no
    report, so its band is passed at once. *)
Theorem progress_follows_weight_table env url model tl od fmts flag
        (cm : option (CacheManager S)) r w' :
  _process_url env url model tl od fmts (start_world url flag cm) = (r, w') ->
  (forall t c, stage_of (status t) = Some c ->
     progress (update_progress t) == band_start c + stage_fraction c t * weight c)%Q
  /\ (band_start Download == 0 /\ band_start Convert == 0.2 /\ band_start Transcribe == 0.3
      /\ band_start Translate == 0.7 /\ band_start Export == 0.9)%Q
  /\ (forall t, In (EvReport t) (w_log w') -> on_table t)
  /\ (forall t, In (EvReport t) (w_log w') -> status t = EXPORTING ->
        progress t == 0.9 + export_progress t * 0.1)%Q
  /\ (forall t, In (EvReport t) (w_log w') -> status t = COMPLETED -> progress t == 1)%Q
  /\ (truthy_opt tl = false -> forall t, In (EvReport t) (w_log w') -> status t <> TRANSLATING)
  /\ (truthy_list fmts && truthy_opt od = false ->
      forall t, In (EvReport t) (w_log w') -> status t <> EXPORTING).
Proof.
  intros Hrun.
  pose proof (run_property _ _ (reports_on_table env url model tl od fmts flag cm) r w' Hrun)
    as Hreports.
  split; [exact update_progress_band|]. split; [exact band_start_table|].
  split; [intros t Hin; apply (Hreports t Hin)|].
  split.
  { intros t Hin Hst. destruct (Hreports t Hin) as (Htable & _).
    unfold on_table in Htable. rewrite Hst in Htable. cbn -[band_start] in Htable.
    destruct Htable as [Htable | (Hc & _)]; [|discriminate Hc].
    rewrite Htable. destruct band_start_table as (_ & _ & _ & _ & ->). reflexivity. }
  split; [intros t Hin; apply (Hreports t Hin)|].
  split.
  - intros Htl t Hin Hst. destruct (Hreports t Hin) as (_ & Htr & _).
    rewrite (Htr Hst) in Htl. discriminate Htl.
  - intros Hex t Hin Hst. destruct (Hreports t Hin) as (_ & _ & Hexp & _).
    rewrite (Hexp Hst) in Hex. discriminate Hex.
Qed.

End ProgressTheorems.

(** C8 on a run without translation whose result is exported: the
    reports go from the band of the transcription straight to the band of
    the export. *)
Lemma progress_follows_weight_table_witness :
  Scenario.untranslated_run = (fst Scenario.untranslated_run, snd Scenario.untranslated_run)
  /\ (forall t, In (Batch.EvReport t) (Batch.w_log (snd Scenario.untranslated_run)) ->
      Task.status t <> Task.TRANSLATING)
  /\ (forall t, In (Batch.EvReport t) (Batch.w_log (snd Scenario.untranslated_run)) ->
      Task.status t = Task.EXPORTING -> Task.progress t == 0.9 + Task.export_progress t * 0.1)%Q
  /\ Notions.progress_values (Batch.w_log (snd Scenario.untranslated_run))
     = [0.0; 0.5 * 0.2; 1.0 * 0.2; 1.0 * 0.2; 0.2 + 1.0 * 0.1; 0.3 + 0.0 * 0.4;
        0.9 + 0.0 * 0.1; 0.9 + 1.0 * 0.1; 1.0]%Q.
Proof.
  assert (Hrun : Scenario.untranslated_run
                 = (fst Scenario.untranslated_run, snd Scenario.untranslated_run))
    by apply surjective_pairing.
  destruct (progress_follows_weight_table
              Scenario.smooth Scenario.video "small" None (Some "/out") (Some ["srt"]) false None
              (fst Scenario.untranslated_run) (snd Scenario.untranslated_run) Hrun)
    as (_ & _ & _ & Hexport & _ & Hskip & _).
  split; [exact Hrun|]. split; [exact (Hskip eq_refl)|]. split; [exact Hexport|].
  vm_compute. reflexivity.
Defined.
(* ===================================================================== *)
(** * The overall progress does not go down *)
(* ===================================================================== *)

Section ChainFacts.
Import Task Batch Notions.

Lemma chain_lower lo lo' l hi : (lo' <= lo)%Q -> chain lo l hi -> chain lo' l hi.
Proof.
  destruct l as [|x r]; cbn; intros Hlo H.
  - lra.
  - split; [lra | tauto].
Qed.

Lemma chain_bounds lo l hi : chain lo l hi -> (lo <= hi)%Q.
Proof.
  revert lo. induction l as [|x r IH]; cbn; intros lo H; [exact H|].
  destruct H as [H1 H2]. apply IH in H2. lra.
Qed.







Lemma progress_after_download fracs : forall t,
  status t = DOWNLOADING ->
  progress (after_fractions set_download_progress fracs t)
  = List.last (map (fun p => p * 0.2)%Q fracs) (progress t).
Proof.
  induction fracs as [|p fr IH]; intros t Hst; [reflexivity|].
  change (after_fractions set_download_progress (p :: fr) t)
    with (after_fractions set_download_progress fr (snap set_download_progress t p)).
  cbn [map]. rewrite last_cons_default.
  destruct t as [? st ? ? ? ? ? ? ? ? ? ? ?]. cbn in Hst. subst st.
  rewrite IH; reflexivity.
Qed.

Lemma progress_after_conversion fracs : forall t,
  status t = CONVERTING ->
  progress (after_fractions set_conversion_progress fracs t)
  = List.last (map (fun p => 0.2 + p * 0.1)%Q fracs) (progress t).
Proof.
  induction fracs as [|p fr IH]; intros t Hst; [reflexivity|].
  change (after_fractions set_conversion_progress (p :: fr) t)
    with (after_fractions set_conversion_progress fr (snap set_conversion_progress t p)).
  cbn [map]. rewrite last_cons_default.
  destruct t as [? st ? ? ? ? ? ? ? ? ? ? ?]. cbn in Hst. subst st.
  rewrite IH; reflexivity.
Qed.



End ChainFacts.


Section MonotoneTheorems.
Import Task Batch Notions.
Context {S : Type} {storage : Storage S}.



End MonotoneTheorems.


(* ===================================================================== *)
(** * The cache in front of the pipeline *)
(* ===================================================================== *)

Section HitFacts.
Import Task Batch Notions.
Context {S : Type} {storage : Storage S}.

(** When the lookup answers with a result, the job goes from Pending to
    Completed with that result; download, conversion, transcription and
    translation are not called, and the export is called when formats and
    an output directory are given. *)
Lemma cache_hit_short_circuits env url model tl od fmts flag (cm : option (CacheManager S)) :
  let '(r, w') := _process_url env url model tl od fmts (start_world url flag cm) in
  holds (In EvCacheHit (w_log w') ->
         (forall c, In (EvCall c) (w_log w') -> c = Export)
         /\ (truthy_list fmts && truthy_opt od = true -> In (EvCall Export) (w_log w'))
         /\ (forall t, In (EvReport t) (w_log w') -> status t = COMPLETED)
         /\ status (w_task w') = COMPLETED
         /\ forall res, r = Ok res -> r_cached res = true /\ r_result res = result (w_task w')).
Proof.
  run_pipeline.
  all: cbn [w_log w_task]; intros Hhit; try (exfalso; in_log; fail).
  all: clear Hhit; split; [intros coll Hin; in_log; reflexivity|].
  all: split; [intros Hex;
              first [discriminate Hex | rewrite andb_false_r in Hex; discriminate Hex | log_search]|].
  all: split; [intros t Hin; in_log; reflexivity|].
  all: split; [reflexivity|].
  all: intros res Hres; first [discriminate Hres | injection Hres as <-; split; reflexivity].
Qed.

(** Without a target language the lookup and the store of one pipeline
    run do not name the same entry: the store adds [target_lang=None] to
    the text that is hashed. *)
Lemma lookup_text_differs_from_store_text url model :
  key_string url (Some [("model", PStr model)])
  <> key_string url (Some [("model", PStr model); ("target_lang", PNone)]).
Proof.
  intros H. apply (f_equal String.length) in H.
  cbn in H. change (String.leb "model" "target_lang") with true in H. cbn in H.
  rewrite !length_append in H. cbn in H. lia.
Qed.

(** The two readings of a record of events. *)
Lemma calls_spec log c : In c (calls log) <-> In (EvCall c) log.
Proof.
  unfold calls. rewrite in_flat_map. split.
  - intros (e & He & Hc). destruct e; cbn in Hc; try contradiction.
    destruct Hc as [-> | []]. exact He.
  - intros H. exists (EvCall c). split; [exact H | left; reflexivity].
Qed.

Lemma cache_hit_spec log : cache_hit log = true <-> In EvCacheHit log.
Proof.
  unfold cache_hit. rewrite existsb_exists. split.
  - intros (e & He & Hc). destruct e; try discriminate Hc. exact He.
  - intros H. exists EvCacheHit. split; [exact H | reflexivity].
Qed.

End HitFacts.

(** C2 fails when no target language is given.  A first run of
    ["https://youtu.be/x"] with the model ["small"] and no target language
    completes and stores its result under the hash of
    ["https://youtu.be/x|model=small|target_lang=None"]; the second run
    with the same arguments looks under the hash of
    ["https://youtu.be/x|model=small"], finds nothing, and downloads,
    converts and transcribes again.  With the target language ["fr"] the
    second run hits the cache, calls only the export and returns the
    cached result. *)
Theorem absent_target_lang_misses_cache :
  let first := Scenario.first_run None in
  let second := Scenario.second_run None in
  let stored_under :=
    Cache._get_cache_key Scenario.video (Some [("model", PStr "small"); ("target_lang", PNone)]) in
  let looked_under := Cache._get_cache_key Scenario.video (Some [("model", PStr "small")]) in
  (Task.status (Batch.w_task (snd first)) = Task.COMPLETED
   /\ option_map (fun cm => map_to_list (Cache.caches cm Cache.TRANSCRIPTION))
                 (Batch.w_cache_manager (snd first))
      = Some [(stored_under,
               {| Cache.e_value := PyDict [("text", PyStr "hello")];
                  Cache.e_expire_time := Some (198 + Cache.DEFAULT_TTL)%Z |})]
   /\ stored_under = "89d9de3cc55055a766562522cff15404"
   /\ looked_under = "de475f5d4db1d2c2549c2d8f1b1e38a9")
  /\ (Notions.cache_hit (Batch.w_log (snd second)) = false
      /\ Notions.calls (Batch.w_log (snd second))
         = [Batch.Download; Batch.Convert; Batch.Transcribe; Batch.Export]
      /\ fst second
         = Ok {| Batch.r_status := "completed"; Batch.r_url := Scenario.video;
                 Batch.r_result := Some (PyDict [("text", PyStr "hello")]);
                 Batch.r_error := None; Batch.r_cached := false |}
      /\ option_map (fun cm => (Cache.hits (Cache.stats cm Cache.TRANSCRIPTION),
                                Cache.misses (Cache.stats cm Cache.TRANSCRIPTION)))
                    (Batch.w_cache_manager (snd second)) = Some (0, 2)%nat)
  /\ (Notions.cache_hit (Batch.w_log (snd (Scenario.second_run (Some "fr")))) = true
      /\ Notions.calls (Batch.w_log (snd (Scenario.second_run (Some "fr")))) = [Batch.Export]
      /\ fst (Scenario.second_run (Some "fr"))
         = Ok {| Batch.r_status := "completed"; Batch.r_url := Scenario.video;
                 Batch.r_result := Task.result (Batch.w_task (snd (Scenario.first_run (Some "fr"))));
                 Batch.r_error := None; Batch.r_cached := true |}).
Proof.
  cbv zeta. split; [|split].
  - split; [vm_compute; reflexivity|]. split; [vm_compute; reflexivity|].
    split; vm_compute; reflexivity.
  - split; [vm_compute; reflexivity|]. split; [vm_compute; reflexivity|].
    split; vm_compute; reflexivity.
  - split; [vm_compute; reflexivity|]. split; vm_compute; reflexivity.
Qed.
(* ===================================================================== *)
(** * A batch: isolation of the jobs, final status, completion callback *)
(* ===================================================================== *)

Section JobFacts.
Import Task Batch Notions.
Context {S : Type} {storage : Storage S}.

(** The cancel event is never cleared by a run, and a run in which no
    collaborator raises and no cancel request arrives completes the job. *)
Lemma run_without_failure env url model tl od fmts flag (cm : option (CacheManager S)) :
  let '(r, w') := _process_url env url model tl od fmts (start_world url flag cm) in
  holds ((flag = true -> w_cancel_event w' = true)
         /\ ((forall coll text, ~ In (EvRaised coll text) (w_log w')) ->
             w_cancel_event w' = false -> status (w_task w') = COMPLETED)).
Proof.
  run_pipeline.
  all: cbn [w_log w_task w_cancel_event]; split; [intros Hflag; first [reflexivity | discriminate Hflag]|].
  all: intros Hquiet Hflag; try reflexivity; try discriminate Hflag.
  all: try (exfalso; eapply Hquiet; log_search).
Qed.
End JobFacts.

Section BatchFacts.
Import Task Batch Notions.
Context {S : Type} {storage : Storage S}.
Variable urlparse : string -> Outcome ParseResult.
Implicit Types self : BatchProcessor S.

(** A worker runs the pipeline on the fresh task of its job. *)
Lemma run_future_fresh env u a self :
  dict_get u (tasks self) = Some (Task.new u) ->
  run_future env u a self =
  let rw := _process_url env u (a_model a) (a_target_lang a) (a_output_dir a) (a_formats a)
                         (start_world u (cancel_event self) (cache_manager self)) in
  (Ok (fst rw),
   set_job_log (job_log self ++ [(u, w_log (snd rw))])
     (set_cache_manager (w_cache_manager (snd rw))
        (set_cancel_event (w_cancel_event (snd rw))
           (set_tasks (dict_set u (w_task (snd rw)) (tasks self)) self)))).
Proof.
  intros Hget. unfold run_future. rewrite Hget. unfold start_world. cbv zeta.
  destruct (_process_url env u (a_model a) (a_target_lang a) (a_output_dir a) (a_formats a) _)
    as [r w]. reflexivity.
Qed.

(** What the run of one job leaves of that job and of the processor. *)
Lemma job_is_contained benv u a self :
  dict_get u (tasks self) = Some (Task.new u) ->
  let self1 := snd (run_future (job_env benv u) u a self) in
  (exists r, fst (run_future (job_env benv u) u a self) = Ok r)
  /\ contained benv u a self1
  /\ (cancel_event self = true -> cancel_event self1 = true)
  /\ (exists t, tasks self1 = dict_set u t (tasks self))
  /\ (exists log, job_log self1 = job_log self ++ [(u, log)])
  /\ on_completion_callback self1 = on_completion_callback self
  /\ completions self1 = completions self.
Proof.
  intros Hget. rewrite (run_future_fresh _ _ _ _ Hget). cbv zeta.
  remember (_process_url (job_env benv u) u (a_model a) (a_target_lang a) (a_output_dir a)
              (a_formats a) (start_world u (cancel_event self) (cache_manager self))) as rw eqn:Hrw.
  destruct rw as [r w]. symmetry in Hrw. cbn [fst snd].
  pose proof (run_property _ _ (run_ends_clean _ _ _ _ _ _ _ _) r w Hrw) as (Hterm & _).
  pose proof (run_property _ _ (failure_becomes_state _ _ _ _ _ _ _ _) r w Hrw) as Hfail.
  pose proof (run_property _ _ (run_without_failure _ _ _ _ _ _ _ _) r w Hrw) as (Hmono & Hquiet).
  cbn. split; [eexists; reflexivity|]. split; [|repeat split; try (eexists; reflexivity); exact Hmono].
  exists (w_task w), (w_log w). cbn.
  split; [apply dict_get_set_same|].
  split; [apply in_or_app; right; left; reflexivity|].
  split; [exists (cancel_event self), (cache_manager self); rewrite Hrw; split; reflexivity|].
  split; [exact Hterm|].
  split; [|exact Hquiet].
  intros coll text Hin Hhit. destruct (Hfail coll text Hin Hhit) as (_ & Herr & Hst).
  split; [exact Herr|]. rewrite Hst. destruct (w_cancel_event w); split; auto; discriminate.
Qed.

(** What is known of a job stays true while the batch goes on. *)
Lemma contained_later benv u a self1 self2 :
  contained benv u a self1 ->
  dict_get u (tasks self2) = dict_get u (tasks self1) ->
  (forall e, In e (job_log self1) -> In e (job_log self2)) ->
  (cancel_event self1 = true -> cancel_event self2 = true) ->
  contained benv u a self2.
Proof.
  intros (t & log & Hget & Hlog & Hrun & Hterm & Hfail & Hquiet) Htasks Hlogs Hflag.
  assert (Hback : cancel_event self2 = false -> cancel_event self1 = false).
  { intros H2. destruct (cancel_event self1); [rewrite Hflag in H2 by reflexivity; discriminate H2|].
    reflexivity. }
  exists t, log. split; [rewrite Htasks; exact Hget|]. split; [apply Hlogs, Hlog|].
  split; [exact Hrun|]. split; [exact Hterm|]. split.
  - intros coll text Hin Hhit. destruct (Hfail coll text Hin Hhit) as (He & Hst & Hnc).
    split; [exact He|]. split; [exact Hst|]. intros H2. apply Hnc, Hback, H2.
  - intros Hq H2. apply Hquiet; [exact Hq | apply Hback, H2].
Qed.

(** The monitor waits for the jobs one after another. *)
Lemma jobs_loop benv fs : forall self,
  List.NoDup (map fst fs) ->
  (forall u a, In (u, a) fs -> dict_get u (tasks self) = Some (Task.new u)) ->
  exists self',
    for_each fs (fun '(url, args) =>
      let* settled := run_future (job_env benv url) url args in ret tt) self = (Ok tt, self')
    /\ dict_keys (tasks self') = dict_keys (tasks self)
    /\ (forall u, ~ In u (map fst fs) -> dict_get u (tasks self') = dict_get u (tasks self))
    /\ (forall u a, In (u, a) fs -> contained benv u a self')
    /\ (cancel_event self = true -> cancel_event self' = true)
    /\ (forall e, In e (job_log self) -> In e (job_log self'))
    /\ on_completion_callback self' = on_completion_callback self
    /\ completions self' = completions self.
Proof.
  induction fs as [|[u a] fs IH]; intros self Hnd Hfresh.
  - exists self. cbn. unfold ret. repeat split; auto. intros u a [].
  - assert (Hget : dict_get u (tasks self) = Some (Task.new u)) by (apply (Hfresh u a); left; reflexivity).
    destruct (job_is_contained benv u a self Hget) as ((r & Hr) & Hjob & Hflag & (t & Htasks) & (log & Hlog) & Hcb & Hcs).
    set (self1 := snd (run_future (job_env benv u) u a self)) in *.
    apply NoDup_cons_iff in Hnd as [Hu Hnd]. cbn [map fst] in Hu.
    destruct (IH self1 Hnd) as (self' & Hloop & Hkeys & Hframe & Hjobs & Hflag' & Hlogs & Hcb' & Hcs').
    { intros u' a' Hin. rewrite Htasks. rewrite dict_get_set_other.
      - apply (Hfresh u' a'). right. exact Hin.
      - intros ->. apply Hu. apply (in_map fst) in Hin. exact Hin. }
    exists self'. split.
    { cbn [for_each]. unfold bind at 1. unfold bind at 1.
      rewrite (surjective_pairing (run_future (job_env benv u) u a self)). rewrite Hr.
      fold self1. cbn [ret]. unfold ret at 1. exact Hloop. }
    split.
    { rewrite Hkeys, Htasks. apply dict_keys_set_old. apply (dict_get_In _ _ _ Hget). }
    split.
    { intros u' Hnin. cbn [map fst In] in Hnin. rewrite Hframe by tauto. rewrite Htasks.
      apply dict_get_set_other. intros ->. tauto. }
    split.
    { intros u' a' [Heq | Hin].
      - injection Heq as <- <-. apply (contained_later benv u a self1 self'); auto.
      - apply (Hjobs u' a' Hin). }
    split; [auto|]. split.
    { intros e He. apply Hlogs. rewrite Hlog. apply in_or_app. left. exact He. }
    split; [rewrite Hcb'; exact Hcb | rewrite Hcs'; exact Hcs].
Qed.

(** The monitor: every job is run, the batch status is derived and the
    completion callback, when there is one, is called once. *)
Lemma monitor_progress_runs benv self :
  List.NoDup (dict_keys (futures self)) ->
  (forall u a, In (u, a) (futures self) -> dict_get u (tasks self) = Some (Task.new u)) ->
  exists self',
    monitor_progress benv self = (Ok tt, self')
    /\ dict_keys (tasks self') = dict_keys (tasks self)
    /\ (forall u a, In (u, a) (futures self) -> contained benv u a self')
    /\ batch_status self' = final_status (cancel_event self') (tasks self')
    /\ completions self'
       = completions self ++ (if on_completion_callback self then [completion_of self'] else []).
Proof.
  intros Hnd Hfresh.
  destruct (jobs_loop benv (futures self) self Hnd Hfresh)
    as (self1 & Hloop & Hkeys & _ & Hjobs & Hflag & Hlogs & Hcb & Hcs).
  unfold monitor_progress. unfold bind at 1. cbn [gets]. unfold bind at 1. rewrite Hloop.
  unfold bind at 1. cbn [modify]. unfold bind at 1. cbn [modify]. unfold bind at 1. cbn [gets].
  cbn [on_completion_callback set_batch_status set_cancel_event]. rewrite Hcb.
  destruct (on_completion_callback self).
  - eexists. split; [reflexivity|]. cbn. split; [exact Hkeys|]. split.
    + intros u a Hin. apply (contained_later benv u a self1); auto.
      cbn. intros H. rewrite H. reflexivity.
    + split; [reflexivity|]. rewrite Hcs. reflexivity.
  - eexists. split; [reflexivity|]. cbn. split; [exact Hkeys|]. split.
    + intros u a Hin. apply (contained_later benv u a self1); auto.
      cbn. intros H. rewrite H. reflexivity.
    + split; [reflexivity|]. rewrite Hcs, app_nil_r. reflexivity.
Qed.

Lemma dict_get_of_key {V : Type} k (d : list (string * V)) :
  In k (dict_keys d) -> exists v, dict_get k d = Some v.
Proof.
  induction d as [|[k' v'] d IH]; cbn; [contradiction|].
  intros [-> | Hin].
  - rewrite String.eqb_refl. eexists. reflexivity.
  - destruct (String.eqb k k'); [eexists; reflexivity | exact (IH Hin)].
Qed.


End BatchFacts.


(** The batch of the witness, evaluated. *)
Lemma one_download_fails_evaluated :
  let self' := snd (Batch.run_batch Urllib.urlparse Scenario.one_download_fails
                      Scenario.three_urls "small" None None None Scenario.listening_processor) in
  map (fun '(u, t) => (u, Task.status t, Task.error t)) (Batch.tasks self')
  = [("https://youtu.be/a", Task.FAILED, Some "HTTP Error 403: Forbidden");
     ("https://www.youtube.com/watch?v=c", Task.COMPLETED, None)]
  /\ Batch.batch_status self' = Batch.BATCH_FAILED
  /\ map (fun c => (Batch.c_status c, Batch.c_completed c, Batch.c_failed c, Batch.c_total c))
         (Batch.completions self')
     = [(Batch.BATCH_FAILED, 1%nat, 1%nat, 2%nat)].
Proof. cbv zeta. repeat split; vm_compute; reflexivity. Qed.


(* ===================================================================== *)
(** * Test vectors *)
(* ===================================================================== *)

Example md5_empty : MD5.hexdigest "" = "d41d8cd98f00b204e9800998ecf8427e".
Proof. vm_compute. reflexivity. Qed.

Example md5_abc : MD5.hexdigest "abc" = "900150983cd24fb0d6963f7d28e17f72".
Proof. vm_compute. reflexivity. Qed.

Example md5_two_blocks :
  MD5.hexdigest "aaaaaaaaaaaaaaaaaaaaaaaaaaaaaaaaaaaaaaaaaaaaaaaaaaaaaaaaaaaaaaaaaaaaaa"
  = "0f5c6c4e740bfcc08c3c26ccb2673d46".
Proof. vm_compute. reflexivity. Qed.

(** At the end of Exporting the sum is exactly one, as in the rationals. *)
Example binary64_exporting_done :
  PrimFloat.eqb (Binary64.stage_value Task.EXPORTING 1) 1 = true.
Proof. vm_compute. reflexivity. Qed.

(** The conversion band ends one unit in the last place above the start
    of the transcription band: rounding is outside the rational model. *)
Example binary64_converting_done :
  PrimFloat.ltb (Binary64.stage_value Task.TRANSCRIBING 0) (Binary64.stage_value Task.CONVERTING 1)
  = true.
Proof. vm_compute. reflexivity. Qed.
(* ===================================================================== *)
(** * More about one pipeline run *)
(* ===================================================================== *)

Section TracedFacts.
Import Task Batch Notions Observations.
Context {S : Type} {storage : Storage S}.

(** The cache calls of a run, with the manager they leave written out. *)
Lemma on_cache_get_traced env ph now ct key params (cm : CacheManager S) w :
  on_cache env ph (get now ct key params) cm w =
  (Ok (answer PyNone (get now ct key params cm)),
   {| w_task := w_task w;
      w_cancel_event := w_cancel_event w || cancel_requested env ph;
      w_cache_manager := Some (snd (get now ct key params cm)); w_log := w_log w |}).
Proof.
  destruct w as [task cancelled other log]. unfold on_cache, answer.
  destruct (get_returns now ct key params cm) as (v & cm' & -> & _). reflexivity.
Qed.

Lemma on_cache_store_traced env ph now ct key data params ttl (cm : CacheManager S) w :
  on_cache env ph (store now ct key data params ttl) cm w =
  (Ok (answer false (store now ct key data params ttl cm)),
   {| w_task := w_task w;
      w_cancel_event := w_cancel_event w || cancel_requested env ph;
      w_cache_manager := Some (snd (store now ct key data params ttl cm)); w_log := w_log w |}).
Proof.
  destruct w as [task cancelled other log]. unfold on_cache, answer.
  destruct (store_returns now ct key data params ttl cm) as (b & cm' & -> & _). reflexivity.
Qed.

Lemma hit_free_reports (f : Q -> TaskProgress) l :
  existsb (fun e => match e with EvCacheHit => true | _ => false end)
          (map (fun p => EvReport (f p)) l) = false.
Proof. induction l as [|p l IH]; [reflexivity | exact IH]. Qed.

End TracedFacts.

(** The symbolic run that keeps the cache calls in sight. *)
Ltac traced_simpl :=
  cbn -[Batch.cleanup Batch.on_cache Cache.get Cache.store Notions.holds Notions.snap
        Observations.answer].

Ltac traced_step :=
  lazymatch goal with
  | |- ?run =>
      let s := waiting_on run in
      lazymatch s with
      | Notions.holds _ => fail
      | for_each _ Batch.download_progress_callback _ => rewrite run_download_callbacks
      | for_each _ Batch.conversion_progress_callback _ => rewrite run_conversion_callbacks
      | Batch.cleanup _ _ => rewrite cleanup_returns
      | Batch.on_cache _ _ (Cache.get _ _ _ _) _ _ => rewrite on_cache_get_traced
      | Batch.on_cache _ _ (Cache.store _ _ _ _ _ _) _ _ => rewrite on_cache_store_traced
      | _ => destruct s eqn:?
      end
  end.

Ltac run_traced :=
  unfold Batch._process_url, try_finally, try_except, Batch.pipeline, Batch.handler,
    Notions.start_world, Batch.begin_call, Batch.end_call, Batch.append_temp_file,
    Batch.cancel_is_set, Batch._report_progress, Batch.with_task, Batch.log_event,
    Batch.elapse, bind, ret, raise, gets, modify;
  traced_simpl; repeat (traced_step; traced_simpl); unfold Notions.holds.

Section RunExtras.
Import Task Batch Notions Observations.
Context {S : Type} {storage : Storage S}.

(** What a run leaves in the task, and what it answers. *)
Lemma run_bookkeeping env url model tl od fmts flag (cm : option (CacheManager S)) :
  let '(r, w') := _process_url env url model tl od fmts (start_world url flag cm) in
  holds ((forall res, r = Ok res ->
            r_status res = status_text (status (w_task w'))
            /\ r_url res = url
            /\ r_result res = result (w_task w')
            /\ r_error res = error (w_task w'))
         /\ (result (w_task w') <> None <-> status (w_task w') = COMPLETED)
         /\ (status (w_task w') = FAILED -> exists e, error (w_task w') = Some e)
         /\ (status (w_task w') = COMPLETED -> error (w_task w') = None)
         /\ Task.url (w_task w') = url
         /\ start_time (w_task w') = Some (time_time env MStart)).
Proof.
  run_pipeline.
  all: cbn [w_task]; both_outcomes; cbn.
  all: split; [intros res Hres; first [discriminate Hres | injection Hres as <-; repeat split]|].
  all: split; [split; intros H;
               first [reflexivity | discriminate H | (exfalso; apply H; reflexivity) | congruence]|].
  all: split; [intros H; first [discriminate H | eexists; reflexivity]|].
  all: split; [intros H; first [discriminate H | reflexivity]|].
  all: split; reflexivity.
Qed.

(** The cache calls of a run that starts with the cancel event clear: one
    lookup; a store after it exactly when the pipeline completed with a
    result that is not empty. *)
Lemma cache_traffic env url model tl od fmts (c : CacheManager S) :
  let '(r, w') := _process_url env url model tl od fmts (start_world url false (Some c)) in
  holds (let looked :=
           get (time_time env MCacheGet) TRANSCRIPTION url
               (Some ([("model", PStr model)] ++
                      match tl with
                      | Some lang => if truthy_opt tl then [("target_lang", PStr lang)] else []
                      | None => []
                      end)) c in
         (cache_hit (w_log w') = truthy (answer PyNone looked))
         /\ (cache_hit (w_log w') = true ->
             w_cache_manager w' = Some (snd looked)
             /\ result (w_task w') = Some (answer PyNone looked))
         /\ (cache_hit (w_log w') = false -> status (w_task w') <> COMPLETED ->
             w_cache_manager w' = Some (snd looked))
         /\ (cache_hit (w_log w') = false -> status (w_task w') = COMPLETED ->
             exists d, result (w_task w') = Some (PyDict d)
               /\ w_cache_manager w'
                  = Some (if truthy (PyDict d)
                          then snd (store (time_time env MCacheStore) TRANSCRIPTION url (PyDict d)
                                          (Some [("model", PStr model);
                                                 ("target_lang",
                                                  match tl with
                                                  | Some lang => PStr lang
                                                  | None => PNone
                                                  end)])
                                          None (snd looked))
                          else snd looked))).
Proof.
  run_traced.
  all: cbn [w_log w_task w_cache_manager]; unfold cache_hit;
    rewrite ?existsb_app, ?hit_free_reports; traced_simpl; both_outcomes; traced_simpl.
  all: split; [congruence|].
  all: split; [intros H; first [discriminate H | split; reflexivity]|].
  all: split; [intros H1 H2;
               first [discriminate H1 | reflexivity | (exfalso; apply H2; reflexivity)]|].
  all: intros H1 H2; first [discriminate H1 | discriminate H2 | idtac].
  all: eexists; split; reflexivity.
Qed.

(** A run that finds the cancel event set, or has no cache manager,
    makes no cache call. *)
Lemma no_cache_traffic env url model tl od fmts flag (cm : option (CacheManager S)) :
  let '(r, w') := _process_url env url model tl od fmts (start_world url flag cm) in
  holds ((flag = true \/ cm = None) ->
         w_cache_manager w' = cm /\ cache_hit (w_log w') = false
         /\ forall res, r = Ok res -> r_cached res = false).
Proof.
  run_pipeline.
  all: cbn [w_log w_task w_cache_manager]; unfold cache_hit;
    rewrite ?existsb_app, ?hit_free_reports; cbn; both_outcomes; cbn.
  all: intros [H|H]; try discriminate H.
  all: repeat split; intros res Hres; first [discriminate Hres | injection Hres as <-; reflexivity].
Qed.

(** A job that starts when the cancel event is set. *)
Lemma early_cancel env url model tl od fmts (cm : option (CacheManager S)) :
  let '(r, w') := _process_url env url model tl od fmts (start_world url true cm) in
  holds (calls (w_log w') = []
         /\ w_log w' = [EvCheck AtStart true; EvReport (w_task w')]
         /\ status (w_task w') = CANCELLED
         /\ error (w_task w') = None
         /\ end_time (w_task w') = None
         /\ progress (w_task w') = 0.0%Q
         /\ r = Ok {| r_status := "cancelled"; r_url := url; r_result := None;
                      r_error := None; r_cached := false |}).
Proof. run_pipeline. repeat split. Qed.

End RunExtras.
Section RunExtraTheorems.
Import Task Batch Notions Observations.
Context {S : Type} {storage : Storage S}.

(** X1.  The dictionary [_process_url] returns says what the task object
    says: its ["status"] is the name of the terminal state of the task,
    and its ["url"], ["result"] and ["error"] are the fields of the
    task. *)
Theorem returned_dict_agrees_with_task env url model tl od fmts flag
        (cm : option (CacheManager S)) res w' :
  _process_url env url model tl od fmts (start_world url flag cm) = (Ok res, w') ->
  r_status res = status_text (status (w_task w'))
  /\ terminal (status (w_task w')) = true
  /\ r_url res = Task.url (w_task w')
  /\ r_result res = result (w_task w')
  /\ r_error res = error (w_task w').
Proof.
  intros Hrun.
  pose proof (run_property _ _ (run_bookkeeping env url model tl od fmts flag cm) _ _ Hrun)
    as (Hres & _ & _ & _ & Hurl & _).
  pose proof (run_property _ _ (run_ends_clean env url model tl od fmts flag cm) _ _ Hrun)
    as (Hterm & _).
  destruct (Hres res eq_refl) as (H1 & H2 & H3 & H4).
  rewrite Hurl. auto.
Qed.

(** X2.  After a pipeline run the task has a result exactly when it is
    Completed; a Failed task has an error text and a Completed task has
    none; the start time is set on every path. *)
Theorem result_iff_completed env url model tl od fmts flag
        (cm : option (CacheManager S)) r w' :
  _process_url env url model tl od fmts (start_world url flag cm) = (r, w') ->
  (result (w_task w') <> None <-> status (w_task w') = COMPLETED)
  /\ (status (w_task w') = FAILED -> exists e, error (w_task w') = Some e)
  /\ (status (w_task w') = COMPLETED -> error (w_task w') = None)
  /\ start_time (w_task w') = Some (time_time env MStart).
Proof.
  intros Hrun.
  pose proof (run_property _ _ (run_bookkeeping env url model tl od fmts flag cm) _ _ Hrun)
    as (_ & H1 & H2 & H3 & _ & H4).
  auto.
Qed.

(** X3.  The cache calls of a pipeline run that starts with the cancel event
    clear.  There is exactly one lookup, with the model and, when it is
    not empty, the target language as parameters.  The run takes the
    cached result exactly when the lookup answers a truthy value.
    Otherwise the cache is written once, after the last stage, when the
    job completed with a result that is not empty, under the parameters
    model and target language (also when there is none); a run that ends
    Failed or Cancelled leaves the cache as the lookup left it. *)
Theorem cache_traffic_of_a_run env url model tl od fmts (c : CacheManager S) r w' :
  _process_url env url model tl od fmts (start_world url false (Some c)) = (r, w') ->
  let looked :=
    get (time_time env MCacheGet) TRANSCRIPTION url
        (Some ([("model", PStr model)] ++
               match tl with
               | Some lang => if truthy_opt tl then [("target_lang", PStr lang)] else []
               | None => []
               end)) c in
  (cache_hit (w_log w') = truthy (answer PyNone looked))
  /\ (cache_hit (w_log w') = true ->
      w_cache_manager w' = Some (snd looked)
      /\ result (w_task w') = Some (answer PyNone looked))
  /\ (cache_hit (w_log w') = false -> status (w_task w') <> COMPLETED ->
      w_cache_manager w' = Some (snd looked))
  /\ (cache_hit (w_log w') = false -> status (w_task w') = COMPLETED ->
      exists d, result (w_task w') = Some (PyDict d)
        /\ w_cache_manager w'
           = Some (if truthy (PyDict d)
                   then snd (store (time_time env MCacheStore) TRANSCRIPTION url (PyDict d)
                                   (Some [("model", PStr model);
                                          ("target_lang",
                                           match tl with
                                           | Some lang => PStr lang
                                           | None => PNone
                                           end)])
                                   None (snd looked))
                   else snd looked)).
Proof.
  intros Hrun.
  exact (run_property _ _ (cache_traffic env url model tl od fmts c) _ _ Hrun).
Qed.


End RunExtraTheorems.

(** The run whose transcription raises answers ["failed"] with the text
    of the exception, as its task says. *)
Lemma returned_dict_agrees_with_task_witness :
  exists res,
    Scenario.failing_run = (Ok res, snd Scenario.failing_run)
    /\ Batch.r_status res = "failed"
    /\ Task.status (Batch.w_task (snd Scenario.failing_run)) = Task.FAILED
    /\ Batch.r_error res = Task.error (Batch.w_task (snd Scenario.failing_run)).
Proof.
  eexists.
  assert (Hrun : Scenario.failing_run
                 = (Ok {| Batch.r_status := "failed"; Batch.r_url := Scenario.video;
                          Batch.r_result := None;
                          Batch.r_error := Some "CUDA out of memory";
                          Batch.r_cached := false |}, snd Scenario.failing_run))
    by (vm_compute; reflexivity).
  split; [exact Hrun|].
  destruct (returned_dict_agrees_with_task
              Scenario.failing_env Scenario.video "small" None None None false None _ _ Hrun)
    as (_ & _ & _ & _ & Herr).
  split; [reflexivity|]. split; [vm_compute; reflexivity | exact Herr].
Defined.

Lemma result_iff_completed_witness :
  Scenario.failing_run = (fst Scenario.failing_run, snd Scenario.failing_run)
  /\ (Task.result (Batch.w_task (snd Scenario.failing_run)) <> None
      <-> Task.status (Batch.w_task (snd Scenario.failing_run)) = Task.COMPLETED)
  /\ Task.result (Batch.w_task (snd Scenario.failing_run)) = None.
Proof.
  assert (Hrun : Scenario.failing_run = (fst Scenario.failing_run, snd Scenario.failing_run))
    by apply surjective_pairing.
  split; [exact Hrun|].
  split; [|vm_compute; reflexivity].
  exact (proj1 (result_iff_completed
                  Scenario.failing_env Scenario.video "small" None None None false None _ _ Hrun)).
Defined.

(** The first run of a video on an empty cache: the lookup misses and
    the result is stored. *)
Lemma cache_traffic_of_a_run_witness :
  Scenario.first_run (Some "fr")
  = (fst (Scenario.first_run (Some "fr")), snd (Scenario.first_run (Some "fr")))
  /\ Notions.cache_hit (Batch.w_log (snd (Scenario.first_run (Some "fr")))) = false
  /\ option_map (fun cm => Cache.stores (Cache.stats cm Cache.TRANSCRIPTION))
                (Batch.w_cache_manager (snd (Scenario.first_run (Some "fr")))) = Some 1%nat.
Proof.
  assert (Hrun : Scenario.first_run (Some "fr")
                 = (fst (Scenario.first_run (Some "fr")), snd (Scenario.first_run (Some "fr"))))
    by apply surjective_pairing.
  split; [exact Hrun|].
  destruct (cache_traffic_of_a_run Scenario.smooth Scenario.video "small" (Some "fr")
              (Some "/out") (Some ["srt"]) Scenario.fresh_manager _ _ Hrun) as (Hhit & _).
  split; [rewrite Hhit; vm_compute; reflexivity | vm_compute; reflexivity].
Defined.

(* ===================================================================== *)
(** * More about the composite key *)
(* ===================================================================== *)

Section OrderFacts.

Lemma ascii_compare_spec (a b : ascii) :
  CompareSpec (N_of_ascii a = N_of_ascii b) (N_of_ascii a < N_of_ascii b)%N
              (N_of_ascii b < N_of_ascii a)%N (Ascii.compare a b).
Proof. unfold Ascii.compare. apply N.compare_spec. Qed.

Lemma string_leb_trans (a b c : string) :
  String.leb a b = true -> String.leb b c = true -> String.leb a c = true.
Proof.
  unfold String.leb. revert b c.
  induction a as [|x a IH]; intros [|y b] [|z c]; cbn; try congruence.
  specialize (IH b c).
  destruct (ascii_compare_spec x y), (ascii_compare_spec y z), (ascii_compare_spec x z);
    try congruence; try lia; auto.
Qed.

Lemma string_leb_strict (a b : string) :
  a <> b -> String.leb a b = true -> String.leb b a = false.
Proof.
  intros Hne Hab. destruct (String.leb b a) eqn:Hba; [|reflexivity].
  contradiction Hne. apply String.leb_antisym; assumption.
Qed.

End OrderFacts.

Section KeyOrder.
Import Cache Notions.

(** Two insertions into a list commute when the keys differ. *)
Lemma insert_sorted_ordered a b l :
  String.leb (fst a) (fst b) = true -> String.leb (fst b) (fst a) = false ->
  insert_sorted a (insert_sorted b l) = insert_sorted b (insert_sorted a l).
Proof.
  intros Hab Hba. induction l as [|c r IH]; cbn.
  - rewrite Hab, Hba. reflexivity.
  - destruct (String.leb (fst b) (fst c)) eqn:Hbc.
    + rewrite (string_leb_trans _ _ _ Hab Hbc). cbn. rewrite Hab, Hba. cbn. rewrite Hbc. reflexivity.
    + destruct (String.leb (fst a) (fst c)) eqn:Hac; cbn.
      * rewrite Hac, Hba. cbn. rewrite Hbc. reflexivity.
      * rewrite Hac, Hbc. rewrite IH. reflexivity.
Qed.

Lemma insert_sorted_commute a b l :
  fst a <> fst b ->
  insert_sorted a (insert_sorted b l) = insert_sorted b (insert_sorted a l).
Proof.
  intros Hne. destruct (String.leb_total (fst a) (fst b)) as [H|H].
  - apply insert_sorted_ordered; [exact H | apply string_leb_strict; assumption].
  - symmetry. apply insert_sorted_ordered; [exact H | apply string_leb_strict; auto].
Qed.

Lemma sorted_of_permutation (p1 p2 : Params) :
  List.NoDup (map fst p1) -> Permutation p1 p2 -> sorted p1 = sorted p2.
Proof.
  intros Hnd Hperm. induction Hperm as [|x l l' Hp IH|x y l|l l' l'' H1 IH1 H2 IH2].
  - reflexivity.
  - change (sorted (x :: l)) with (insert_sorted x (sorted l)).
    change (sorted (x :: l')) with (insert_sorted x (sorted l')).
    rewrite IH; [reflexivity|]. cbn in Hnd. apply NoDup_cons_iff in Hnd. tauto.
  - change (sorted (y :: x :: l)) with (insert_sorted y (insert_sorted x (sorted l))).
    change (sorted (x :: y :: l)) with (insert_sorted x (insert_sorted y (sorted l))).
    apply insert_sorted_commute.
    cbn in Hnd. apply NoDup_cons_iff in Hnd as [Hy _]. cbn in Hy. intros Heq. apply Hy. left. 
    symmetry. exact Heq.
  - rewrite IH1 by exact Hnd. apply IH2.
    apply (Permutation_NoDup (l := map fst l)); [apply Permutation_map, H1 | exact Hnd].
Qed.

(** X5.  The composite key does not depend on the order in which the
    parameter dictionary was filled, and an empty dictionary counts as no
    dictionary. *)
Theorem composite_key_ignores_order data_key (p1 p2 : Params) :
  List.NoDup (map fst p1) -> Permutation p1 p2 ->
  key_string data_key (Some p1) = key_string data_key (Some p2)
  /\ _get_cache_key data_key (Some p1) = _get_cache_key data_key (Some p2)
  /\ _get_cache_key data_key (Some []) = _get_cache_key data_key None.
Proof.
  intros Hnd Hperm.
  assert (Hk : key_string data_key (Some p1) = key_string data_key (Some p2)).
  { unfold key_string. destruct p1 as [|x1 l1], p2 as [|x2 l2].
    - reflexivity.
    - apply Permutation_nil in Hperm. discriminate.
    - symmetry in Hperm. apply Permutation_nil in Hperm. discriminate.
    - rewrite (sorted_of_permutation _ _ Hnd Hperm). reflexivity. }
  split; [exact Hk|]. split; [|reflexivity].
  unfold _get_cache_key. rewrite Hk. reflexivity.
Qed.

End KeyOrder.

Lemma composite_key_ignores_order_witness :
  let p1 := [("target_lang", PStr "fr"); ("model", PStr "small")] in
  let p2 := [("model", PStr "small"); ("target_lang", PStr "fr")] in
  (List.NoDup (map fst p1) /\ Permutation p1 p2)
  /\ Cache._get_cache_key "https://youtu.be/x" (Some p1)
     = Cache._get_cache_key "https://youtu.be/x" (Some p2).
Proof.
  cbv zeta.
  assert (Hnd : List.NoDup (map fst [("target_lang", PStr "fr"); ("model", PStr "small")])).
  { cbn. constructor; [intros [H|[]]; discriminate H|]. constructor; [intros []|constructor]. }
  assert (Hp : Permutation [("target_lang", PStr "fr"); ("model", PStr "small")]
                           [("model", PStr "small"); ("target_lang", PStr "fr")])
    by apply perm_swap.
  split; [split; assumption|].
  apply (composite_key_ignores_order "https://youtu.be/x" _ _ Hnd Hp).
Defined.
Section DigestFacts.
Import MD5 Observations.

Lemma le_bytes_length n x : length (le_bytes n x) = n.
Proof. unfold le_bytes. rewrite length_map, length_seq. reflexivity. Qed.

Lemma le_bytes_range n x b : In b (le_bytes n x) -> (0 <= b < 256)%Z.
Proof.
  unfold le_bytes. rewrite in_map_iff. intros (i & <- & _).
  change 0xff%Z with (Z.ones 8). rewrite Z.land_ones by lia.
  apply Z.mod_pos_bound. reflexivity.
Qed.

Lemma digest_bytes msg :
  length (digest msg) = 16%nat /\ forall b, In b (digest msg) -> (0 <= b < 256)%Z.
Proof.
  unfold digest.
  destruct (fold_left compress _ init) as [[[a b] c] d].
  split.
  - rewrite !length_app, !le_bytes_length. reflexivity.
  - intros x Hx. rewrite !in_app_iff in Hx.
    destruct Hx as [H|[H|[H|H]]]; eapply le_bytes_range; exact H.
Qed.

Lemma hex_char_digit n : (0 <= n < 16)%Z -> hex_digit (hex_char n) = true.
Proof.
  intros H. rewrite <- (Z2Nat.id n) by lia.
  assert (Hlt : (Z.to_nat n < 16)%nat) by lia.
  revert Hlt. generalize (Z.to_nat n). intros m Hlt.
  do 16 (destruct m as [|m]; [reflexivity|]). lia.
Qed.

Lemma hex_of_bytes_format bs :
  (forall b, In b bs -> (0 <= b < 256)%Z) ->
  String.length (hex_of_bytes bs) = (2 * length bs)%nat
  /\ Urllib.all_chars hex_digit (hex_of_bytes bs) = true.
Proof.
  induction bs as [|b bs IH]; intros Hr; [split; reflexivity|].
  destruct IH as [IHl IHc]; [intros x Hx; apply Hr; right; exact Hx|].
  assert (Hb : (0 <= b < 256)%Z) by (apply Hr; left; reflexivity).
  cbn [hex_of_bytes fold_right String.length Urllib.all_chars].
  fold (hex_of_bytes bs). rewrite IHl, IHc. split; [cbn; lia|].
  rewrite !hex_char_digit; [reflexivity | |].
  - change 0xf%Z with (Z.ones 4). rewrite Z.land_ones by lia. apply Z.mod_pos_bound. reflexivity.
  - rewrite Z.shiftr_div_pow2 by lia. change (2 ^ 4)%Z with 16%Z.
    split; [apply Z.div_pos; lia | apply Z.div_lt_upper_bound; lia].
Qed.

(** X6.  The composite key is always a text of 32 characters, each a digit or
    a letter from [a] to [f], whatever the primary key and the
    parameters are. *)
Theorem composite_key_is_32_hex_digits data_key params :
  String.length (Cache._get_cache_key data_key params) = 32%nat
  /\ Urllib.all_chars hex_digit (Cache._get_cache_key data_key params) = true.
Proof.
  unfold Cache._get_cache_key, hexdigest.
  destruct (digest_bytes (bytes_of_string (Cache.key_string data_key params))) as [Hl Hr].
  destruct (hex_of_bytes_format _ Hr) as [H1 H2].
  rewrite H1, Hl. split; [reflexivity | exact H2].
Qed.

End DigestFacts.
(* ===================================================================== *)
(** * The counters of the cache manager *)
(* ===================================================================== *)



Section CounterFacts.
Import Cache Observations.
Context {S : Type} {storage : Storage S}.



End CounterFacts.
Section CounterTheorems.
Import Cache Observations.
Context {S : Type} {storage : Storage S}.



(** X9.  On a cache that cannot be written, a lookup outside the metadata
    namespace never answers a value: when the item is found, the update
    of the access counter raises, and [get] answers [None]. *)
Theorem unwritable_cache_never_hits now ct key params (cm : CacheManager S) :
  (forall t k v expire s, exists e s', st_set t k v expire s = (Raise e, s')) ->
  ct <> METADATA ->
  fst (get now ct key params cm) = Ok PyNone.
Proof.
  intros Hset Hct.
  unfold get, try_except, get_try, bind, modify, ret, _get_metadata, _update_metadata,
    cache_get, cache_set, bind, ret.
  generalize (_get_cache_key key params). intros k.
  destruct (st_get now k PyNone (caches cm ct)) as [[v|e] s1]; cbn; [|reflexivity].
  destruct (is_none v) eqn:Hv; cbn; [reflexivity|].
  destruct ct; try contradiction; cbn.
  all: repeat match goal with
       | |- context [st_get ?a ?b ?c ?d] => destruct (st_get a b c d) as [[?|?] ?]; cbn
       | |- context [py_succ ?v ?s] => destruct v; cbn
       | |- context [st_set ?a ?b ?c ?d ?e] =>
           let H := fresh in destruct (Hset a b c d e) as (? & ? & H); rewrite H; cbn
       end.
  all: reflexivity.
Qed.

End CounterTheorems.

(** A read-only cache directory that holds the transcription: looked up
    with the parameters it was stored under, [get] answers [None] and
    counts a hit and an error. *)
Lemma unwritable_cache_never_hits_witness :
  ((forall t k v expire (s : Setup.ReadOnly),
      exists e s', Cache.st_set t k v expire s = (Raise e, s'))
   /\ Cache.TRANSCRIPTION <> Cache.METADATA)
  /\ fst (Cache.get 10 Cache.TRANSCRIPTION Scenario.video (Some [("model", PStr "small")])
                    Setup.read_only_manager) = Ok PyNone
  /\ (let st := Cache.stats (snd (Cache.get 10 Cache.TRANSCRIPTION Scenario.video
                                            (Some [("model", PStr "small")])
                                            Setup.read_only_manager)) Cache.TRANSCRIPTION in
      (Cache.hits st, Cache.misses st, Cache.errors st) = (1, 0, 1)%nat).
Proof.
  assert (H1 : forall t k v expire (s : Setup.ReadOnly),
             exists e s', Cache.st_set t k v expire s = (Raise e, s'))
    by (intros; eexists _, _; reflexivity).
  assert (H2 : Cache.TRANSCRIPTION <> Cache.METADATA) by discriminate.
  split; [split; assumption|]. split.
  - exact (unwritable_cache_never_hits 10%Z Cache.TRANSCRIPTION Scenario.video
             (Some [("model", PStr "small")]) Setup.read_only_manager H1 H2).
  - vm_compute. reflexivity.
Defined.
(* ===================================================================== *)
(** * delete, clear, cleanup, get_count and the metadata *)
(* ===================================================================== *)

Section OpsFacts.
Import Cache CacheOps Observations.
Context {S : Type} {storage : Storage S} {ops : StorageOps S}.



End OpsFacts.
Section SweepFacts.
Import Cache CacheOps CacheNotions Observations.
Context {S : Type} {storage : Storage S} {ops : StorageOps S}.

(** The loop of [cleanup] never raises; what it answers and leaves. *)
Lemma cleanup_loop_runs now (cm : CacheManager S) :
  exists cm1,
    cleanup_loop now all_types (0, 0)%nat cm
    = (Ok ((counted_before TRANSCRIPTION cm + counted_before TRANSLATION cm
            + counted_before DOWNLOAD cm)%nat,
           (counted_removed now TRANSCRIPTION cm + counted_removed now TRANSLATION cm
            + counted_removed now DOWNLOAD cm)%nat), cm1)
    /\ default_ttl cm1 = default_ttl cm
    /\ caches cm1 METADATA = caches cm METADATA
    /\ stats cm1 METADATA = stats cm METADATA
    /\ forall ct, ct <> METADATA ->
         caches cm1 ct = swept now ct cm
         /\ stats cm1 ct = (if sweep_fails now ct cm then count_error (stats cm ct)
                            else stats cm ct).
Proof.
  unfold cleanup_loop, cleanup_one, all_types, try_except, bind, modify, ret, cache_len,
    cache_expire, counted_before, counted_removed, sweep_fails, swept.
  rewrite !bool_decide_eq_false_2 by discriminate.
  rewrite bool_decide_eq_true_2 by reflexivity. cbn.
  destruct (st_len (caches cm TRANSCRIPTION)) as [[n1|e1] s1] eqn:L1; cbn.
  all: repeat (case_decide; try congruence).
  1: destruct (st_expire now s1) as [[x1|e1] s1'] eqn:X1; cbn.
  all: repeat (case_decide; try congruence).
  all: destruct (st_len (caches cm TRANSLATION)) as [[n2|e2] s2] eqn:L2; cbn.
  all: repeat (case_decide; try congruence).
  all: try (destruct (st_expire now s2) as [[x2|e2] s2'] eqn:X2; cbn).
  all: repeat (case_decide; try congruence).
  all: destruct (st_len (caches cm DOWNLOAD)) as [[n3|e3] s3] eqn:L3; cbn.
  all: repeat (case_decide; try congruence).
  all: try (destruct (st_expire now s3) as [[x3|e3] s3'] eqn:X3; cbn).
  all: repeat (case_decide; try congruence).
  all: eexists; (split; [apply f_equal2; [apply f_equal; apply f_equal2; lia | reflexivity]|]); cbn.
  all: split; [reflexivity|]; split; [reflexivity|]; split; [reflexivity|].
  all: intros [] Hne; try contradiction; cbn; rewrite ?L1, ?L2, ?L3; cbn;
    rewrite ?X1, ?X2, ?X3; cbn; repeat (case_decide; try congruence); split; reflexivity.
Qed.

(** X12.  [cleanup] does not use its argument [max_age]: whatever is passed,
    the stores are swept with [expire()], which removes what is past its
    own expiry time.  The metadata namespace is never swept.  The three
    other namespaces are swept in turn; when [len] or [expire] raises for
    one, that namespace counts an error and the others are swept all the
    same.  The answer adds up what [len] and [expire] answered.  The
    write of [last_cleanup] is outside the [try] block: [cleanup] raises
    exactly when this write raises. *)
Theorem cleanup_ignores_max_age now max_age (cm : CacheManager S) :
  cleanup now max_age cm = cleanup now None cm
  /\ exists cm1,
       (forall ct, ct <> METADATA ->
          caches cm1 ct = swept now ct cm
          /\ stats cm1 ct = (if sweep_fails now ct cm then count_error (stats cm ct)
                             else stats cm ct))
       /\ caches cm1 METADATA = caches cm METADATA
       /\ (forall ct, ct <> METADATA -> caches (snd (cleanup now max_age cm)) ct = caches cm1 ct)
       /\ (forall ct, stats (snd (cleanup now max_age cm)) ct = stats cm1 ct)
       /\ stats cm1 METADATA = stats cm METADATA
       /\ caches (snd (cleanup now max_age cm)) METADATA
          = snd (st_set now "last_cleanup" (PyInt now) None (caches cm METADATA))
       /\ fst (cleanup now max_age cm)
          = match fst (st_set now "last_cleanup" (PyInt now) None (caches cm METADATA)) with
            | Ok _ =>
                Ok ((counted_before TRANSCRIPTION cm + counted_before TRANSLATION cm
                     + counted_before DOWNLOAD cm)%nat,
                    (counted_removed now TRANSCRIPTION cm + counted_removed now TRANSLATION cm
                     + counted_removed now DOWNLOAD cm)%nat)
            | Raise e => Raise e
            end.
Proof.
  split; [reflexivity|].
  destruct (cleanup_loop_runs now cm) as (cm1 & Hloop & _ & Hmeta & Hstats & Hother).
  exists cm1. split; [exact Hother|]. split; [exact Hmeta|].
  assert (E : cleanup now max_age cm
              = let '(r, s) := st_set now "last_cleanup" (PyInt now) None (caches cm METADATA) in
                (match r with
                 | Ok _ =>
                     Ok ((counted_before TRANSCRIPTION cm + counted_before TRANSLATION cm
                          + counted_before DOWNLOAD cm)%nat,
                         (counted_removed now TRANSCRIPTION cm
                          + counted_removed now TRANSLATION cm
                          + counted_removed now DOWNLOAD cm)%nat)
                 | Raise e => Raise e
                 end, set_cache METADATA s cm1)).
  { unfold cleanup. unfold bind at 1. cbn [gets]. unfold bind at 1. rewrite Hloop.
    unfold bind, _update_metadata, cache_set, bind, ret. rewrite Hmeta.
    destruct (st_set now "last_cleanup" (PyInt now) None (caches cm METADATA)) as [[b|e] s1];
      reflexivity. }
  rewrite E.
  destruct (st_set now "last_cleanup" (PyInt now) None (caches cm METADATA)) as [[b|e] s1]; cbn.
  all: split; [intros ct Hne; repeat (case_decide; try congruence); reflexivity|].
  all: split; [intros ct; reflexivity|].
  all: split; [exact Hstats|].
  all: split; [repeat (case_decide; try congruence); reflexivity | reflexivity].
Qed.

(** X13.  [get_count] never raises.  For a namespace it answers what [len]
    answers there, and 0 when [len] raises.  Without a namespace it adds
    up all four namespaces, the metadata included, and answers 0 as soon
    as [len] raises for one of them, whatever the others hold. *)
Theorem get_count_is_all_or_nothing (cm : CacheManager S) :
  (forall ct, fst (get_count (Some ct) cm) = Ok (counted_before ct cm))
  /\ fst (get_count None cm)
     = Ok (if forallb (fun ct => match fst (st_len (caches cm ct)) with
                                 | Ok _ => true
                                 | Raise _ => false
                                 end) all_types
           then (counted_before TRANSCRIPTION cm + counted_before TRANSLATION cm
                 + counted_before DOWNLOAD cm + counted_before METADATA cm)%nat
           else 0%nat).
Proof.
  split.
  - intros ct. unfold get_count, try_except, cache_len, counted_before.
    destruct (st_len (caches cm ct)) as [[n|e] s1]; reflexivity.
  - unfold get_count, try_except, count_loop, all_types, bind, ret, cache_len, counted_before,
      forallb.
    destruct (st_len (caches cm TRANSCRIPTION)) as [[n1|e1] s1] eqn:L1; cbn; [|reflexivity].
    repeat (case_decide; try congruence).
    destruct (st_len (caches cm TRANSLATION)) as [[n2|e2] s2] eqn:L2; cbn; [|reflexivity].
    repeat (case_decide; try congruence).
    destruct (st_len (caches cm DOWNLOAD)) as [[n3|e3] s3] eqn:L3; cbn; [|reflexivity].
    repeat (case_decide; try congruence).
    destruct (st_len (caches cm METADATA)) as [[n4|e4] s4] eqn:L4; cbn; reflexivity.
Qed.

(** X14.  The constructor does not absorb errors of the storage engine as
    [get] and [store] do: when the test for [created_at] raises, or the
    write of a metadata entry raises, [CacheManager(...)] raises.  It
    never touches the stores of the other namespaces. *)
Theorem constructor_lets_errors_through now ttl (found : CacheType -> S) :
  (forall e, fst (st_contains now "created_at" (found METADATA)) = Raise e ->
             fst (__init__ now ttl found) = Raise e)
  /\ (forall s e, st_contains now "created_at" (found METADATA) = (Ok false, s) ->
                  fst (st_set now "created_at" (PyInt now) None s) = Raise e ->
                  fst (__init__ now ttl found) = Raise e)
  /\ (forall s, st_contains now "created_at" (found METADATA) = (Ok true, s) ->
                __init__ now ttl found
                = (Ok tt, {| default_ttl := ttl;
                             caches := fun ct => if decide (ct = METADATA) then s else found ct;
                             stats := fun _ => CacheStats_init |}))
  /\ (forall ct, ct <> METADATA -> caches (snd (__init__ now ttl found)) ct = found ct).
Proof.
  unfold __init__, _init_metadata, _update_metadata, cache_contains, cache_set, bind, ret. cbn.
  destruct (st_contains now "created_at" (found METADATA)) as [[[]|e0] s0]; cbn.
  2: repeat (case_decide; try congruence).
  2: destruct (st_set now "created_at" (PyInt now) None s0) as [[b1|e1] s1] eqn:E1; cbn.
  2: repeat (case_decide; try congruence).
  2: destruct (st_set now "access_count" (PyInt 0) None s1) as [[b2|e2] s2]; cbn.
  2: repeat (case_decide; try congruence).
  2: destruct (st_set now "last_cleanup" PyNone None s2) as [[b3|e3] s3]; cbn.
  all: split; [intros e He; first [discriminate He | injection He as <-; reflexivity]|].
  all: split; [intros s e Hs He; first [discriminate Hs | injection Hs as <-];
               rewrite ?E1 in He; first [discriminate He | injection He as <-; reflexivity]|].
  all: split; [intros s Hs; first [discriminate Hs | injection Hs as <-; reflexivity]|].
  all: intros ct Hne; repeat (case_decide; try congruence); reflexivity.
Qed.

End SweepFacts.
(* ===================================================================== *)
(** * The other operations on the reference storage engine *)
(* ===================================================================== *)

Section DiskOps.
Import Cache CacheOps CacheNotions Observations.
Implicit Types (cm : CacheManager DiskCache).



(** Opening a cache directory that was initialised before changes
    nothing: [_init_metadata] writes [created_at], [access_count] and
    [last_cleanup] only when [created_at] is not there, so the access
    counter survives every later [CacheManager(...)], and initialising
    twice is the same as initialising once. *)
Lemma init_metadata_disk t cm :
  created_for_good cm ->
  fst (_init_metadata t cm) = Ok tt
  /\ (forall ct, ct <> METADATA -> caches (snd (_init_metadata t cm)) ct = caches cm ct)
  /\ (forall e, caches cm METADATA !! "created_at" = Some e ->
                caches (snd (_init_metadata t cm)) METADATA = caches cm METADATA)
  /\ (caches cm METADATA !! "created_at" = None ->
      caches (snd (_init_metadata t cm)) METADATA !! "created_at"
        = Some {| e_value := PyInt t; e_expire_time := None |}
      /\ caches (snd (_init_metadata t cm)) METADATA !! "access_count"
        = Some {| e_value := PyInt 0; e_expire_time := None |}).
Proof.
  intros H0.
  unfold _init_metadata, _update_metadata, cache_contains, cache_set, bind, ret.
  cbn [st_contains DiskCache_ops st_set DiskCache_storage].
  destruct (caches cm METADATA !! "created_at") as [e|] eqn:Hc.
  - unfold live. rewrite (H0 e Hc). cbn.
    split; [reflexivity|]. split; [intros ct Hne; case_decide; [congruence | reflexivity]|].
    split; [intros _ _; case_decide; [reflexivity | congruence] | discriminate].
  - cbn. split; [reflexivity|].
    split; [intros ct Hne; repeat (case_decide; try congruence); reflexivity|].
    split; [discriminate|]. intros _. repeat (case_decide; try congruence).
    split; rewrite ?lookup_insert_ne by discriminate; apply lookup_insert_eq.
Qed.

(** X16.  Opening the same cache directory again keeps what is there.  On the
    disk engine, when [created_at] does not expire, [_init_metadata]
    returns both times, the second call changes no namespace at all, the
    first one changes none but the metadata, and it leaves the metadata
    as they are when [created_at] was already there: the access counter
    is not reset by a later [CacheManager(...)]. *)
Theorem reopening_keeps_metadata cm t1 t2 :
  created_for_good cm ->
  let cm1 := snd (_init_metadata t1 cm) in
  let cm2 := snd (_init_metadata t2 cm1) in
  fst (_init_metadata t1 cm) = Ok tt
  /\ fst (_init_metadata t2 cm1) = Ok tt
  /\ (forall ct, caches cm2 ct = caches cm1 ct)
  /\ (forall ct, ct <> METADATA -> caches cm1 ct = caches cm ct)
  /\ (forall e, caches cm METADATA !! "created_at" = Some e ->
                caches cm1 METADATA = caches cm METADATA).
Proof.
  intros Hgood. cbv zeta.
  destruct (init_metadata_disk t1 cm Hgood) as (H1 & H2 & H3 & H4).
  set (cm1 := snd (_init_metadata t1 cm)) in *.
  assert (Hgood1 : created_for_good cm1).
  { intros e He. destruct (caches cm METADATA !! "created_at") as [e0|] eqn:Hc.
    - rewrite (H3 e0 eq_refl) in He. apply (Hgood e). exact He.
    - destruct (H4 eq_refl) as [Hc1 _]. rewrite Hc1 in He. injection He as <-. reflexivity. }
  destruct (init_metadata_disk t2 cm1 Hgood1) as (H1' & H2' & H3' & _).
  split; [exact H1|]. split; [exact H1'|]. split.
  { intros ct. destruct (decide (ct = METADATA)) as [->|Hne]; [|apply H2', Hne].
    destruct (caches cm1 METADATA !! "created_at") as [e1|] eqn:Hc1; [apply (H3' e1 eq_refl)|].
    exfalso. destruct (caches cm METADATA !! "created_at") as [e0|] eqn:Hc.
    - rewrite (H3 e0 eq_refl) in Hc1. congruence.
    - destruct (H4 eq_refl) as [Hc1' _]. congruence. }
  split; [exact H2 | exact H3].
Qed.

(** X17.  A hit outside the metadata namespace adds one to [access_count] and
    stamps [last_access] in the metadata, and changes nothing else in the
    stores; a lookup that finds nothing changes no store. *)
Theorem hits_are_counted_in_metadata cm ns key params t e n :
  ns <> METADATA ->
  caches cm ns !! _get_cache_key key params = Some e ->
  live t e = true -> e_value e <> PyNone ->
  caches cm METADATA !! "access_count"
    = Some {| e_value := PyInt n; e_expire_time := None |} ->
  let cm' := snd (get t ns key params cm) in
  fst (get t ns key params cm) = Ok (e_value e)
  /\ caches cm' METADATA !! "access_count"
     = Some {| e_value := PyInt (n + 1); e_expire_time := None |}
  /\ caches cm' METADATA !! "last_access"
     = Some {| e_value := PyInt t; e_expire_time := None |}
  /\ (forall k, k <> "access_count" -> k <> "last_access" ->
        caches cm' METADATA !! k = caches cm METADATA !! k)
  /\ (forall ct, ct <> METADATA -> caches cm' ct = caches cm ct).
Proof.
  intros Hns Hkey Hlive Hval Hac. cbv zeta.
  unfold get, try_except, get_try, bind, modify, ret, _get_metadata, _update_metadata,
    cache_get, cache_set, bind, ret.
  revert Hkey. generalize (_get_cache_key key params). intros k Hkey.
  cbn [st_get DiskCache_storage fst snd]. rewrite Hkey, Hlive.
  destruct (is_none (e_value e)) eqn:Hn; [destruct (e_value e); try discriminate Hn; congruence|].
  cbn [negb fst snd]. destruct ns; try contradiction; cbn [is_metadata negb].
  all: cbn; repeat (case_decide; try congruence); rewrite Hac; cbn.
  all: split; [reflexivity|].
  all: split; [repeat (case_decide; try congruence);
               rewrite lookup_insert_ne by discriminate; apply lookup_insert_eq|].
  all: split; [repeat (case_decide; try congruence); apply lookup_insert_eq|].
  all: split; [intros k' H1 H2; repeat (case_decide; try congruence);
               rewrite !lookup_insert_ne by congruence; reflexivity|].
  all: intros ct Hne; repeat (case_decide; try congruence); reflexivity.
Qed.

End DiskOps.



(** A directory that was initialised at time 0 is opened at 1000 and at
    2000. *)
Lemma reopening_keeps_metadata_witness :
  CacheNotions.created_for_good Scenario.fresh_manager
  /\ (forall ct,
        Cache.caches (snd (CacheOps._init_metadata 2000
                             (snd (CacheOps._init_metadata 1000 Scenario.fresh_manager)))) ct
        = Cache.caches (snd (CacheOps._init_metadata 1000 Scenario.fresh_manager)) ct).
Proof.
  assert (H1 : CacheNotions.created_for_good Scenario.fresh_manager).
  { intros e He.
    assert (E : Cache.caches Scenario.fresh_manager Cache.METADATA !! "created_at"
                = Some {| Cache.e_value := PyInt 0; Cache.e_expire_time := None |})
      by (vm_compute; reflexivity).
    rewrite E in He. injection He as <-. reflexivity. }
  split; [exact H1|].
  exact (proj1 (proj2 (proj2
           (reopening_keeps_metadata Scenario.fresh_manager 1000%Z 2000%Z H1)))).
Defined.

(** The stored transcription is looked up at time 50. *)
Lemma hits_are_counted_in_metadata_witness :
  let e := {| Cache.e_value := Setup.hello;
              Cache.e_expire_time := Some (0 + Cache.DEFAULT_TTL)%Z |} in
  (Cache.TRANSCRIPTION <> Cache.METADATA
   /\ Cache.caches Setup.stocked_manager Cache.TRANSCRIPTION
        !! Cache._get_cache_key Scenario.video Setup.small_model = Some e
   /\ Cache.live 50 e = true
   /\ Cache.e_value e <> PyNone
   /\ Cache.caches Setup.stocked_manager Cache.METADATA !! "access_count"
      = Some {| Cache.e_value := PyInt 0; Cache.e_expire_time := None |})
  /\ Cache.caches (snd (Cache.get 50 Cache.TRANSCRIPTION Scenario.video Setup.small_model
                                  Setup.stocked_manager)) Cache.METADATA !! "access_count"
     = Some {| Cache.e_value := PyInt (0 + 1); Cache.e_expire_time := None |}.
Proof.
  cbv zeta.
  assert (H1 : Cache.TRANSCRIPTION <> Cache.METADATA) by discriminate.
  assert (H2 : Cache.caches Setup.stocked_manager Cache.TRANSCRIPTION
                 !! Cache._get_cache_key Scenario.video Setup.small_model
               = Some {| Cache.e_value := Setup.hello;
                         Cache.e_expire_time := Some (0 + Cache.DEFAULT_TTL)%Z |})
    by (vm_compute; reflexivity).
  assert (H3 : Cache.live 50 {| Cache.e_value := Setup.hello;
                                Cache.e_expire_time := Some (0 + Cache.DEFAULT_TTL)%Z |} = true)
    by reflexivity.
  assert (H4 : Cache.e_value {| Cache.e_value := Setup.hello;
                                Cache.e_expire_time := Some (0 + Cache.DEFAULT_TTL)%Z |}
               <> PyNone) by discriminate.
  assert (H5 : Cache.caches Setup.stocked_manager Cache.METADATA !! "access_count"
               = Some {| Cache.e_value := PyInt 0; Cache.e_expire_time := None |})
    by (vm_compute; reflexivity).
  split; [repeat split; assumption|].
  exact (proj1 (proj2
           (hits_are_counted_in_metadata Setup.stocked_manager Cache.TRANSCRIPTION
              Scenario.video Setup.small_model 50%Z _ 0%Z H1 H2 H3 H4 H5))).
Defined.

(* ===================================================================== *)
(** * Cancel, pause and resume around a batch *)
(* ===================================================================== *)

Section ControlFacts.
Import Task Batch Notions Observations BatchOps.
Context {S : Type} {storage : Storage S}.
Variable urlparse : string -> Outcome ParseResult.
Implicit Types self : BatchProcessor S.

Lemma final_status_settled cancelled ts :
  final_status cancelled ts <> RUNNING /\ final_status cancelled ts <> PAUSED.
Proof.
  unfold final_status. destruct cancelled; [split; discriminate|].
  destruct (existsb _ _); split; discriminate.
Qed.

Lemma set_batch_status_same self : set_batch_status (batch_status self) self = self.
Proof. destruct self; reflexivity. Qed.

(** What [process_batch] leaves for the monitor when some URL is valid. *)
Lemma started_batch_is_ready urls model tl od fmts self :
  List.filter (validate_url urlparse) urls <> [] ->
  let started := snd (process_batch urlparse urls model tl od fmts self) in
  List.NoDup (dict_keys (futures started))
  /\ (forall u a, In (u, a) (futures started) ->
        dict_get u (tasks started) = Some (Task.new u))
  /\ (forall u, In u (dict_keys (tasks started)) -> exists a, In (u, a) (futures started)).
Proof.
  intros Hvalid started.
  destruct (process_batch_started urlparse urls model tl od fmts self Hvalid)
    as (_ & Hnd & _ & Hfresh & Hfk & _).
  destruct (process_batch_submits urlparse urls model tl od fmts self Hvalid) as (Hfs & _).
  fold started in Hnd, Hfresh, Hfk, Hfs.
  split; [rewrite Hfk; exact Hnd|]. split.
  - intros u a Hin. apply (in_map fst) in Hin. fold (dict_keys (futures started)) in Hin.
    rewrite Hfk in Hin. cbn [fst] in Hin. destruct (dict_get_of_key _ _ Hin) as (t & Ht).
    rewrite Ht. f_equal. apply (Hfresh u t Ht).
  - intros u Hin. eexists. rewrite Hfs.
    apply (in_map (fun u => (u, _))), Hin.
Qed.

Lemma pause_running self :
  batch_status self = RUNNING ->
  let paused := snd (pause self) in
  fst (pause self) = Ok true
  /\ batch_status paused = PAUSED
  /\ tasks paused = tasks self
  /\ futures paused = futures self
  /\ cancel paused = (Ok false, paused)
  /\ pause paused = (Ok false, paused)
  /\ resume paused = (Ok true, self).
Proof.
  intros Hst. destruct self as [cm conc ts fs st ce ex cb cs jl]. cbn in Hst. subst st.
  cbn. repeat split.
Qed.

(** X18.  [pause()] holds nothing.  After it the status is Paused, and while
    it is, [cancel()] and a second [pause()] are refused, so the jobs
    cannot be told to stop; [resume()] brings the processor back to the
    state before the pause.  The monitor of a batch that was paused right
    after its start still runs every job to a terminal state and then
    replaces the status Paused by the final status of the batch. *)
Theorem pause_does_not_hold_the_jobs benv urls model tl od fmts self :
  List.filter (validate_url urlparse) urls <> [] ->
  let started := snd (process_batch urlparse urls model tl od fmts self) in
  let paused := snd (pause started) in
  fst (pause started) = Ok true
  /\ batch_status paused = PAUSED
  /\ cancel paused = (Ok false, paused)
  /\ pause paused = (Ok false, paused)
  /\ resume paused = (Ok true, started)
  /\ exists self',
       monitor_progress benv paused = (Ok tt, self')
       /\ (forall u, In u (dict_keys (tasks started)) ->
             exists t, dict_get u (tasks self') = Some t /\ terminal (status t) = true)
       /\ batch_status self' = final_status (cancel_event self') (tasks self')
       /\ batch_status self' <> PAUSED.
Proof.
  intros Hvalid started paused.
  destruct (process_batch_started urlparse urls model tl od fmts self Hvalid)
    as (_ & _ & _ & _ & _ & Hrunning).
  destruct (started_batch_is_ready urls model tl od fmts self Hvalid) as (Hnd & Hfresh & Hall).
  fold started in Hrunning, Hnd, Hfresh, Hall.
  destruct (pause_running started Hrunning) as (Hp & Hps & Hts & Hfs & Hc & Hpp & Hr).
  fold paused in Hps, Hts, Hfs, Hc, Hpp, Hr.
  split; [exact Hp|]. split; [exact Hps|]. split; [exact Hc|]. split; [exact Hpp|].
  split; [exact Hr|].
  destruct (monitor_progress_runs urlparse benv paused) as (self' & Hmon & _ & Hjobs & Hst & _).
  { rewrite Hfs. exact Hnd. }
  { intros u a Hin. rewrite Hfs in Hin. rewrite Hts. apply (Hfresh u a Hin). }
  exists self'. split; [exact Hmon|]. split.
  - intros u Hin. destruct (Hall u Hin) as (a & Ha). rewrite <- Hfs in Ha.
    destruct (Hjobs u a Ha) as (t & log & Hget & _ & _ & Hterm & _).
    exists t. split; assumption.
  - split; [exact Hst|]. rewrite Hst. apply final_status_settled.
Qed.

Lemma run_batch_monitors benv urls model tl od fmts self :
  List.filter (validate_url urlparse) urls <> [] ->
  snd (run_batch urlparse benv urls model tl od fmts self)
  = snd (monitor_progress benv (snd (process_batch urlparse urls model tl od fmts self))).
Proof.
  intros Hvalid.
  destruct (process_batch_started urlparse urls model tl od fmts self Hvalid) as (Hr & _).
  unfold run_batch. unfold bind at 1.
  rewrite (surjective_pairing (process_batch urlparse urls model tl od fmts self)).
  rewrite Hr. cbv beta iota. unfold bind at 1.
  destruct (monitor_progress benv _) as [[[]|e] self']; reflexivity.
Qed.

(** X19.  Once a batch has ended, [cancel()], [pause()] and [resume()] are
    refused and change nothing: the status the monitor has set is final. *)
Theorem ended_batch_refuses_control benv urls model tl od fmts self :
  List.filter (validate_url urlparse) urls <> [] ->
  let ended := snd (run_batch urlparse benv urls model tl od fmts self) in
  (batch_status ended = BATCH_COMPLETED \/ batch_status ended = BATCH_FAILED
   \/ batch_status ended = BATCH_CANCELLED)
  /\ cancel ended = (Ok false, ended)
  /\ pause ended = (Ok false, ended)
  /\ resume ended = (Ok false, ended).
Proof.
  intros Hvalid ended.
  destruct (started_batch_is_ready urls model tl od fmts self Hvalid) as (Hnd & Hfresh & _).
  destruct (monitor_progress_runs urlparse benv _ Hnd Hfresh) as (self' & Hmon & _ & _ & Hst & _).
  assert (Hended : ended = self').
  { unfold ended. rewrite (run_batch_monitors benv urls model tl od fmts self Hvalid), Hmon.
    reflexivity. }
  rewrite Hended. clear Hended ended.
  assert (Hcases : batch_status self' = BATCH_COMPLETED \/ batch_status self' = BATCH_FAILED
                   \/ batch_status self' = BATCH_CANCELLED).
  { rewrite Hst. unfold final_status. destruct (cancel_event self'); [auto|].
    destruct (existsb _ _); auto. }
  split; [exact Hcases|].
  unfold cancel, pause, resume, bind, gets, ret.
  destruct Hcases as [H | [H | H]]; rewrite H; repeat split.
Qed.

(** X20.  A list in which no URL is valid still resets the processor: the tasks
    of the batch before are dropped, the status is Running although no
    job and no monitor exists, so it stays Running, no completion
    callback is called, and a later [cancel()] is accepted. *)
Theorem invalid_batch_stays_running benv urls model tl od fmts self :
  urls <> [] ->
  List.filter (validate_url urlparse) urls = [] ->
  let left := snd (run_batch urlparse benv urls model tl od fmts self) in
  fst (run_batch urlparse benv urls model tl od fmts self)
  = Ok (Error "No valid YouTube URLs provided")
  /\ batch_status left = RUNNING
  /\ tasks left = [] /\ futures left = []
  /\ cancel_event left = false
  /\ completions left = completions self
  /\ fst (cancel left) = Ok true
  /\ batch_status (snd (cancel left)) = BATCH_CANCELLED.
Proof.
  intros Hne Hvalid left.
  pose proof (process_batch_unfold urlparse urls model tl od fmts self Hne) as Hpb.
  cbv zeta in Hpb. rewrite (add_task_empty urlparse _ Hvalid) in Hpb.
  assert (Hrun : run_batch urlparse benv urls model tl od fmts self
                 = (Ok (Error "No valid YouTube URLs provided"),
                    set_tasks [] (set_batch_status RUNNING
                      (set_futures [] (set_tasks [] (set_cancel_event false self)))))).
  { unfold run_batch, bind. rewrite Hpb. reflexivity. }
  unfold left. rewrite Hrun. cbn. repeat split.
Qed.

Lemma dict_get_of_item {V : Type} k (v : V) d :
  List.NoDup (dict_keys d) -> In (k, v) d -> dict_get k d = Some v.
Proof.
  induction d as [|[k' v'] d IH]; intros Hnd Hin; [destruct Hin|].
  cbn [dict_keys map fst] in Hnd. apply NoDup_cons_iff in Hnd as [Hk Hnd].
  cbn [dict_get]. destruct Hin as [Heq | Hin].
  - injection Heq as -> ->. rewrite String.eqb_refl. reflexivity.
  - destruct (String.eqb_spec k k') as [->|Hne].
    + exfalso. apply Hk. apply (in_map fst) in Hin. exact Hin.
    + apply IH; assumption.
Qed.

Lemma count_status_none s (ts : list (string * TaskProgress)) :
  (forall t, In t (dict_values ts) -> status t <> s) -> count_status s ts = 0%nat.
Proof.
  unfold count_status. induction (dict_values ts) as [|t l IH]; intros Hall; [reflexivity|].
  rewrite filter_cons. destruct (decide (is_status s t = true)) as [H|_].
  { exfalso. apply bool_decide_eq_true_1 in H. apply (Hall t); [left; reflexivity | exact H]. }
  apply IH. intros t' Hin. apply Hall. right. exact Hin.
Qed.

(** A worker that takes up a job after [cancel()]. *)
Lemma cancelled_job env u a self :
  dict_get u (tasks self) = Some (Task.new u) ->
  cancel_event self = true ->
  exists t,
    run_future env u a self
    = (Ok (Ok {| r_status := "cancelled"; r_url := u; r_result := None;
                 r_error := None; r_cached := false |}),
       set_job_log (job_log self ++ [(u, [EvCheck AtStart true; EvReport t])])
         (set_tasks (dict_set u t (tasks self)) self))
    /\ status t = CANCELLED /\ progress t = 0.0%Q.
Proof.
  intros Hget Hflag. rewrite (run_future_fresh _ _ _ _ Hget). rewrite Hflag.
  remember (_process_url env u (a_model a) (a_target_lang a) (a_output_dir a) (a_formats a)
              (start_world u true (cache_manager self))) as rw eqn:Hrw.
  destruct rw as [r w]. symmetry in Hrw.
  pose proof (early_cancel env u (a_model a) (a_target_lang a) (a_output_dir a) (a_formats a)
                (cache_manager self)) as Hearly.
  pose proof (no_cache_traffic env u (a_model a) (a_target_lang a) (a_output_dir a)
                (a_formats a) true (cache_manager self)) as Hcache.
  pose proof (run_without_failure env u (a_model a) (a_target_lang a) (a_output_dir a)
                (a_formats a) true (cache_manager self)) as Hmono.
  rewrite Hrw in Hearly, Hcache, Hmono. unfold holds in *.
  destruct Hearly as (_ & Hlog & Hst & _ & _ & Hpr & Hr).
  destruct (Hcache (or_introl eq_refl)) as (Hcm & _).
  destruct Hmono as (Hce & _). specialize (Hce eq_refl).
  exists (w_task w). cbn [fst snd]. rewrite Hlog, Hr, Hcm, Hce.
  split; [|split; assumption].
  destruct self as [cm conc ts fs st ce ex cb cs jl]. cbn in Hflag. subst ce. reflexivity.
Qed.

Lemma cancelled_jobs_loop benv fs : forall self,
  cancel_event self = true ->
  List.NoDup (map fst fs) ->
  (forall u a, In (u, a) fs -> dict_get u (tasks self) = Some (Task.new u)) ->
  exists self',
    for_each fs (fun '(url, args) =>
      let* settled := run_future (job_env benv url) url args in ret tt) self = (Ok tt, self')
    /\ cancel_event self' = true
    /\ cache_manager self' = cache_manager self
    /\ on_completion_callback self' = on_completion_callback self
    /\ completions self' = completions self
    /\ dict_keys (tasks self') = dict_keys (tasks self)
    /\ (forall u, ~ In u (map fst fs) -> dict_get u (tasks self') = dict_get u (tasks self))
    /\ (forall u, In u (map fst fs) ->
          exists t, dict_get u (tasks self') = Some t
                    /\ status t = CANCELLED /\ progress t = 0.0%Q)
    /\ (forall u log, In (u, log) (job_log self') ->
          In (u, log) (job_log self) \/ calls log = []).
Proof.
  induction fs as [|[u a] fs IH]; intros self Hflag Hnd Hfresh.
  - exists self. cbn. unfold ret. repeat split; auto. intros u [].
  - assert (Hget : dict_get u (tasks self) = Some (Task.new u))
      by (apply (Hfresh u a); left; reflexivity).
    destruct (cancelled_job (job_env benv u) u a self Hget Hflag) as (t & Hjob & Hst & Hpr).
    apply NoDup_cons_iff in Hnd as [Hu Hnd]. cbn [map fst] in Hu.
    set (self1 := set_job_log (job_log self ++ [(u, [EvCheck AtStart true; EvReport t])])
                    (set_tasks (dict_set u t (tasks self)) self)) in *.
    destruct (IH self1) as (self' & Hloop & Hce & Hcm & Hcb & Hcs & Hkeys & Hframe & Hjobs & Hlogs).
    { exact Hflag. }
    { exact Hnd. }
    { intros u' a' Hin. cbn [self1 tasks set_job_log set_tasks]. rewrite dict_get_set_other.
      - apply (Hfresh u' a'). right. exact Hin.
      - intros ->. apply Hu. apply (in_map fst) in Hin. exact Hin. }
    exists self'. split.
    { cbn [for_each]. unfold bind at 1. unfold bind at 1. rewrite Hjob.
      cbn [ret]. unfold ret at 1. exact Hloop. }
    split; [exact Hce|]. split; [rewrite Hcm; reflexivity|].
    split; [rewrite Hcb; reflexivity|]. split; [rewrite Hcs; reflexivity|]. split.
    { rewrite Hkeys. cbn [self1 tasks set_job_log set_tasks].
      apply dict_keys_set_old. apply (dict_get_In _ _ _ Hget). }
    split.
    { intros u' Hnin. cbn [map fst In] in Hnin. rewrite Hframe by tauto.
      cbn [self1 tasks set_job_log set_tasks]. apply dict_get_set_other. intros ->. tauto. }
    split.
    { intros u' [Heq | Hin].
      - cbn [fst] in Heq. subst u'. exists t. rewrite (Hframe u Hu).
        cbn [self1 tasks set_job_log set_tasks]. rewrite dict_get_set_same. auto.
      - apply (Hjobs u' Hin). }
    intros u' log Hin. destruct (Hlogs u' log Hin) as [Hold | Hnone]; [|right; exact Hnone].
    cbn [self1 job_log set_job_log] in Hold. apply in_app_or in Hold as [Hold | [Heq | []]].
    + left. exact Hold.
    + right. injection Heq as _ <-. reflexivity.
Qed.

(** X21.  [cancel()] between [process_batch] and the first job: the monitor
    still takes up every job, each one ends Cancelled at progress 0
    without a call of a collaborator and without a look into the cache,
    and the batch ends Cancelled with nothing completed. *)
Theorem cancel_before_the_jobs_start benv urls model tl od fmts self :
  List.filter (validate_url urlparse) urls <> [] ->
  let started := snd (process_batch urlparse urls model tl od fmts self) in
  let cancelled := snd (cancel started) in
  fst (cancel started) = Ok true
  /\ exists self',
       monitor_progress benv cancelled = (Ok tt, self')
       /\ batch_status self' = BATCH_CANCELLED
       /\ dict_keys (tasks self') = dict_keys (tasks started)
       /\ (forall u t, dict_get u (tasks self') = Some t ->
             status t = CANCELLED /\ progress t = 0.0%Q)
       /\ count_status COMPLETED (tasks self') = 0%nat
       /\ cache_manager self' = cache_manager started
       /\ (forall u log, In (u, log) (job_log self') ->
             In (u, log) (job_log started) \/ calls log = []).
Proof.
  intros Hvalid started cancelled.
  destruct (process_batch_started urlparse urls model tl od fmts self Hvalid)
    as (_ & _ & _ & _ & Hfk & Hrunning).
  destruct (started_batch_is_ready urls model tl od fmts self Hvalid) as (Hnd & Hfresh & Hall).
  fold started in Hrunning, Hnd, Hfresh, Hall, Hfk.
  assert (Hcancel : cancel started
                    = (Ok true, set_batch_status BATCH_CANCELLED (set_cancel_event true started))).
  { unfold cancel, bind, gets, modify, ret. rewrite Hrunning. reflexivity. }
  unfold cancelled. rewrite Hcancel. cbn [fst snd]. split; [reflexivity|].
  set (c := set_batch_status BATCH_CANCELLED (set_cancel_event true started)).
  destruct (cancelled_jobs_loop benv (futures c) c)
    as (self1 & Hloop & Hce & Hcm & Hcb & Hcs & Hkeys & Hframe & Hjobs & Hlogs).
  { reflexivity. }
  { exact Hnd. }
  { exact Hfresh. }
  assert (Hall' : forall u t, dict_get u (tasks self1) = Some t ->
                              status t = CANCELLED /\ progress t = 0.0%Q).
  { intros u t Ht. assert (Hin : In u (dict_keys (tasks started))).
    { change (tasks started) with (tasks c). rewrite <- Hkeys. apply (dict_get_In _ _ _ Ht). }
    rewrite <- Hfk in Hin. destruct (Hjobs u Hin) as (t' & Ht' & Hst & Hpr).
    rewrite Ht in Ht'. injection Ht' as <-. auto. }
  assert (Hnd1 : List.NoDup (dict_keys (tasks self1))).
  { rewrite Hkeys. change (tasks c) with (tasks started). rewrite <- Hfk. exact Hnd. }
  unfold monitor_progress. unfold bind at 1. cbn [gets]. unfold bind at 1. rewrite Hloop.
  unfold bind at 1. cbn [modify]. unfold bind at 1. cbn [modify]. unfold bind at 1. cbn [gets].
  cbn [on_completion_callback set_batch_status set_cancel_event cancel_event tasks].
  rewrite Hce. cbn [orb final_status].
  assert (Hzero : count_status COMPLETED (tasks self1) = 0%nat).
  { apply count_status_none. intros t Hin.
    destruct (proj1 (in_map_iff snd (tasks self1) t) Hin) as ([u t'] & Heq & Hitem).
    cbn in Heq. subst t'.
    destruct (Hall' u t (dict_get_of_item u t (tasks self1) Hnd1 Hitem)) as [Hst _].
    rewrite Hst. discriminate. }
  destruct (on_completion_callback self1).
  - eexists. split; [reflexivity|]. cbn.
    split; [reflexivity|]. split; [exact Hkeys|]. split; [exact Hall'|].
    split; [exact Hzero|]. split; [exact Hcm | exact Hlogs].
  - eexists. split; [reflexivity|]. cbn.
    split; [reflexivity|]. split; [exact Hkeys|]. split; [exact Hall'|].
    split; [exact Hzero|]. split; [exact Hcm | exact Hlogs].
Qed.

End ControlFacts.

(** The batch of the three identifiers, paused after its start. *)
Lemma pause_does_not_hold_the_jobs_witness :
  List.filter (Batch.validate_url Urllib.urlparse) Scenario.three_urls <> []
  /\ fst (BatchOps.pause
            (snd (Batch.process_batch Urllib.urlparse Scenario.three_urls "small" None None None
                                      Scenario.listening_processor))) = Ok true.
Proof.
  assert (Hv : List.filter (Batch.validate_url Urllib.urlparse) Scenario.three_urls <> [])
    by (vm_compute; discriminate).
  split; [exact Hv|].
  exact (proj1 (pause_does_not_hold_the_jobs Urllib.urlparse Setup.all_smooth
                  Scenario.three_urls "small" None None None Scenario.listening_processor Hv)).
Defined.

Lemma ended_batch_refuses_control_witness :
  List.filter (Batch.validate_url Urllib.urlparse) Scenario.three_urls <> []
  /\ Batch.cancel (snd (Batch.run_batch Urllib.urlparse Scenario.one_download_fails
                                        Scenario.three_urls "small" None None None
                                        Scenario.listening_processor))
     = (Ok false, snd (Batch.run_batch Urllib.urlparse Scenario.one_download_fails
                                       Scenario.three_urls "small" None None None
                                       Scenario.listening_processor)).
Proof.
  assert (Hv : List.filter (Batch.validate_url Urllib.urlparse) Scenario.three_urls <> [])
    by (vm_compute; discriminate).
  split; [exact Hv|].
  exact (proj1 (proj2 (ended_batch_refuses_control Urllib.urlparse Scenario.one_download_fails
                         Scenario.three_urls "small" None None None
                         Scenario.listening_processor Hv))).
Defined.

(** A list without a YouTube URL, given to a processor that has run the
    batch of the three identifiers. *)
Lemma invalid_batch_stays_running_witness :
  (Setup.no_video <> []
   /\ List.filter (Batch.validate_url Urllib.urlparse) Setup.no_video = [])
  /\ Batch.batch_status
       (snd (Batch.run_batch Urllib.urlparse Setup.all_smooth Setup.no_video "small" None None
                             None Setup.started_processor)) = Batch.RUNNING.
Proof.
  assert (H1 : Setup.no_video <> []) by discriminate.
  assert (H2 : List.filter (Batch.validate_url Urllib.urlparse) Setup.no_video = [])
    by (vm_compute; reflexivity).
  split; [split; assumption|].
  exact (proj1 (proj2 (invalid_batch_stays_running Urllib.urlparse Setup.all_smooth
                         Setup.no_video "small" None None None Setup.started_processor H1 H2))).
Defined.

Lemma cancel_before_the_jobs_start_witness :
  List.filter (Batch.validate_url Urllib.urlparse) Scenario.three_urls <> []
  /\ fst (Batch.cancel
            (snd (Batch.process_batch Urllib.urlparse Scenario.three_urls "small" None None None
                                      Scenario.listening_processor))) = Ok true.
Proof.
  assert (Hv : List.filter (Batch.validate_url Urllib.urlparse) Scenario.three_urls <> [])
    by (vm_compute; discriminate).
  split; [exact Hv|].
  exact (proj1 (cancel_before_the_jobs_start Urllib.urlparse Setup.all_smooth
                  Scenario.three_urls "small" None None None Scenario.listening_processor Hv)).
Defined.

(* ===================================================================== *)
(** * Progress at the end of a job and of a batch *)
(* ===================================================================== *)

Section FinalProgress.
Import Task Batch Notions Observations BatchOps.
Context {S : Type} {storage : Storage S}.

Lemma last_between (lo hi : Q) l : forall d,
  (lo <= d)%Q -> (d <= hi)%Q ->
  (forall x, In x l -> (lo <= x)%Q /\ (x <= hi)%Q) ->
  (lo <= List.last l d)%Q /\ (List.last l d <= hi)%Q.
Proof.
  induction l as [|x l IH]; intros d Hlo Hhi Hall; [split; assumption|].
  rewrite last_cons_default. destruct (Hall x (or_introl eq_refl)) as [H1 H2].
  apply IH; [exact H1 | exact H2 |]. intros y Hy. apply Hall. right. exact Hy.
Qed.

Lemma chain_members lo l hi :
  chain lo l hi -> forall x, In x l -> (lo <= x)%Q /\ (x <= hi)%Q.
Proof.
  revert lo. induction l as [|y l IH]; intros lo H x Hin; [destruct Hin|].
  destruct H as [H1 H2]. pose proof (chain_bounds _ _ _ H2) as H3.
  destruct Hin as [<- | Hin]; [split; assumption|].
  destruct (IH y H2 x Hin) as [H4 H5]. split; [lra | exact H5].
Qed.

(** Where the download and the conversion leave the overall progress. *)
Lemma after_download_bounds t fracs :
  status t = DOWNLOADING ->
  chain 0 fracs 1 ->
  (0 <= progress t)%Q -> (progress t <= 0.2)%Q ->
  (0 <= progress (after_fractions set_download_progress fracs t))%Q
  /\ (progress (after_fractions set_download_progress fracs t) <= 0.2)%Q.
Proof.
  intros Hst Hfr Hlo Hhi. rewrite progress_after_download by exact Hst.
  apply last_between; [exact Hlo | exact Hhi |].
  intros x Hx. apply in_map_iff in Hx as (p & <- & Hp).
  destruct (chain_members _ _ _ Hfr p Hp). split; lra.
Qed.

Lemma after_conversion_bounds t fracs :
  status t = CONVERTING ->
  chain 0 fracs 1 ->
  (0 <= progress t)%Q -> (progress t <= 0.3)%Q ->
  (0 <= progress (after_fractions set_conversion_progress fracs t))%Q
  /\ (progress (after_fractions set_conversion_progress fracs t) <= 0.3)%Q.
Proof.
  intros Hst Hfr Hlo Hhi. rewrite progress_after_conversion by exact Hst.
  apply last_between; [exact Hlo | exact Hhi |].
  intros x Hx. apply in_map_iff in Hx as (p & <- & Hp).
  destruct (chain_members _ _ _ Hfr p Hp). split; lra.
Qed.

End FinalProgress.

(** Replaces the progress the callbacks leave by a number within its
    bounds, the download first. *)
Ltac bound_fractions :=
  repeat match goal with
  | |- context [Task.progress (Notions.after_fractions Task.set_download_progress ?fr ?t)] =>
      let H := fresh "Hb" in
      assert (H := after_download_bounds t fr eq_refl ltac:(assumption)
                     ltac:(cbn; lra) ltac:(cbn; lra));
      revert H;
      generalize (Task.progress (Notions.after_fractions Task.set_download_progress fr t));
      intros ? [? ?]
  end;
  repeat match goal with
  | |- context [Task.progress (Notions.after_fractions Task.set_conversion_progress ?fr ?t)] =>
      let H := fresh "Hb" in
      assert (H := after_conversion_bounds t fr eq_refl ltac:(auto)
                     ltac:(cbn; lra) ltac:(cbn; lra));
      revert H;
      generalize (Task.progress (Notions.after_fractions Task.set_conversion_progress fr t));
      intros ? [? ?]
  end.

Section FinalProgressRun.
Import Task Batch Notions Observations BatchOps.
Context {S : Type} {storage : Storage S}.

Lemma final_progress env url model tl od fmts flag (cm : option (CacheManager S)) :
  fractions_ok env url ->
  let '(r, w') := _process_url env url model tl od fmts (start_world url flag cm) in
  holds ((0 <= progress (w_task w'))%Q
         /\ (status (w_task w') = COMPLETED -> progress (w_task w') == 1)%Q
         /\ (status (w_task w') <> COMPLETED -> progress (w_task w') <= 0.9)%Q).
Proof.
  intros [Hd Hc]. run_pipeline.
  all: cbn [w_task]; both_outcomes; cbn.
  all: bound_fractions.
  all: split; [lra|]; split; [intros Hst; first [reflexivity | discriminate Hst]|].
  all: intros Hst; first [lra | contradiction Hst; reflexivity].
Qed.

(** X22.  The job of a finished run stands at full progress exactly when it is
    Completed; a job that Failed or was Cancelled stands at 0.9 at most.
    The weights are read as exact decimal numbers, and the download and
    the conversion are assumed to report fractions between 0 and 1 that
    do not go down. *)
Theorem full_progress_iff_completed env url model tl od fmts flag
        (cm : option (CacheManager S)) r w' :
  fractions_ok env url ->
  _process_url env url model tl od fmts (start_world url flag cm) = (r, w') ->
  (0 <= progress (w_task w'))%Q
  /\ (progress (w_task w') <= 1)%Q
  /\ ((progress (w_task w') == 1)%Q <-> status (w_task w') = COMPLETED)
  /\ (status (w_task w') <> COMPLETED -> (progress (w_task w') <= 0.9)%Q).
Proof.
  intros Hfr Hrun.
  pose proof (run_property _ _ (final_progress env url model tl od fmts flag cm Hfr) r w' Hrun)
    as (H0 & Hdone & Hpart).
  destruct (decide (status (w_task w') = COMPLETED)) as [Hst | Hst].
  - specialize (Hdone Hst). split; [exact H0|]. split; [lra|]. split; [tauto|].
    intros H. contradiction.
  - specialize (Hpart Hst). split; [exact H0|]. split; [lra|]. split; [|intros _; exact Hpart].
    split; [intros H; lra | intros H; contradiction].
Qed.

End FinalProgressRun.

(** The run whose transcription raises stands at 0.3. *)
Lemma full_progress_iff_completed_witness :
  (Notions.fractions_ok Scenario.failing_env Scenario.video
   /\ Scenario.failing_run = (fst Scenario.failing_run, snd Scenario.failing_run))
  /\ (Task.progress (Batch.w_task (snd Scenario.failing_run)) <= 0.9)%Q.
Proof.
  assert (Hfr : Notions.fractions_ok Scenario.failing_env Scenario.video).
  { split; [|intros path]; cbn; lra. }
  assert (Hrun : Scenario.failing_run = (fst Scenario.failing_run, snd Scenario.failing_run))
    by apply surjective_pairing.
  assert (Hst : Task.status (Batch.w_task (snd Scenario.failing_run)) <> Task.COMPLETED)
    by (vm_compute; discriminate).
  split; [split; assumption|].
  exact (proj2 (proj2 (proj2
           (full_progress_iff_completed Scenario.failing_env Scenario.video "small" None None
              None false None (fst Scenario.failing_run) (snd Scenario.failing_run) Hfr Hrun)))
           Hst).
Defined.

(* ===================================================================== *)
(** * Counting and averaging over the tasks *)
(* ===================================================================== *)

Section StatusFacts.
Import Task Batch Notions Observations BatchOps.

Lemma inject_length_succ {A : Type} (x : A) l :
  (inject_Z (Z.of_nat (length (x :: l))) == inject_Z (Z.of_nat (length l)) + 1)%Q.
Proof.
  cbn [length]. rewrite Nat2Z.inj_succ. unfold Z.succ. rewrite inject_Z_plus. reflexivity.
Qed.

(** The sum of progress values between 0 and 1. *)
Lemma sum_progress_bounds (l : list TaskProgress) : forall a,
  (forall t, In t l -> (0 <= progress t)%Q /\ (progress t <= 1)%Q) ->
  let total := fold_left (fun acc task => (acc + progress task)%Q) l a in
  (a <= total)%Q
  /\ (total <= a + inject_Z (Z.of_nat (length l)))%Q
  /\ ((total == a + inject_Z (Z.of_nat (length l)))%Q
      <-> forall t, In t l -> (progress t == 1)%Q).
Proof.
  induction l as [|x l IH]; intros a Hall; cbv zeta.
  - cbn [fold_left length]. change (inject_Z (Z.of_nat 0)) with 0%Q.
    split; [lra|]. split; [lra|]. split; [intros _ t []|intros _; lra].
  - destruct (Hall x (or_introl eq_refl)) as [H0 H1].
    destruct (IH (a + progress x)%Q (fun t Ht => Hall t (or_intror Ht))) as (Hlo & Hhi & Hiff).
    cbn [fold_left]. rewrite inject_length_succ.
    set (total := fold_left _ l _) in *. set (n := inject_Z (Z.of_nat (length l))) in *.
    split; [lra|]. split; [lra|]. split.
    + intros Heq t [<- | Ht]; [lra|]. apply (proj1 Hiff); [lra | exact Ht].
    + intros Hone. assert (Hx : (progress x == 1)%Q) by (apply Hone; left; reflexivity).
      assert (Hrest : (total == a + progress x + n)%Q)
        by (apply (proj2 Hiff); intros t Ht; apply Hone; right; exact Ht).
      lra.
Qed.

Lemma count_status_le s (ts : list (string * TaskProgress)) :
  (count_status s ts <= length ts)%nat
  /\ (count_status s ts = length ts <-> forall t, In t (dict_values ts) -> status t = s).
Proof.
  unfold count_status, dict_values. rewrite <- (length_map snd ts).
  induction (map snd ts) as [|t l [IH1 IH2]];
    [cbn; split; [lia|split; [intros _ t []|reflexivity]]|].
  rewrite filter_cons. destruct (decide (is_status s t = true)) as [H|H].
  - apply bool_decide_eq_true_1 in H. cbn [length]. split; [lia|]. split.
    + intros Heq t' [<- | Hin]; [exact H|]. apply IH2; [lia | exact Hin].
    + intros Hall. f_equal. apply IH2. intros t' Hin. apply Hall. right. exact Hin.
  - cbn [length]. split; [lia|]. split; [lia|].
    intros Hall. exfalso. apply H. apply bool_decide_eq_true_2. apply Hall. left. reflexivity.
Qed.

Lemma count_status_apart s1 s2 (ts : list (string * TaskProgress)) :
  s1 <> s2 -> (count_status s1 ts + count_status s2 ts <= length ts)%nat.
Proof.
  intros Hne. unfold count_status, dict_values. rewrite <- (length_map snd ts).
  induction (map snd ts) as [|t l IH]; [cbn; lia|].
  rewrite !filter_cons.
  destruct (decide (is_status s1 t = true)) as [H1|H1];
    destruct (decide (is_status s2 t = true)) as [H2|H2]; cbn [length]; try lia.
  apply bool_decide_eq_true_1 in H1. apply bool_decide_eq_true_1 in H2. congruence.
Qed.

(** [_calculate_overall_progress] on tasks whose progress lies between
    0 and 1. *)
Lemma overall_progress_bounds (ts : list (string * TaskProgress)) :
  ts <> [] ->
  (forall t, In t (dict_values ts) -> (0 <= progress t)%Q /\ (progress t <= 1)%Q) ->
  (0 <= _calculate_overall_progress ts)%Q
  /\ (_calculate_overall_progress ts <= 1)%Q
  /\ ((_calculate_overall_progress ts == 1)%Q
      <-> forall t, In t (dict_values ts) -> (progress t == 1)%Q).
Proof.
  intros Hne Hall. destruct ts as [|p ts]; [contradiction|].
  unfold _calculate_overall_progress, total_progress.
  destruct (sum_progress_bounds (dict_values (p :: ts)) 0 Hall) as (Hlo & Hhi & Hiff).
  cbv zeta in Hlo, Hhi, Hiff.
  assert (Hlen : length (dict_values (p :: ts)) = length (p :: ts)) by apply length_map.
  rewrite Hlen in Hhi, Hiff.
  set (total := fold_left _ _ _) in *. set (n := inject_Z (Z.of_nat (length (p :: ts)))) in *.
  assert (Hn : (0 < n)%Q).
  { unfold n. rewrite inject_length_succ.
    assert (0 <= inject_Z (Z.of_nat (length ts)))%Q
      by (change 0%Q with (inject_Z 0); rewrite <- Zle_Qle; lia).
    lra. }
  split; [apply Qle_shift_div_l; [exact Hn | lra]|].
  split; [apply Qle_shift_div_r; [exact Hn | lra]|].
  rewrite <- Hiff. split.
  - intros H. assert (E : (total == total / n * n)%Q) by (field; lra). rewrite E, H. lra.
  - intros H. rewrite H. field. lra.
Qed.

End StatusFacts.

(* ===================================================================== *)
(** * The status of a batch that has ended *)
(* ===================================================================== *)

Section BatchStatusFacts.
Import Task Batch Notions Observations BatchOps.
Context {S : Type} {storage : Storage S}.
Variable urlparse : string -> Outcome ParseResult.
Implicit Types self : BatchProcessor S.

Lemma full_progress_bounds env url model tl od fmts flag (cm : option (CacheManager S)) :
  fractions_ok env url ->
  let t := w_task (snd (_process_url env url model tl od fmts (start_world url flag cm))) in
  (0 <= progress t)%Q /\ (progress t <= 1)%Q
  /\ ((progress t == 1)%Q <-> status t = COMPLETED).
Proof.
  intros Hfr t.
  pose proof (run_property _ _ (final_progress env url model tl od fmts flag cm Hfr) _ _
                (surjective_pairing _)) as (H0 & Hdone & Hpart).
  fold t in H0, Hdone, Hpart.
  destruct (decide (status t = COMPLETED)) as [Hst | Hst].
  - specialize (Hdone Hst). split; [exact H0|]. split; [lra | tauto].
  - specialize (Hpart Hst). split; [exact H0|]. split; [lra|].
    split; [intros H; lra | intros H; contradiction].
Qed.

(** X23.  [get_status()] after a batch has ended: the counts of completed and
    failed jobs fit into the total, the batch progress lies between 0 and
    1, and it is 1 exactly when every job is Completed.  The download and
    the conversion of every job are assumed to report fractions between 0
    and 1 that do not go down. *)
Theorem ended_batch_is_full_iff_all_completed benv urls model tl od fmts self :
  List.filter (validate_url urlparse) urls <> [] ->
  (forall u, fractions_ok (job_env benv u) u) ->
  let ended := snd (run_batch urlparse benv urls model tl od fmts self) in
  exists s,
    get_status ended = (Ok s, ended)
    /\ s_tasks s = tasks ended
    /\ s_total s = length (tasks ended)
    /\ (0 < s_total s)%nat
    /\ (s_completed s + s_failed s <= s_total s)%nat
    /\ (0 <= s_batch_progress s)%Q
    /\ (s_batch_progress s <= 1)%Q
    /\ ((s_batch_progress s == 1)%Q <-> s_completed s = s_total s).
Proof.
  intros Hvalid Hfr ended.
  destruct (process_batch_started urlparse urls model tl od fmts self Hvalid)
    as (_ & Hndt & Hkeys & _ & Hfk & _).
  destruct (started_batch_is_ready urlparse urls model tl od fmts self Hvalid)
    as (Hnd & Hfresh & Hall).
  destruct (monitor_progress_runs urlparse benv _ Hnd Hfresh)
    as (self' & Hmon & Hk & Hjobs & _ & _).
  assert (Hended : ended = self').
  { unfold ended. rewrite (run_batch_monitors urlparse benv urls model tl od fmts self Hvalid).
    rewrite Hmon. reflexivity. }
  rewrite Hended. clear Hended ended.
  set (started := snd (process_batch urlparse urls model tl od fmts self)) in *.
  assert (Htasks : forall t, In t (dict_values (tasks self')) ->
            (0 <= progress t)%Q /\ (progress t <= 1)%Q
            /\ ((progress t == 1)%Q <-> status t = COMPLETED)).
  { intros t Hin.
    destruct (proj1 (in_map_iff snd (tasks self') t) Hin) as ([u t'] & Heq & Hitem).
    cbn in Heq. subst t'.
    assert (Hu : In u (dict_keys (tasks started))).
    { rewrite <- Hk. apply (in_map fst) in Hitem. exact Hitem. }
    destruct (Hall u Hu) as (a & Ha).
    destruct (Hjobs u a Ha) as (t' & log & Hget & _ & (flag & cm & Ht & _) & _).
    assert (Hsame : dict_get u (tasks self') = Some t).
    { apply dict_get_of_item; [rewrite Hk; exact Hndt | exact Hitem]. }
    rewrite Hsame in Hget. injection Hget as <-.
    destruct (full_progress_bounds (job_env benv u) u (a_model a) (a_target_lang a)
                (a_output_dir a) (a_formats a) flag cm (Hfr u)) as (H0 & H1 & Hiff).
    cbv zeta in Ht. rewrite <- Ht in H0, H1, Hiff. auto. }
  assert (Hne : tasks self' <> []).
  { intros Hnil. destruct (List.filter (validate_url urlparse) urls) as [|v vs] eqn:Hf;
      [contradiction Hvalid; reflexivity|].
    assert (Hv : In v (dict_keys (tasks started))) by (apply Hkeys; left; reflexivity).
    rewrite <- Hk, Hnil in Hv. destruct Hv. }
  destruct (overall_progress_bounds (tasks self') Hne) as (Hlo & Hhi & Hiff).
  { intros t Hin. destruct (Htasks t Hin) as (H0 & H1 & _). split; assumption. }
  eexists. split; [reflexivity|]. cbn [s_tasks s_total s_completed s_failed s_batch_progress].
  split; [reflexivity|]. split; [reflexivity|].
  split; [destruct (tasks self'); [contradiction | cbn; lia]|].
  split; [apply count_status_apart; discriminate|].
  split; [exact Hlo|]. split; [exact Hhi|].
  rewrite Hiff. rewrite (proj2 (count_status_le COMPLETED (tasks self'))). split.
  - intros Hone t Hin. apply (Htasks t Hin), Hone, Hin.
  - intros Hdone t Hin. apply (Htasks t Hin), Hdone, Hin.
Qed.

End BatchStatusFacts.

(** The batch in which one download raises: one job of two is Completed. *)
Lemma ended_batch_is_full_iff_all_completed_witness :
  (List.filter (Batch.validate_url Urllib.urlparse) Scenario.three_urls <> []
   /\ forall u, Notions.fractions_ok (Batch.job_env Scenario.one_download_fails u) u)
  /\ exists s,
       BatchOps.get_status
         (snd (Batch.run_batch Urllib.urlparse Scenario.one_download_fails Scenario.three_urls
                               "small" None None None Scenario.listening_processor))
       = (Ok s, snd (Batch.run_batch Urllib.urlparse Scenario.one_download_fails
                                     Scenario.three_urls "small" None None None
                                     Scenario.listening_processor))
       /\ (BatchOps.s_batch_progress s <= 1)%Q.
Proof.
  assert (Hv : List.filter (Batch.validate_url Urllib.urlparse) Scenario.three_urls <> [])
    by (vm_compute; discriminate).
  assert (Hfr : forall u, Notions.fractions_ok (Batch.job_env Scenario.one_download_fails u) u).
  { intros u. unfold Scenario.one_download_fails, Batch.job_env.
    destruct (String.eqb u "https://youtu.be/a"); (split; [|intros path]); cbn; lra. }
  split; [split; assumption|].
  destruct (ended_batch_is_full_iff_all_completed Urllib.urlparse Scenario.one_download_fails
              Scenario.three_urls "small" None None None Scenario.listening_processor Hv Hfr)
    as (s & Hs & _ & _ & _ & _ & _ & Hle & _).
  exists s. split; [exact Hs | exact Hle].
Defined.

Section ElapsedFacts.
Import Task Batch Notions Observations BatchOps.
Context {S : Type} {storage : Storage S}.

Lemma run_times env url model tl od fmts flag (cm : option (CacheManager S)) :
  let '(r, w') := _process_url env url model tl od fmts (start_world url flag cm) in
  holds (start_time (w_task w') = Some (time_time env MStart)
         /\ (flag = true -> end_time (w_task w') = None)
         /\ (flag = false -> end_time (w_task w') = Some (time_time env MEnd))).
Proof.
  run_pipeline.
  all: cbn [w_task]; both_outcomes; cbn.
  all: split; [reflexivity|]; split; intros H; first [reflexivity | discriminate H].
Qed.

(** X24.  The elapsed time of a job whose run has ended stands still at the
    time between the start and the end of the run, whether the job is
    Completed, Failed or Cancelled; only for a job that found the cancel
    event set at its start no end is recorded, and its elapsed time goes
    on with the clock. *)
Theorem elapsed_time_of_a_job env url model tl od fmts flag
        (cm : option (CacheManager S)) r w' now :
  _process_url env url model tl od fmts (start_world url flag cm) = (r, w') ->
  (flag = false ->
   get_elapsed_time now (w_task w') = Some (time_time env MEnd - time_time env MStart)%Z)
  /\ (flag = true ->
      get_elapsed_time now (w_task w') = Some (now - time_time env MStart)%Z).
Proof.
  intros Hrun.
  pose proof (run_property _ _ (run_times env url model tl od fmts flag cm) r w' Hrun)
    as (Hstart & Hnone & Hend).
  unfold get_elapsed_time. rewrite Hstart.
  split; intros Hflag; [rewrite (Hend Hflag) | rewrite (Hnone Hflag)]; reflexivity.
Qed.

End ElapsedFacts.

(** The run whose transcription raises, looked at much later. *)
Lemma elapsed_time_of_a_job_witness :
  Scenario.failing_run = (fst Scenario.failing_run, snd Scenario.failing_run)
  /\ BatchOps.get_elapsed_time 5000 (Batch.w_task (snd Scenario.failing_run)) = Some 100%Z.
Proof.
  assert (Hrun : Scenario.failing_run = (fst Scenario.failing_run, snd Scenario.failing_run))
    by apply surjective_pairing.
  split; [exact Hrun|].
  exact (proj1 (elapsed_time_of_a_job Scenario.failing_env Scenario.video "small" None None
                  None false None (fst Scenario.failing_run) (snd Scenario.failing_run)
                  5000%Z Hrun) eq_refl).
Defined.

(* ===================================================================== *)
(** * The fractions the download and the conversion report *)
(* ===================================================================== *)

Section HookFacts.
Import Notions AudioUtils AudioNotions.
Implicit Types (hook : DownloadProgressHook) (d : ProgressDict).

Lemma positive_is_truthy (q : Q) : (0 < q)%Q -> truthy_number (Some q) = true.
Proof.
  intros Hq. unfold truthy_number. destruct (Qeq_bool q 0) eqn:E; [|reflexivity].
  apply Qeq_bool_eq in E. lra.
Qed.

Lemma call_downloading total done d hook :
  callback hook = true -> (0 < total)%Q -> downloading_of total done d ->
  exists hook',
    __call__ d hook = (Ok tt, hook')
    /\ callback hook' = true
    /\ map fst (reported hook') = map fst (reported hook) ++ [(done / total)%Q].
Proof.
  intros Hcb Htotal (Hst & Hdone & Htot).
  unfold __call__. rewrite Hst. cbn [String.eqb Ascii.eqb Bool.eqb].
  unfold bind, modify, gets, call_back. cbn.
  rewrite Hcb, Hdone, Htot, (positive_is_truthy _ Htotal). cbn.
  eexists. split; [reflexivity|]. cbn. split; [exact Hcb|].
  rewrite map_app. reflexivity.
Qed.

Lemma call_blind d hook :
  downloading_blind d ->
  exists hook',
    __call__ d hook = (Ok tt, hook')
    /\ callback hook' = callback hook
    /\ reported hook' = reported hook.
Proof.
  intros (Hst & Htot).
  unfold __call__. rewrite Hst. cbn [String.eqb Ascii.eqb Bool.eqb].
  unfold bind, modify, gets, call_back. cbn.
  rewrite Htot, andb_false_r. eexists. split; [reflexivity|]. split; reflexivity.
Qed.

Lemma call_finished d hook :
  callback hook = true -> d_status d = Is "finished" ->
  exists hook',
    __call__ d hook = (Ok tt, hook')
    /\ map fst (reported hook') = map fst (reported hook) ++ [1.0%Q].
Proof.
  intros Hcb Hst. unfold __call__. rewrite Hst. cbn [String.eqb Ascii.eqb Bool.eqb].
  unfold bind, modify, gets, call_back. cbn. rewrite Hcb.
  eexists. split; [reflexivity|]. cbn. rewrite map_app. reflexivity.
Qed.

Lemma chain_of_shares total : (0 < total)%Q -> forall dones lo,
  chain lo dones total ->
  chain (lo / total) (map (fun done => done / total)%Q dones ++ [1.0%Q]) 1.
Proof.
  intros Htotal. induction dones as [|x l IH]; intros lo H.
  - cbn in *. split; [|lra]. apply Qle_shift_div_r; [exact Htotal | lra].
  - destruct H as [H1 H2]. cbn [map app chain]. split; [|apply IH, H2].
    unfold Qdiv. apply Qmult_le_compat_r; [exact H1|].
    apply Qinv_le_0_compat. lra.
Qed.

(** X25.  The hook on the reports of one download of known size: the callback
    receives the share of the bytes that are there after every report
    and 1.0 at the end, so the fractions lie between 0 and 1 and do not
    go down when the byte counts do not go down and stay within the
    size. *)
Theorem hook_fractions_rise total dones events last hook :
  callback hook = true ->
  (0 < total)%Q ->
  chain 0 dones total ->
  Forall2 (downloading_of total) dones events ->
  d_status last = Is "finished" ->
  exists hook',
    for_each (events ++ [last]) __call__ hook = (Ok tt, hook')
    /\ map fst (reported hook')
       = map fst (reported hook) ++ map (fun done => done / total)%Q dones ++ [1.0%Q]
    /\ chain 0 (map (fun done => done / total)%Q dones ++ [1.0%Q]) 1.
Proof.
  intros Hcb Htotal Hchain Hall Hlast.
  assert (Hrun : exists hook',
            for_each (events ++ [last]) __call__ hook = (Ok tt, hook')
            /\ map fst (reported hook')
               = map fst (reported hook) ++ map (fun done => done / total)%Q dones ++ [1.0%Q]).
  { clear Hchain. revert hook Hcb.
    induction Hall as [|done d dones events Hd Hall IH]; intros hook Hcb.
    - destruct (call_finished last hook Hcb Hlast) as (hook' & Hcall & Hrep).
      exists hook'. cbn [app for_each]. unfold bind. rewrite Hcall. split; [reflexivity|].
      exact Hrep.
    - destruct (call_downloading total done d hook Hcb Htotal Hd) as (hook1 & Hcall & Hcb1 & Hrep).
      destruct (IH hook1 Hcb1) as (hook' & Hloop & Hrep').
      exists hook'. cbn [app for_each]. unfold bind at 1. rewrite Hcall. split; [exact Hloop|].
      rewrite Hrep', Hrep, <- app_assoc. reflexivity. }
  destruct Hrun as (hook' & Hloop & Hrep). exists hook'.
  split; [exact Hloop|]. split; [exact Hrep|].
  apply (chain_lower (0 / total)); [unfold Qdiv; rewrite Qmult_0_l; lra|].
  apply chain_of_shares; assumption.
Qed.

(** X26.  A download whose size yt-dlp does not know (no total and no
    estimate, or 0 or [None] for them): nothing is reported while it
    runs, whatever the byte counts are, and 1.0 is reported at the end. *)
Theorem download_of_unknown_size_reports_the_end events last hook :
  callback hook = true ->
  Forall downloading_blind events ->
  d_status last = Is "finished" ->
  exists hook',
    for_each (events ++ [last]) __call__ hook = (Ok tt, hook')
    /\ map fst (reported hook') = map fst (reported hook) ++ [1.0%Q].
Proof.
  intros Hcb Hall Hlast. revert hook Hcb.
  induction Hall as [|d events Hd Hall IH]; intros hook Hcb.
  - destruct (call_finished last hook Hcb Hlast) as (hook' & Hcall & Hrep).
    exists hook'. cbn [app for_each]. unfold bind. rewrite Hcall. split; [reflexivity|].
    exact Hrep.
  - destruct (call_blind d hook Hd) as (hook1 & Hcall & Hcb1 & Hrep).
    destruct (IH hook1) as (hook' & Hloop & Hrep'); [rewrite Hcb1; exact Hcb|].
    exists hook'. cbn [app for_each]. unfold bind at 1. rewrite Hcall. split; [exact Hloop|].
    rewrite Hrep', Hrep. reflexivity.
Qed.

End HookFacts.

Section ConversionFacts.
Import Notions AudioUtils AudioNotions.
Implicit Types (c : Conversion) (lines : list StatLine).



(** The loop over the lines returns, whatever the lines are. *)
Lemma read_lines_return cb duration lines : forall c,
  exists c', for_each lines (read_line cb duration) c = (Ok tt, c').
Proof.
  induction lines as [|line lines IH]; intros c; [eexists; reflexivity|].
  cbn [for_each]. unfold bind at 1.
  assert (Hline : exists c1, read_line cb duration line c = (Ok tt, c1)).
  { unfold read_line. destruct line; try (eexists; reflexivity).
    destruct (truthy_number duration); [|eexists; reflexivity].
    destruct duration as [d|]; [|eexists; reflexivity].
    unfold bind, gets, report, modify, ret. cbn.
    destruct (_ || _); [|eexists; reflexivity]. destruct cb; eexists; reflexivity. }
  destruct Hline as (c1 & ->). apply IH.
Qed.



End ConversionFacts.

(** A download of 100 bytes that is reported at 0, 50 and 100 bytes. *)
Lemma hook_fractions_rise_witness :
  (AudioUtils.callback (AudioUtils.new true) = true
   /\ (0 < 100)%Q
   /\ Notions.chain 0 [0; 50; 100]%Q 100
   /\ Forall2 (AudioNotions.downloading_of 100) [0; 50; 100]%Q
              [Setup.downloading 0 100; Setup.downloading 50 100; Setup.downloading 100 100]
   /\ AudioUtils.d_status Setup.finished = AudioUtils.Is "finished")
  /\ Notions.chain 0 (map (fun done => done / 100)%Q [0; 50; 100]%Q ++ [1.0%Q]) 1.
Proof.
  assert (H1 : AudioUtils.callback (AudioUtils.new true) = true) by reflexivity.
  assert (H2 : (0 < 100)%Q) by lra.
  assert (H3 : Notions.chain 0 [0; 50; 100]%Q 100) by (cbn; lra).
  assert (H4 : Forall2 (AudioNotions.downloading_of 100) [0; 50; 100]%Q
                 [Setup.downloading 0 100; Setup.downloading 50 100;
                  Setup.downloading 100 100])
    by (repeat constructor).
  assert (H5 : AudioUtils.d_status Setup.finished = AudioUtils.Is "finished") by reflexivity.
  split; [exact (conj H1 (conj H2 (conj H3 (conj H4 H5))))|].
  destruct (hook_fractions_rise 100 [0; 50; 100]%Q
              [Setup.downloading 0 100; Setup.downloading 50 100; Setup.downloading 100 100]
              Setup.finished (AudioUtils.new true) H1 H2 H3 H4 H5) as (hook' & _ & _ & Hchain).
  exact Hchain.
Defined.

(** A live stream: yt-dlp knows no total. *)
Lemma download_of_unknown_size_reports_the_end_witness :
  (AudioUtils.callback (AudioUtils.new true) = true
   /\ Forall AudioNotions.downloading_blind [Setup.downloading_live 10; Setup.downloading_live 20]
   /\ AudioUtils.d_status Setup.finished = AudioUtils.Is "finished")
  /\ exists hook',
       for_each ([Setup.downloading_live 10; Setup.downloading_live 20] ++ [Setup.finished])
                AudioUtils.__call__ (AudioUtils.new true) = (Ok tt, hook')
       /\ map fst (AudioUtils.reported hook') = [1.0%Q].
Proof.
  assert (H1 : AudioUtils.callback (AudioUtils.new true) = true) by reflexivity.
  assert (H2 : Forall AudioNotions.downloading_blind
                 [Setup.downloading_live 10; Setup.downloading_live 20])
    by (repeat constructor).
  assert (H3 : AudioUtils.d_status Setup.finished = AudioUtils.Is "finished") by reflexivity.
  split; [exact (conj H1 (conj H2 H3))|].
  exact (download_of_unknown_size_reports_the_end
           [Setup.downloading_live 10; Setup.downloading_live 20] Setup.finished
           (AudioUtils.new true) H1 H2 H3).
Defined.


(* ===================================================================== *)
(** * The export of the results *)
(* ===================================================================== *)

Section ExportFacts.
Import ExportResults.
Implicit Types (fs : Files) (d : list (string * PyVal)) (paths : list (string * string)).

(** One round of the export loop when its file operation succeeds. *)
Lemma export_format_done fs d base fmt paths done :
  (forall op, In op (write_of d base fmt) -> f_do fs op = Ok tt) ->
  exists paths',
    export_format fs (PyDict d) base fmt paths done
    = (Ok paths', done ++ write_of d base fmt)
    /\ (List.NoDup (dict_keys paths) -> List.NoDup (dict_keys paths'))
    /\ (forall k, In k (dict_keys paths') <->
                  In k (dict_keys paths) \/ (In k known_formats /\ k = lower fmt))
    /\ ((forall k p, dict_get k paths = Some p -> p = base +:+ ("." +:+ k)) ->
        forall k p, dict_get k paths' = Some p -> p = base +:+ ("." +:+ k)).
Proof.
  intros Hdo. unfold export_format, write_of in *. cbv zeta in *.
  assert (Hset : forall key,
            In key known_formats -> key = lower fmt ->
            (List.NoDup (dict_keys paths) ->
             List.NoDup (dict_keys (dict_set key (base +:+ ("." +:+ key)) paths)))
            /\ (forall k, In k (dict_keys (dict_set key (base +:+ ("." +:+ key)) paths)) <->
                          In k (dict_keys paths) \/ (In k known_formats /\ k = lower fmt))
            /\ ((forall k p, dict_get k paths = Some p -> p = base +:+ ("." +:+ k)) ->
                forall k p, dict_get k (dict_set key (base +:+ ("." +:+ key)) paths) = Some p ->
                            p = base +:+ ("." +:+ k))).
  { intros key Hknown Hkey. split; [apply dict_keys_set_NoDup|]. split.
    - intros k. rewrite dict_keys_set_in. split.
      + intros [-> | H]; [right; split; assumption | left; exact H].
      + intros [H | [_ ->]]; [right; exact H | left; symmetry; exact Hkey].
    - intros Hold k p. destruct (String.eqb_spec k key) as [->|Hne].
      + rewrite dict_get_set_same. intros H. injection H as <-. reflexivity.
      + rewrite dict_get_set_other by exact Hne. apply Hold. }
  unfold result_get, file_op, bind, ret.
  destruct (String.eqb_spec (lower fmt) "srt") as [E|N1].
  { destruct (dict_get "segments" d); rewrite (Hdo _ (or_introl eq_refl));
      eexists; (split; [reflexivity|]); apply (Hset "srt"); cbn; auto. }
  destruct (String.eqb_spec (lower fmt) "txt") as [E|N2].
  { destruct (dict_get "text" d); rewrite (Hdo _ (or_introl eq_refl));
      eexists; (split; [reflexivity|]); apply (Hset "txt"); cbn; auto. }
  destruct (String.eqb_spec (lower fmt) "json") as [E|N3].
  { rewrite (Hdo _ (or_introl eq_refl)).
    eexists; (split; [reflexivity|]); apply (Hset "json"); cbn; auto. }
  destruct (String.eqb_spec (lower fmt) "vtt") as [E|N4].
  { destruct (dict_get "segments" d); rewrite (Hdo _ (or_introl eq_refl));
      eexists; (split; [reflexivity|]); apply (Hset "vtt"); cbn; auto. }
  exists paths. rewrite app_nil_r. split; [reflexivity|]. split; [auto|]. split; [|auto].
  intros k. split; [auto|]. intros [H | [Hk ->]]; [exact H|].
  cbn in Hk. exfalso. intuition congruence.
Qed.

(** The loop while every file operation succeeds. *)
Lemma export_loop_done fs d base formats : forall paths done,
  (forall op, In op (flat_map (write_of d base) formats) -> f_do fs op = Ok tt) ->
  exists paths',
    export_loop fs (PyDict d) base formats paths done
    = (Ok paths', done ++ flat_map (write_of d base) formats)
    /\ (List.NoDup (dict_keys paths) -> List.NoDup (dict_keys paths'))
    /\ (forall k, In k (dict_keys paths') <->
                  In k (dict_keys paths) \/ (In k known_formats /\ In k (map lower formats)))
    /\ ((forall k p, dict_get k paths = Some p -> p = base +:+ ("." +:+ k)) ->
        forall k p, dict_get k paths' = Some p -> p = base +:+ ("." +:+ k)).
Proof.
  induction formats as [|fmt formats IH]; intros paths done Hdo.
  - exists paths. cbn. unfold ret. rewrite app_nil_r. split; [reflexivity|]. split; [auto|].
    split; [|auto]. intros k. split; [auto|]. intros [H | [_ []]]. exact H.
  - cbn [flat_map] in Hdo.
    destruct (export_format_done fs d base fmt paths done) as (paths1 & Hone & Hnd1 & Hk1 & Hp1).
    { intros op Hop. apply Hdo, in_or_app. left. exact Hop. }
    destruct (IH paths1 (done ++ write_of d base fmt)) as (paths' & Hloop & Hnd & Hk & Hp).
    { intros op Hop. apply Hdo, in_or_app. right. exact Hop. }
    exists paths'. split.
    { cbn [export_loop flat_map]. unfold bind at 1. rewrite Hone, Hloop, <- app_assoc.
      reflexivity. }
    split; [auto|]. split; [|auto].
    intros k. rewrite Hk, Hk1. cbn [map In]. intuition (subst; auto).
Qed.

(** X28.  The export of a result that is a dictionary, when no file operation
    raises: the directory is made when it is not there; for every entry
    of [formats] that is, without regard to upper and lower case, one of
    srt, txt, json and vtt, the file of that format is written, as often
    as the format is named; every other entry is passed over without a
    word; and the dictionary that is returned has one entry for every
    format written, with the name of its file. *)
Theorem export_writes_the_known_formats fs url d output_dir formats :
  (forall op, f_do fs op = Ok tt) ->
  let base := f_join fs output_dir ("yt_" +:+ video_id url) in
  exists paths,
    _export_results fs url (PyDict d) output_dir formats []
    = (Ok paths,
       (if f_exists fs output_dir then [] else [MakeDirs output_dir])
       ++ flat_map (write_of d base) formats)
    /\ List.NoDup (dict_keys paths)
    /\ (forall k, In k (dict_keys paths) <-> In k known_formats /\ In k (map lower formats))
    /\ (forall k p, dict_get k paths = Some p -> p = base +:+ ("." +:+ k))
    /\ (forall fmt, known fmt = false -> write_of d base fmt = []).
Proof.
  intros Hdo base.
  set (made := if f_exists fs output_dir then [] else [MakeDirs output_dir]).
  destruct (export_loop_done fs d base formats [] made (fun op _ => Hdo op))
    as (paths & Hloop & Hnd & Hk & Hp).
  exists paths. split.
  { unfold _export_results, bind. fold base.
    destruct (f_exists fs output_dir); cbn [negb]; unfold made in *.
    - unfold ret. exact Hloop.
    - unfold file_op. rewrite Hdo. exact Hloop. }
  split; [apply Hnd; constructor|]. split.
  { intros k. rewrite Hk. cbn. tauto. }
  split; [apply Hp; intros k p H; discriminate H|].
  intros fmt Hf. unfold known, known_formats in Hf. cbn in Hf.
  apply orb_false_iff in Hf as [H1 Hf]. apply orb_false_iff in Hf as [H2 Hf].
  apply orb_false_iff in Hf as [H3 Hf]. apply orb_false_iff in Hf as [H4 _].
  unfold write_of. cbv zeta. rewrite H1, H2, H3, H4. reflexivity.
Qed.

(** X29.  The export gives up at the first file operation that raises: the
    files of the formats named before it are written and stay, the
    formats named after it are not looked at, and the exception leaves
    the export. *)
Theorem export_stops_at_the_first_failure fs url d output_dir before fmt after op e :
  f_exists fs output_dir = true ->
  let base := f_join fs output_dir ("yt_" +:+ video_id url) in
  (forall op', In op' (flat_map (write_of d base) before) -> f_do fs op' = Ok tt) ->
  write_of d base fmt = [op] ->
  f_do fs op = Raise e ->
  _export_results fs url (PyDict d) output_dir (before ++ fmt :: after) []
  = (Raise e, flat_map (write_of d base) before).
Proof.
  intros Hex base Hbefore Hop Hfail.
  unfold _export_results, bind. fold base. rewrite Hex. cbn [negb]. unfold ret at 1.
  assert (Hloop : forall paths done,
            (forall op', In op' (flat_map (write_of d base) before) -> f_do fs op' = Ok tt) ->
            export_loop fs (PyDict d) base (before ++ fmt :: after) paths done
            = (Raise e, done ++ flat_map (write_of d base) before)).
  { clear Hbefore. induction before as [|f0 before IH]; intros paths done Hb.
    - cbn [app export_loop flat_map]. rewrite app_nil_r. unfold bind at 1.
      unfold export_format, write_of in *. cbv zeta in *.
      unfold result_get, file_op, bind, ret.
      destruct (String.eqb (lower fmt) "srt").
      { injection Hop as <-. destruct (dict_get "segments" d); rewrite Hfail; reflexivity. }
      destruct (String.eqb (lower fmt) "txt").
      { injection Hop as <-. destruct (dict_get "text" d); rewrite Hfail; reflexivity. }
      destruct (String.eqb (lower fmt) "json").
      { injection Hop as <-. rewrite Hfail. reflexivity. }
      destruct (String.eqb (lower fmt) "vtt").
      { injection Hop as <-. destruct (dict_get "segments" d); rewrite Hfail; reflexivity. }
      discriminate Hop.
    - cbn [flat_map] in Hb.
      destruct (export_format_done fs d base f0 paths done) as (paths1 & Hone & _).
      { intros op' H. apply Hb, in_or_app. left. exact H. }
      cbn [app export_loop flat_map]. unfold bind at 1. rewrite Hone.
      rewrite IH by (intros op' H; apply Hb, in_or_app; right; exact H).
      rewrite <- app_assoc. reflexivity. }
  rewrite (Hloop [] [] Hbefore). reflexivity.
Qed.

End ExportFacts.

Section VideoIdFacts.
Import ExportResults.

Lemma append_cons c (s t : string) : String c s +:+ t = String c (s +:+ t).
Proof. reflexivity. Qed.

Lemma append_empty (s : string) : s +:+ "" = s.
Proof. induction s as [|c s IH]; [reflexivity | rewrite append_cons, IH; reflexivity]. Qed.

Lemma append_char (piece : string) c s : (piece +:+ String c "") +:+ s = piece +:+ String c s.
Proof.
  induction piece as [|c' p IH]; [reflexivity | rewrite !append_cons, IH; reflexivity].
Qed.

(** A string without the separator is one piece. *)
Lemma split_from_absent sep s : forall piece,
  contains sep s = false -> split_from sep 0 piece s = [piece +:+ s].
Proof.
  induction s as [|c s IH]; intros piece H.
  - cbn [split_from]. rewrite append_empty. reflexivity.
  - cbn [contains] in H. cbn [split_from].
    destruct (String.prefix sep (String c s)); [discriminate H|].
    rewrite IH by exact H. rewrite append_char. reflexivity.
Qed.

Lemma prefix_empty (s : string) : String.prefix "" s = true.
Proof. destruct s; reflexivity. Qed.

Lemma prefix_of_char (a c : ascii) (s : string) :
  String.prefix (String a "") (String c s) = if Ascii.ascii_dec a c then true else false.
Proof.
  cbn [String.prefix]. destruct (Ascii.ascii_dec a c); [destruct s; reflexivity | reflexivity].
Qed.

(** The piece in front of the first ["&"]. *)
Lemma split_from_first id rest : forall piece,
  contains "&" id = false ->
  split_from "&" 0 piece (id +:+ String "&" rest)
  = (piece +:+ id) :: split_from "&" 0 "" rest.
Proof.
  induction id as [|c id IH]; intros piece H.
  - change ("" +:+ String "&" rest) with (String "&" rest). cbn [split_from].
    rewrite prefix_of_char. destruct (Ascii.ascii_dec "&" "&") as [_|N]; [|contradiction].
    rewrite append_empty. reflexivity.
  - rewrite append_cons. cbn [contains] in H. cbn [split_from]. rewrite prefix_of_char in *.
    destruct (Ascii.ascii_dec "&" c); [discriminate H|].
    rewrite IH by exact H. rewrite append_char. reflexivity.
Qed.

(** X30.  The file name of the export for the usual forms of a URL: the text
    behind [youtu.be/], and the text behind [watch?v=] up to the first
    ["&"].  What else follows the identifier, as in
    [https://youtu.be/x?t=10], goes into the file name. *)
Theorem video_id_of_common_urls id rest :
  (contains "v=" id = false -> contains "/" id = false ->
   video_id ("https://youtu.be/" +:+ id) = id)
  /\ (contains "v=" id = false -> contains "&" id = false ->
      video_id ("https://www.youtube.com/watch?v=" +:+ id) = id)
  /\ (contains "v=" (id +:+ String "&" rest) = false -> contains "&" id = false ->
      video_id ("https://www.youtube.com/watch?v=" +:+ id +:+ String "&" rest) = id).
Proof.
  split; [|split].
  - intros Hv Hs. unfold video_id.
    change ("https://youtu.be/" +:+ id)
      with (String "h" (String "t" (String "t" (String "p" (String "s" (String ":"
           (String "/" (String "/" (String "y" (String "o" (String "u" (String "t"
           (String "u" (String "." (String "b" (String "e" (String "/" id))))))))))))))))).
    assert (E : contains "v=" (String "h" (String "t" (String "t" (String "p" (String "s"
                  (String ":" (String "/" (String "/" (String "y" (String "o" (String "u"
                  (String "t" (String "u" (String "." (String "b" (String "e"
                  (String "/" id))))))))))))))))) = false).
    { cbn. destruct id as [|c r]; [reflexivity|]. exact Hv. }
    rewrite E. unfold split. cbn. rewrite prefix_empty.
    rewrite (split_from_absent "/" id "" Hs). reflexivity.
  - intros Hv Ha. unfold video_id, split.
    rewrite !append_cons. change ("" +:+ id) with id.
    cbn. rewrite !prefix_empty. cbn.
    rewrite (split_from_absent "v=" id "" Hv). cbn [List.last].
    change ("" +:+ id) with id.
    rewrite (split_from_absent "&" id "" Ha). reflexivity.
  - intros Hv Ha. unfold video_id, split.
    set (tail := id +:+ String "&" rest) in *.
    rewrite !append_cons. change ("" +:+ tail) with tail.
    cbn. rewrite !prefix_empty. cbn.
    rewrite (split_from_absent "v=" tail "" Hv). cbn [List.last].
    change ("" +:+ tail) with tail. unfold tail.
    rewrite (split_from_first id rest "" Ha). reflexivity.
Qed.

End VideoIdFacts.

(** The formats [SRT], [pdf] and [srt] for one video: one path is
    returned. *)
Lemma export_writes_the_known_formats_witness :
  (forall op, ExportResults.f_do Setup.plain_files op = Ok tt)
  /\ exists paths,
       fst (ExportResults._export_results Setup.plain_files Scenario.video
              (PyDict [("text", PyStr "hello")]) "/out" ["SRT"; "pdf"; "srt"] [])
       = Ok paths
       /\ forall k, In k (dict_keys paths) <->
                    In k ExportResults.known_formats
                    /\ In k (map ExportResults.lower ["SRT"; "pdf"; "srt"]).
Proof.
  assert (H : forall op, ExportResults.f_do Setup.plain_files op = Ok tt)
    by (intros op; reflexivity).
  split; [exact H|].
  destruct (export_writes_the_known_formats Setup.plain_files Scenario.video
              [("text", PyStr "hello")] "/out" ["SRT"; "pdf"; "srt"] H)
    as (paths & Hrun & _ & Hkeys & _).
  exists paths. rewrite Hrun. split; [reflexivity | exact Hkeys].
Defined.

(** The formats [srt], [TXT] and [json] where text files cannot be
    written: the subtitle file is written, the other two are not. *)
Lemma export_stops_at_the_first_failure_witness :
  (ExportResults.f_exists Setup.no_text_files "/out" = true
   /\ (forall op',
         In op' (flat_map (ExportResults.write_of [("text", PyStr "hello")] "/out/yt_x") ["srt"]) ->
         ExportResults.f_do Setup.no_text_files op' = Ok tt)
   /\ ExportResults.write_of [("text", PyStr "hello")] "/out/yt_x" "TXT"
      = [ExportResults.WriteTxt (PyStr "hello") "/out/yt_x.txt"]
   /\ ExportResults.f_do Setup.no_text_files
        (ExportResults.WriteTxt (PyStr "hello") "/out/yt_x.txt")
      = Raise "No space left on device")
  /\ ExportResults._export_results Setup.no_text_files Scenario.video
       (PyDict [("text", PyStr "hello")]) "/out" (["srt"] ++ "TXT" :: ["json"]) []
     = (Raise "No space left on device",
        [ExportResults.WriteSrt (PyList []) "/out/yt_x.srt"]).
Proof.
  assert (H1 : ExportResults.f_exists Setup.no_text_files "/out" = true) by reflexivity.
  assert (H2 : forall op',
             In op' (flat_map (ExportResults.write_of [("text", PyStr "hello")] "/out/yt_x")
                              ["srt"]) ->
             ExportResults.f_do Setup.no_text_files op' = Ok tt).
  { intros op' [<- | []]. reflexivity. }
  assert (H3 : ExportResults.write_of [("text", PyStr "hello")] "/out/yt_x" "TXT"
               = [ExportResults.WriteTxt (PyStr "hello") "/out/yt_x.txt"]) by reflexivity.
  assert (H4 : ExportResults.f_do Setup.no_text_files
                 (ExportResults.WriteTxt (PyStr "hello") "/out/yt_x.txt")
               = Raise "No space left on device") by reflexivity.
  split; [exact (conj H1 (conj H2 (conj H3 H4)))|].
  exact (export_stops_at_the_first_failure Setup.no_text_files Scenario.video
           [("text", PyStr "hello")] "/out" ["srt"] "TXT" ["json"]
           (ExportResults.WriteTxt (PyStr "hello") "/out/yt_x.txt")
           "No space left on device" H1 H2 H3 H4).
Defined.

Lemma video_id_of_common_urls_witness :
  (contains "v=" "dQw4" = false /\ contains "&" "dQw4" = false)
  /\ ExportResults.video_id ("https://www.youtube.com/watch?v=" +:+ "dQw4") = "dQw4".
Proof.
  assert (H1 : contains "v=" "dQw4" = false) by reflexivity.
  assert (H2 : contains "&" "dQw4" = false) by reflexivity.
  split; [split; assumption|].
  exact (proj1 (proj2 (video_id_of_common_urls "dQw4" "")) H1 H2).
Defined.
